(** * Research agent: search-result-to-document pipeline

    A shallow embedding of [research_agent.py]: the result-list parser of
    [WebSearcher.search], the content extraction of
    [ContentExtractor.fetch_content], the orchestration of
    [ResearchAgent.research_topic] / [research_url] and the three formatters
    of [ResultFormatter].

    Conventions.
    - A Python [str] is a [string]; one [ascii] stands for one character
      (code points below 256).
    - A Python [int] is a [Z].
    - A parsed page (a BeautifulSoup tree) is a [node]; the methods of the
      tree that the program calls ([find_all], [find], [get], [get_text],
      [.string], [decompose]) are functions on [node].
    - The libraries the program only calls into ([requests], [urllib.parse],
      [html2text], [rich], the serialisation of a tag by [str]) are the
      fields of the classes [Library], [Network] and [Console]; what
      raises in Python returns [Raised].
    - The network is threaded explicitly: a request takes the state of the
      world and returns the next one. A request returns a response, raises
      an exception, or is interrupted from the keyboard.
    - [console.print] reads its text as markup and raises [MarkupError] on
      a closing tag that closes nothing. The prints of a text that holds a
      URL, a query, a path, a branch or the result, the warning of
      [fetch_content] among them, are part of the model. The prints of a
      text that is fixed in the source, or fixed but for a number, are
      well-formed and are left out; so are the prints of the handlers of
      [search], [run_git_command] and [run_gh_command], whose text is
      fixed but for the message of [requests] about the search URL or of
      [subprocess] about the program. *)

From Stdlib Require Import String Ascii List ZArith Lia Bool Arith.
From Stdlib Require Import DecimalString.
Import ListNotations.
Local Open Scope string_scope.
Local Open Scope list_scope.

(** ** Python built-ins on [str] and [list] *)

Module Py.

(** [s.startswith(p)] *)
Definition startswith (s p : string) : bool := String.prefix p s.

(** [str.isspace] on one character (code points below 256). *)
Definition isspace (c : ascii) : bool :=
  let n := nat_of_ascii c in
  (((9 <=? n) && (n <=? 13)) || ((28 <=? n) && (n <=? 32))
   || (n =? 133) || (n =? 160))%nat.

(** [s.lstrip()] *)
Fixpoint lstrip (s : string) : string :=
  match s with
  | String c s' => if isspace c then lstrip s' else s
  | EmptyString => EmptyString
  end.

(** [s.rstrip()] *)
Fixpoint rstrip (s : string) : string :=
  match s with
  | String c s' =>
      match rstrip s' with
      | EmptyString => if isspace c then EmptyString else String c EmptyString
      | r => String c r
      end
  | EmptyString => EmptyString
  end.

(** [s.strip()] *)
Definition strip (s : string) : string := rstrip (lstrip s).

(** [sep.join(l)] *)
Definition join (sep : string) (l : list string) : string :=
  String.concat sep l.

(** [len(s)] *)
Definition len (s : string) : Z := Z.of_nat (String.length s).

(** [s[:n]] for a literal [n >= 0]. *)
Definition str_slice_to (n : nat) (s : string) : string := substring 0 n s.

(** [l[:m]]: the first [m] items, and for a negative [m] all but the
    last [-m]. *)
Definition slice_to {A} (m : Z) (l : list A) : list A :=
  if (0 <=? m)%Z then firstn (Z.to_nat m) l
  else firstn (length l - Z.to_nat (- m)) l.

(** The truth value of a [str]: non-empty. *)
Definition truthy (s : string) : bool :=
  match s with EmptyString => false | _ => true end.

(** [d.get(k, default)] on a dict kept as an association list. *)
Fixpoint dict_get {V} (d : list (string * V)) (k : string) (default : V) : V :=
  match d with
  | [] => default
  | (k', v) :: d' => if String.eqb k' k then v else dict_get d' k default
  end.

(** [s * n] *)
Fixpoint str_mul (s : string) (n : nat) : string :=
  match n with O => EmptyString | S n' => s ++ str_mul s n' end.

(** [str(i)] for a non-negative [int]. *)
Definition str_of_nat (i : nat) : string :=
  NilEmpty.string_of_uint (Nat.to_uint i).

End Py.

(** What a call that may raise gives back. *)
Inductive outcome (A : Type) : Type :=
| Returned (a : A)
| Raised.
Arguments Returned {A} a.
Arguments Raised {A}.

(** How a call ends that waits for the network, or that calls one that
    does: it returns; it raises an exception of the class [Exception],
    the one an [except Exception] catches; or the user interrupts it and
    it raises [KeyboardInterrupt], which is no [Exception] and passes
    through an [except Exception]. *)
Inductive flow (A : Type) : Type :=
| Normal (a : A)
| Exception
| KeyboardInterrupt.
Arguments Normal {A} a.
Arguments Exception {A}.
Arguments KeyboardInterrupt {A}.

(** The value of a call that returned a list, and no item otherwise. *)
Definition returned_items {A : Type} (f : flow (list A)) : list A :=
  match f with
  | Normal l => l
  | Exception | KeyboardInterrupt => []
  end.

(** ** The page tree (BeautifulSoup) *)

#[local] Set Warnings "-register-all".

(** A text node, or a tag with its name, the values of its [class]
    attribute (the one multi-valued attribute the program looks at), its
    other attributes and its children. The soup itself is the tag named
    [[document]]. A string of another class than [NavigableString] and
    [CData] is an [OtherString]: a comment, and the text the parser finds
    inside [script], [style], [template], [rt] and [rp], which it makes a
    [Script], a [Stylesheet], a [TemplateString], a [RubyTextString] and
    a [RubyParenthesisString]. *)
Inductive node : Type :=
| NavigableString (s : string)
| Tag (name : string) (classes : list string)
      (attrs : list (string * string)) (contents : list node)
| OtherString (s : string).

Module Soup.

(** [tag.descendants]: every node below [n], in document order. *)
Fixpoint descendants (n : node) : list node :=
  match n with
  | Tag _ _ _ cs => flat_map (fun c => c :: descendants c) cs
  | NavigableString _ | OtherString _ => []
  end.

Definition has_name (names : list string) (n : node) : bool :=
  match n with
  | Tag nm _ _ _ => existsb (String.eqb nm) names
  | NavigableString _ | OtherString _ => false
  end.

Definition has_class (cls : string) (n : node) : bool :=
  match n with
  | Tag _ cl _ _ => existsb (String.eqb cls) cl
  | NavigableString _ | OtherString _ => false
  end.

(** [tag.find_all(name, class_=cls)] *)
Definition find_all_class (name cls : string) (n : node) : list node :=
  filter (fun d => has_name [name] d && has_class cls d) (descendants n).

(** [tag.find(name, class_=cls)] *)
Definition find_class (name cls : string) (n : node) : option node :=
  hd_error (find_all_class name cls n).

(** [tag.find_all(names)], also written [tag(names)]. *)
Definition find_all (names : list string) (n : node) : list node :=
  filter (has_name names) (descendants n).

(** [tag.find(name)], also written [tag.name] as in [soup.title]. *)
Definition find (name : string) (n : node) : option node :=
  hd_error (find_all [name] n).

(** [tag.get(key, default)] for a single-valued attribute. *)
Definition get (n : node) (key default : string) : string :=
  match n with
  | Tag _ _ at_ _ => Py.dict_get at_ key default
  | NavigableString _ | OtherString _ => default
  end.

(** [key in tag.attrs] for a single-valued attribute. *)
Definition has_attr (n : node) (key : string) : bool :=
  match n with
  | Tag _ _ at_ _ => existsb (fun kv => String.eqb (fst kv) key) at_
  | NavigableString _ | OtherString _ => false
  end.

(** The strings [get_text] takes below a tag of an ordinary name, in
    document order: those of the classes [NavigableString] and [CData];
    an [OtherString] is passed over. *)
Definition all_strings (n : node) : list string :=
  flat_map (fun d => match d with
                     | NavigableString s => [s]
                     | Tag _ _ _ _ | OtherString _ => []
                     end)
           (descendants n).

(** [tag.get_text(separator=sep, strip=True)] on a tag of an ordinary
    name: every string taken is stripped, the empty ones skipped, the
    rest joined by [sep]. *)
Definition get_text_strip (sep : string) (n : node) : string :=
  Py.join sep (filter Py.truthy (map Py.strip (all_strings n))).

(** [tag.string]: the text of a tag whose only child is a string, of
    whatever class, or whose only child is a tag that has a [.string];
    [None] otherwise. *)
Fixpoint string_ (n : node) : option string :=
  match n with
  | NavigableString s | OtherString s => Some s
  | Tag _ _ _ [c] => string_ c
  | Tag _ _ _ _ => None
  end.

(** The tree after [for t in soup(names): t.decompose()]: every tag with
    one of the names is gone, with all that is below it. *)
Fixpoint decompose_all (names : list string) (n : node) : node :=
  match n with
  | NavigableString s => NavigableString s
  | OtherString s => OtherString s
  | Tag nm cl at_ cs =>
      Tag nm cl at_
        (flat_map (fun c => if has_name names c then []
                            else [decompose_all names c]) cs)
  end.


End Soup.

(** ** The data the pipeline passes around *)

(** A search-result stub: the dict with keys ['title'], ['url'] and
    ['snippet'] that [WebSearcher.search] appends. *)
Module Result.
Record t : Type := mk { title : string; url : string; snippet : string }.
End Result.

(** The dict with keys ['title'], ['url'], ['content'] (markdown) and
    ['text'] (plain) that [ContentExtractor.fetch_content] returns. *)
Module Extracted.
Record t : Type :=
  mk { title : string; url : string; content : string; text : string }.
End Extracted.

(** An entry of ['results']: the keys of a stub and, when it is there, the
    key ['extracted'] (the formatters test [['extracted' in result]]). *)
Module Enriched.
Record t : Type := mk { result : Result.t; extracted : option Extracted.t }.
End Enriched.

(** What the formatters receive: the dict of [research_topic] (it has the
    key ['query']) or the dict of [research_url]. *)
Inductive ResearchDocument : Type :=
| TopicDoc (query : string) (results : list Enriched.t)
| UrlDoc (page : Extracted.t).

(** ** The libraries the program calls *)

(** The result of [urllib.parse.urlparse], of which the program reads the
    one field [query]. *)
Record ParseResult : Type := { query : string }.

Class Library : Type :=
  { (** [urllib.parse.quote_plus] *)
    quote_plus : string -> string;
    (** [urllib.parse.urlparse] *)
    urlparse : string -> outcome ParseResult;
    (** [urllib.parse.parse_qs]: the dict from a name to its values. *)
    parse_qs : string -> outcome (list (string * list string));
    (** [str(tag)]: the markup of a tag. *)
    tag_str : node -> string;
    (** [html2text.HTML2Text.handle], configured as in
        [ContentExtractor.__init__]. *)
    html2text_handle : string -> outcome string }.

(** A response of [requests]: its status and the tree that
    [BeautifulSoup(response.text, 'lxml')] builds from its body. *)
Record Response : Type := { status_code : Z; soup_of : node }.

Class Network : Type :=
  { World : Type;
    (** [session.get(url, timeout=t)] *)
    session_get : string -> Z -> World -> flow Response * World;
    (** [str(e)] for the exception [e] that the [try] block of
        [fetch_content] raises on a URL, in the state of the world in
        which the fetch begins: the message of [requests] for a request
        that fails or is answered with a 4xx or 5xx status, the message
        of the converter for a conversion that fails. *)
    str_exception : string -> World -> string }.

(** The console of [rich]. *)
Class Console : Type :=
  { (** [console.print(text)] for a string [text], which is read as
        markup: [Raised] is the [MarkupError] of a closing tag that
        closes nothing. *)
    console_print : string -> outcome unit;
    (** [console.print(Markdown(text))] *)
    print_markdown : string -> outcome unit }.

(** [response.raise_for_status()]: raises on a 4xx or 5xx status. *)
Definition raise_for_status (response : Response) : outcome unit :=
  if ((400 <=? status_code response) && (status_code response <? 600))%Z
  then Raised else Returned tt.

(** The newline character, and the text of a line break. *)
Definition nl : string := String (ascii_of_nat 10) EmptyString.

(** ** [class WebSearcher] *)

Module WebSearcher.
Section WebSearcher.
Context {lib : Library} {net : Network}.

Definition search_url (query : string) : string :=
  "https://html.duckduckgo.com/html/?q=" ++ quote_plus query.

(** The body of the inner [try]:
    [parse_qs(urlparse(url).query).get('uddg', [''])[0]]. *)
Definition actual_url (url : string) : outcome string :=
  match urlparse url with
  | Raised => Raised
  | Returned parsed =>
      match parse_qs (query parsed) with
      | Raised => Raised
      | Returned d =>
          match Py.dict_get d "uddg" [""] with
          | v :: _ => Returned v
          | [] => Raised
          end
      end
  end.

(** Lines 61-71: the destination of a DuckDuckGo redirect link; a bare
    [except: pass] keeps [url] when the [try] raises. *)
Definition resolve_redirect (url : string) : string :=
  if Py.startswith url "//duckduckgo.com/l/?" then
    match actual_url url with
    | Returned actual => if Py.truthy actual then actual else url
    | Raised => url
    end
  else url.

(** One turn of the loop of [search]: [results] after the container
    [result] has been looked at. *)
Definition search_step (results : list Result.t) (result : node)
  : list Result.t :=
  let title_tag := Soup.find_class "a" "result__a" result in
  let snippet_tag := Soup.find_class "a" "result__snippet" result in
  match title_tag with
  | Some title_tag =>
      let title := Soup.get_text_strip "" title_tag in
      let url := Soup.get title_tag "href" "" in
      let snippet :=
        match snippet_tag with
        | Some snippet_tag => Soup.get_text_strip "" snippet_tag
        | None => ""
        end in
      let url := resolve_redirect url in
      results ++ [Result.mk title url snippet]
  | None => results
  end.

(** [soup.find_all('div', class_='result')]: the result containers. *)
Definition containers (soup : node) : list node :=
  Soup.find_all_class "div" "result" soup.

(** A container is well formed when it has a title anchor. *)
Definition well_formed (result : node) : bool :=
  match Soup.find_class "a" "result__a" result with
  | Some _ => true
  | None => false
  end.

(** Lines 48-79: from the parsed result page to the stubs. *)
Definition parse_results (soup : node) (max_results : Z) : list Result.t :=
  fold_left search_step (Py.slice_to max_results (containers soup)) [].

(** [WebSearcher.search]: any exception gives the empty list, and an
    interrupt of the request passes through. The print of the handler
    shows the message of an exception of the request for
    [search_url query], a URL in which [quote_plus] has escaped every
    bracket of the query; it returns. *)
Definition search (query : string) (max_results : Z) (w : World)
  : flow (list Result.t) * World :=
  match session_get (search_url query) 10 w with
  | (KeyboardInterrupt, w') => (KeyboardInterrupt, w')
  | (Exception, w') => (Normal [], w')
  | (Normal response, w') =>
      match raise_for_status response with
      | Raised => (Normal [], w')
      | Returned _ =>
          (Normal (parse_results (soup_of response) max_results), w')
      end
  end.

End WebSearcher.
End WebSearcher.

(** ** [class ContentExtractor] *)

Module ContentExtractor.
Section ContentExtractor.
Context {lib : Library} {net : Network} {con : Console}.

(** The tags removed before the content is looked for. *)
Definition denylist : list string :=
  ["script"; "style"; "nav"; "footer"; "header"; "aside"].

(** Lines 115-120: the title of the page. *)
Definition extract_title (soup : node) : string :=
  match Soup.find "title" soup with
  | Some title_tag =>
      match Soup.string_ title_tag with
      | Some s => if Py.truthy s then Py.strip s else ""
      | None => ""
      end
  | None =>
      match Soup.find "h1" soup with
      | Some h1 => Soup.get_text_strip "" h1
      | None => ""
      end
  end.


(** [a or b]: a tag is always true, [None] is false. *)
Definition or_else {A} (a b : option A) : option A :=
  match a with Some _ => a | None => b end.

(** Line 127, on the tree left by the removal. *)
Definition main_content (soup : node) : option node :=
  or_else (Soup.find "main" soup)
          (or_else (Soup.find "article" soup) (Soup.find "body" soup)).

(** Lines 113-142, the [try] block from the parsed page on: the dict,
    [None] for a page without a region, or the exception of the
    converter. *)
Definition parse_page (url : string) (soup : node)
  : outcome (option Extracted.t) :=
  let title := extract_title soup in
  let soup := Soup.decompose_all denylist soup in
  match main_content soup with
  | Some main_content =>
      match html2text_handle (tag_str main_content) with
      | Returned markdown_content =>
          let plain_text := Soup.get_text_strip nl main_content in
          Returned (Some (Extracted.mk title url markdown_content plain_text))
      | Raised => Raised
      end
  | None => Returned None
  end.

(** The dict [fetch_content] has for the parsed page: the one the [try]
    block returns, and none where the converter raises. *)
Definition extract (url : string) (soup : node) : option Extracted.t :=
  match parse_page url soup with
  | Returned content => content
  | Raised => None
  end.

(** The text of line 145, [e] being [str(e)]. *)
Definition warning (url e : string) : string :=
  "[yellow]Warning: Could not fetch " ++ url ++ ": " ++ e ++ "[/yellow]".

(** Lines 144-146, the handler: the warning is printed and [None]
    returned; a [MarkupError] of the print leaves [fetch_content]. [w] is
    the state in which the fetch began, [w'] the state the request
    left. *)
Definition handler (url : string) (w w' : World)
  : flow (option Extracted.t) * World :=
  match console_print (warning url (str_exception url w)) with
  | Returned _ => (Normal None, w')
  | Raised => (Exception, w')
  end.

(** [ContentExtractor.fetch_content] *)
Definition fetch_content (url : string) (w : World)
  : flow (option Extracted.t) * World :=
  match session_get url 15 w with
  | (KeyboardInterrupt, w') => (KeyboardInterrupt, w')
  | (Exception, w') => handler url w w'
  | (Normal response, w') =>
      match raise_for_status response with
      | Raised => handler url w w'
      | Returned _ =>
          match parse_page url (soup_of response) with
          | Returned content => (Normal content, w')
          | Raised => handler url w w'
          end
      end
  end.

End ContentExtractor.
End ContentExtractor.

(** ** [class ResearchAgent] *)

Module ResearchAgent.
Section ResearchAgent.
Context {lib : Library} {net : Network} {con : Console}.

(** [if self.verbose: console.print(text)] *)
Definition verbose_print (verbose : bool) (text : string) : outcome unit :=
  if verbose then console_print text else Returned tt.

(** The texts of lines 169, 201 and 230. *)
Definition researching (query : string) : string :=
  "[cyan]Researching:[/cyan] " ++ query.

Definition fetching (url : string) : string := "  Fetching: " ++ url.

Definition fetching_url (url : string) : string :=
  "[cyan]Fetching:[/cyan] " ++ url.

(** The loop of lines 199-210, [extracted_content] being what has been
    appended so far. An exception of a print or of [fetch_content], and
    an interrupt, end the loop and leave it. *)
Fixpoint extract_loop (verbose : bool) (search_results : list Result.t)
    (extracted_content : list Enriched.t) (w : World)
  : flow (list Enriched.t) * World :=
  match search_results with
  | [] => (Normal extracted_content, w)
  | result :: rest =>
      match verbose_print verbose (fetching (Result.url result)) with
      | Raised => (Exception, w)
      | Returned _ =>
          match ContentExtractor.fetch_content (Result.url result) w with
          | (Normal (Some content), w') =>
              extract_loop verbose rest
                (extracted_content ++ [Enriched.mk result (Some content)]) w'
          | (Normal None, w') => extract_loop verbose rest extracted_content w'
          | (Exception, w') => (Exception, w')
          | (KeyboardInterrupt, w') => (KeyboardInterrupt, w')
          end
      end
  end.

(** The same turns without the list that is built: each stub with what
    [fetch_content] returns for it at its turn, in rank order, when
    every turn returns. *)
Fixpoint fetch_all (verbose : bool) (search_results : list Result.t)
    (w : World) : flow (list (Result.t * option Extracted.t)) * World :=
  match search_results with
  | [] => (Normal [], w)
  | result :: rest =>
      match verbose_print verbose (fetching (Result.url result)) with
      | Raised => (Exception, w)
      | Returned _ =>
          match ContentExtractor.fetch_content (Result.url result) w with
          | (Normal content, w') =>
              match fetch_all verbose rest w' with
              | (Normal outcomes, w'') =>
                  (Normal ((result, content) :: outcomes), w'')
              | (Exception, w'') => (Exception, w'')
              | (KeyboardInterrupt, w'') => (KeyboardInterrupt, w'')
              end
          | (Exception, w') => (Exception, w')
          | (KeyboardInterrupt, w') => (KeyboardInterrupt, w')
          end
      end
  end.

(** The entries made of the stubs whose extraction succeeded. *)
Definition successes (outcomes : list (Result.t * option Extracted.t))
  : list Enriched.t :=
  flat_map (fun rc => match snd rc with
                      | Some content =>
                          [Enriched.mk (fst rc) (Some content)]
                      | None => []
                      end) outcomes.

(** The document the specification describes in 4.4: every stub kept at
    its rank, with its content when extraction succeeded. *)
Definition keep_all (outcomes : list (Result.t * option Extracted.t))
  : list Enriched.t :=
  map (fun rc => Enriched.mk (fst rc) (snd rc)) outcomes.

(** [ResearchAgent.research_topic], [verbose] being [self.verbose]. *)
Definition research_topic (verbose : bool) (query : string)
    (max_results : Z) (w : World) : flow ResearchDocument * World :=
  match verbose_print verbose (researching query) with
  | Raised => (Exception, w)
  | Returned _ =>
      match WebSearcher.search query max_results w with
      | (Normal [], w1) => (Normal (TopicDoc query []), w1)
      | (Normal search_results, w1) =>
          match extract_loop verbose search_results [] w1 with
          | (Normal extracted_content, w2) =>
              (Normal (TopicDoc query extracted_content), w2)
          | (Exception, w2) => (Exception, w2)
          | (KeyboardInterrupt, w2) => (KeyboardInterrupt, w2)
          end
      | (Exception, w1) => (Exception, w1)
      | (KeyboardInterrupt, w1) => (KeyboardInterrupt, w1)
      end
  end.

(** [ResearchAgent.research_url], [verbose] being [self.verbose]. *)
Definition research_url (verbose : bool) (url : string) (w : World)
  : flow (option Extracted.t) * World :=
  match verbose_print verbose (fetching_url url) with
  | Raised => (Exception, w)
  | Returned _ =>
      match ContentExtractor.fetch_content url w with
      | (Normal (Some content), w') => (Normal (Some content), w')
      | (Normal None, w') => (Normal None, w')
      | (Exception, w') => (Exception, w')
      | (KeyboardInterrupt, w') => (KeyboardInterrupt, w')
      end
  end.

End ResearchAgent.
End ResearchAgent.

(** ** [json.dumps(data, indent=2, ensure_ascii=False)] and [json.loads]

    The values are those a document is made of: strings, lists and dicts
    with string keys, a dict being the list of its items in insertion
    order. [encode] follows the encoder of the [json] module for
    [indent=2], [loads] its decoder on these values: it gives [None]
    where the decoder raises, and also on numbers, [true], [false],
    [null] and on [\uXXXX] escapes from [0100] up, which denote what
    these values do not hold. *)

Module Json.
Local Open Scope string_scope.

Inductive value : Type :=
| Str (s : string)
| Arr (items : list value)
| Obj (members : list (string * value)).

Definition quote : ascii := ascii_of_nat 34.
Definition backslash : ascii := ascii_of_nat 92.

Definition hex_lower (n : nat) : ascii :=
  ascii_of_nat (if (n <? 10)%nat then 48 + n else 87 + n).

(** [ESCAPE_DCT]: the replacement of one character of a string. *)
Definition escape_char (c : ascii) : string :=
  let n := nat_of_ascii c in
  if Ascii.eqb c quote then String backslash (String quote EmptyString)
  else if Ascii.eqb c backslash
  then String backslash (String backslash EmptyString)
  else if (n =? 10)%nat then String backslash "n"
  else if (n =? 13)%nat then String backslash "r"
  else if (n =? 9)%nat then String backslash "t"
  else if (n =? 8)%nat then String backslash "b"
  else if (n =? 12)%nat then String backslash "f"
  else if (n <? 32)%nat
  then String backslash
         (String "u" (String "0" (String "0"
            (String (hex_lower (n / 16))
               (String (hex_lower (n mod 16)) EmptyString)))))
  else String c EmptyString.

Fixpoint escape (s : string) : string :=
  match s with
  | EmptyString => EmptyString
  | String c s' => escape_char c ++ escape s'
  end.

(** [encode_basestring] *)
Definition encode_basestring (s : string) : string :=
  String quote (escape s ++ String quote EmptyString).

(** ['\n' + ' ' * (2 * level)] *)
Definition newline_indent (level : nat) : string :=
  nl ++ Py.str_mul "  " level.

(** [_iterencode], its chunks joined, at indent level [level]. *)
Fixpoint encode (level : nat) (v : value) : string :=
  match v with
  | Str s => encode_basestring s
  | Arr [] => "[]"
  | Arr items =>
      "[" ++ newline_indent (S level)
      ++ Py.join ("," ++ newline_indent (S level))
           (map (encode (S level)) items)
      ++ newline_indent level ++ "]"
  | Obj [] => "{}"
  | Obj members =>
      "{" ++ newline_indent (S level)
      ++ Py.join ("," ++ newline_indent (S level))
           (map (fun kv => match kv with
                           | (key, v') =>
                               encode_basestring key ++ ": "
                               ++ encode (S level) v'
                           end) members)
      ++ newline_indent level ++ "}"
  end.

(** [json.dumps(data, indent=2, ensure_ascii=False)] *)
Definition dumps (data : value) : string := encode 0 data.

(** [WHITESPACE]: space, tab, newline, carriage return. *)
Definition is_ws (c : ascii) : bool :=
  let n := nat_of_ascii c in
  ((n =? 32) || (n =? 9) || (n =? 10) || (n =? 13))%nat.

Fixpoint skip_ws (s : string) : string :=
  match s with
  | String c s' => if is_ws c then skip_ws s' else s
  | EmptyString => EmptyString
  end.

Definition hex_value (c : ascii) : option nat :=
  let n := nat_of_ascii c in
  (if (48 <=? n) && (n <=? 57) then Some (n - 48)
   else if (65 <=? n) && (n <=? 70) then Some (n - 55)
   else if (97 <=? n) && (n <=? 102) then Some (n - 87)
   else None)%nat.

(** [BACKSLASH]: what stands for the character after a backslash. *)
Definition unescape (c : ascii) : option ascii :=
  let n := nat_of_ascii c in
  if Ascii.eqb c quote then Some quote
  else if Ascii.eqb c backslash then Some backslash
  else if Ascii.eqb c "/" then Some "/"%char
  else if Ascii.eqb c "b" then Some (ascii_of_nat 8)
  else if Ascii.eqb c "f" then Some (ascii_of_nat 12)
  else if Ascii.eqb c "n" then Some (ascii_of_nat 10)
  else if Ascii.eqb c "r" then Some (ascii_of_nat 13)
  else if Ascii.eqb c "t" then Some (ascii_of_nat 9)
  else None.

Definition cons_char (c : ascii) (r : option (string * string))
  : option (string * string) :=
  match r with
  | Some (content, rest) => Some (String c content, rest)
  | None => None
  end.

(** [scanstring], from behind the opening quote: the string and what
    follows its closing quote. *)
Fixpoint scanstring (s : string) : option (string * string) :=
  match s with
  | EmptyString => None
  | String c s' =>
      if Ascii.eqb c quote then Some (EmptyString, s')
      else if Ascii.eqb c backslash then
        match s' with
        | EmptyString => None
        | String esc s'' =>
            if Ascii.eqb esc "u" then
              match s'' with
              | String h1 (String h2 (String h3 (String h4 s4))) =>
                  match hex_value h1, hex_value h2,
                        hex_value h3, hex_value h4 with
                  | Some a, Some b, Some c', Some d =>
                      let uni := (((a * 16 + b) * 16 + c') * 16 + d)%nat in
                      if (uni <? 256)%nat
                      then cons_char (ascii_of_nat uni) (scanstring s4)
                      else None
                  | _, _, _, _ => None
                  end
              | _ => None
              end
            else
              match unescape esc with
              | Some ch => cons_char ch (scanstring s'')
              | None => None
              end
        end
      else if (nat_of_ascii c <? 32)%nat then None
      else cons_char c (scanstring s')
  end.

(** [dict(pairs)]: a later value for a key replaces the earlier one. *)
Fixpoint dict_set (d : list (string * value)) (key : string) (v : value)
  : list (string * value) :=
  match d with
  | [] => [(key, v)]
  | (k, v') :: d' =>
      if String.eqb k key then (k, v) :: d'
      else (k, v') :: dict_set d' key v
  end.

Definition dict_of_pairs (pairs : list (string * value))
  : list (string * value) :=
  fold_left (fun d kv => dict_set d (fst kv) (snd kv)) pairs [].

(** [scan_once], [JSONArray] and [JSONObject]; [fuel] bounds the depth
    of the calls. [parse_items] starts at the first character of an
    item, [parse_members] at the opening quote of a key. *)
Fixpoint parse_value (fuel : nat) (s : string) : option (value * string) :=
  match fuel with
  | O => None
  | S fuel' =>
      match s with
      | EmptyString => None
      | String c s' =>
          if Ascii.eqb c quote then
            match scanstring s' with
            | Some (content, rest) => Some (Str content, rest)
            | None => None
            end
          else if Ascii.eqb c "[" then
            match skip_ws s' with
            | String "]" rest => Some (Arr [], rest)
            | s1 =>
                match parse_items fuel' s1 with
                | Some (items, rest) => Some (Arr items, rest)
                | None => None
                end
            end
          else if Ascii.eqb c "{" then
            match skip_ws s' with
            | String "}" rest => Some (Obj [], rest)
            | s1 =>
                match parse_members fuel' s1 with
                | Some (pairs, rest) => Some (Obj (dict_of_pairs pairs), rest)
                | None => None
                end
            end
          else None
      end
  end
with parse_items (fuel : nat) (s : string)
  : option (list value * string) :=
  match fuel with
  | O => None
  | S fuel' =>
      match parse_value fuel' s with
      | Some (v, rest) =>
          match skip_ws rest with
          | String "]" rest' => Some ([v], rest')
          | String "," rest' =>
              match parse_items fuel' (skip_ws rest') with
              | Some (items, rest'') => Some (v :: items, rest'')
              | None => None
              end
          | _ => None
          end
      | None => None
      end
  end
with parse_members (fuel : nat) (s : string)
  : option (list (string * value) * string) :=
  match fuel with
  | O => None
  | S fuel' =>
      match s with
      | EmptyString => None
      | String c s' =>
          if Ascii.eqb c quote then
            match scanstring s' with
            | Some (key, rest) =>
                match skip_ws rest with
                | String ":" rest' =>
                    match parse_value fuel' (skip_ws rest') with
                    | Some (v, rest'') =>
                        match skip_ws rest'' with
                        | String "}" r => Some ([(key, v)], r)
                        | String "," r =>
                            match parse_members fuel' (skip_ws r) with
                            | Some (pairs, r') => Some ((key, v) :: pairs, r')
                            | None => None
                            end
                        | _ => None
                        end
                    | None => None
                    end
                | _ => None
                end
            | None => None
            end
          else None
      end
  end.

(** The keys of a dict are distinct. *)
Fixpoint distinct (keys : list string) : bool :=
  match keys with
  | [] => true
  | k :: keys' => negb (existsb (String.eqb k) keys') && distinct keys'
  end.

(** A value is a Python value when no dict in it has a key twice. *)
Fixpoint well_formed (v : value) : bool :=
  match v with
  | Str _ => true
  | Arr items => forallb well_formed items
  | Obj members =>
      distinct (map fst members)
      && forallb (fun kv => well_formed (snd kv)) members
  end.

(** The number of values and list cells of a value: the depth of calls
    the decoder needs for it is no more. *)
Fixpoint size (v : value) : nat :=
  match v with
  | Str _ => 1
  | Arr items => S (list_sum (map (fun i => S (size i)) items))
  | Obj members => S (list_sum (map (fun kv => S (size (snd kv))) members))
  end.

(** A text that begins like an encoded value. *)
Definition starts_value (s : string) : bool :=
  match s with
  | String c _ => Ascii.eqb c quote || Ascii.eqb c "[" || Ascii.eqb c "{"
  | EmptyString => false
  end.

(** The decoder reads [v] back from its encoding, at any indent level
    and before any text, given fuel for its size. *)
Definition decodes (v : value) : Prop :=
  well_formed v = true ->
  forall level fuel rest,
    size v <= fuel ->
    parse_value fuel (encode level v ++ rest) = Some (v, rest).

(** [json.loads]: one value, with nothing but whitespace around it. *)
Definition loads (s : string) : option value :=
  match parse_value (S (String.length s)) (skip_ws s) with
  | Some (v, rest) =>
      match skip_ws rest with
      | EmptyString => Some v
      | String _ _ => None
      end
  | None => None
  end.

End Json.

(** ** [class ResultFormatter] *)

Module ResultFormatter.

(** The loop of lines 262-275, [output] being the list built so far and
    [i] the number [enumerate(..., 1)] gives to the first of [results]. *)
Fixpoint markdown_results (i : nat) (results : list Enriched.t)
    (output : list string) : list string :=
  match results with
  | [] => output
  | result :: rest =>
      let r := Enriched.result result in
      let output :=
        output ++ [("## " ++ Py.str_of_nat i ++ ". " ++ Result.title r
                      ++ nl)%string] in
      let output := output ++ [("**URL:** " ++ Result.url r ++ nl)%string] in
      let output :=
        output ++ [("**Summary:** " ++ Result.snippet r ++ nl)%string] in
      let output :=
        match Enriched.extracted result with
        | Some extracted =>
            let output := output ++ [(nl ++ "### Content" ++ nl)%string] in
            let content := Extracted.content extracted in
            let content :=
              if (Py.len content >? 5000)%Z
              then (Py.str_slice_to 5000 content
                      ++ nl ++ nl ++ "*[Content truncated...]*")%string
              else content in
            output ++ [content]
        | None => output
        end in
      let output := output ++ [(nl ++ "---" ++ nl)%string] in
      markdown_results (S i) rest output
  end.

(** What the loop appends for the one entry [result], numbered [i]. *)
Definition markdown_block (i : nat) (result : Enriched.t) : list string :=
  markdown_results i [result] [].

(** The four lines that open the markdown of a topic. *)
Definition markdown_header (query : string) (count : nat) : list string :=
  [("# Research: " ++ query ++ nl)%string;
   ("*Generated by Research Agent*" ++ nl)%string;
   ("*Found " ++ Py.str_of_nat count ++ " results*" ++ nl)%string;
   ("---" ++ nl)%string].

(** The marker appended to a truncated markdown body. *)
Definition truncation_marker : string :=
  (nl ++ nl ++ "*[Content truncated...]*")%string.

(** [ResultFormatter.format_markdown] *)
Definition format_markdown (data : ResearchDocument) : string :=
  match data with
  | TopicDoc query results =>
      let output := [("# Research: " ++ query ++ nl)%string] in
      let output :=
        output ++ [("*Generated by Research Agent*" ++ nl)%string] in
      let output :=
        output ++ [("*Found " ++ Py.str_of_nat (length results)
                     ++ " results*" ++ nl)%string] in
      let output := output ++ [("---" ++ nl)%string] in
      Py.join nl (markdown_results 1 results output)
  | UrlDoc data =>
      let output := [("# " ++ Extracted.title data ++ nl)%string] in
      let output :=
        output ++ [("**URL:** " ++ Extracted.url data ++ nl)%string] in
      let output := output ++ [(nl ++ "---" ++ nl)%string] in
      let output := output ++ [Extracted.content data] in
      Py.join nl output
  end.

(** The dicts the records stand for, their keys in the order in which
    the program inserts them. *)
Definition result_items (r : Result.t) : list (string * Json.value) :=
  [("title", Json.Str (Result.title r));
   ("url", Json.Str (Result.url r));
   ("snippet", Json.Str (Result.snippet r))].

Definition extracted_dict (e : Extracted.t) : Json.value :=
  Json.Obj [("title", Json.Str (Extracted.title e));
            ("url", Json.Str (Extracted.url e));
            ("content", Json.Str (Extracted.content e));
            ("text", Json.Str (Extracted.text e))].

(** [{**result, 'extracted': content}], or the stub alone. *)
Definition enriched_dict (e : Enriched.t) : Json.value :=
  Json.Obj (result_items (Enriched.result e)
              ++ match Enriched.extracted e with
                 | Some content => [("extracted", extracted_dict content)]
                 | None => []
                 end).

Definition data_dict (data : ResearchDocument) : Json.value :=
  match data with
  | TopicDoc query results =>
      Json.Obj [("query", Json.Str query);
                ("results", Json.Arr (map enriched_dict results))]
  | UrlDoc page => extracted_dict page
  end.

(** [ResultFormatter.format_json] *)
Definition format_json (data : ResearchDocument) : string :=
  Json.dumps (data_dict data).

(** Reading a document back from the value [json.loads] gives:
    [d[key]] for a key that is there, and for a string under it. *)
Fixpoint lookup (d : list (string * Json.value)) (key : string)
  : option Json.value :=
  match d with
  | [] => None
  | (k, v) :: d' => if String.eqb k key then Some v else lookup d' key
  end.

Definition lookup_str (d : list (string * Json.value)) (key : string)
  : option string :=
  match lookup d key with
  | Some (Json.Str s) => Some s
  | _ => None
  end.

Definition extracted_of (v : Json.value) : option Extracted.t :=
  match v with
  | Json.Obj d =>
      match lookup_str d "title", lookup_str d "url",
            lookup_str d "content", lookup_str d "text" with
      | Some title, Some url, Some content, Some text =>
          Some (Extracted.mk title url content text)
      | _, _, _, _ => None
      end
  | _ => None
  end.

Definition enriched_of (v : Json.value) : option Enriched.t :=
  match v with
  | Json.Obj d =>
      match lookup_str d "title", lookup_str d "url",
            lookup_str d "snippet" with
      | Some title, Some url, Some snippet =>
          let result := Result.mk title url snippet in
          match lookup d "extracted" with
          | Some e =>
              match extracted_of e with
              | Some content => Some (Enriched.mk result (Some content))
              | None => None
              end
          | None => Some (Enriched.mk result None)
          end
      | _, _, _ => None
      end
  | _ => None
  end.

Fixpoint all_of {A B} (f : A -> option B) (l : list A) : option (list B) :=
  match l with
  | [] => Some []
  | x :: l' =>
      match f x, all_of f l' with
      | Some y, Some ys => Some (y :: ys)
      | _, _ => None
      end
  end.

Definition document_of (v : Json.value) : option ResearchDocument :=
  match v with
  | Json.Obj d =>
      match lookup d "query" with
      | Some _ =>
          match lookup_str d "query", lookup d "results" with
          | Some query, Some (Json.Arr items) =>
              match all_of enriched_of items with
              | Some results => Some (TopicDoc query results)
              | None => None
              end
          | _, _ => None
          end
      | None =>
          match extracted_of v with
          | Some page => Some (UrlDoc page)
          | None => None
          end
      end
  | _ => None
  end.

(** The loop of [format_text]. *)
Fixpoint text_results (i : nat) (results : list Enriched.t)
    (output : list string) : list string :=
  match results with
  | [] => output
  | result :: rest =>
      let r := Enriched.result result in
      let output :=
        output ++ [(nl ++ Py.str_of_nat i ++ ". " ++ Result.title r
                       ++ nl)%string] in
      let output := output ++ [("URL: " ++ Result.url r ++ nl)%string] in
      let output := output ++ [("Summary: " ++ Result.snippet r ++ nl)%string] in
      let output :=
        match Enriched.extracted result with
        | Some extracted =>
            let output := output ++ [(nl ++ "Content:" ++ nl)%string] in
            let text := Extracted.text extracted in
            let text :=
              if (Py.len text >? 3000)%Z
              then (Py.str_slice_to 3000 text ++ nl
                      ++ "[Content truncated...]")%string
              else text in
            output ++ [text]
        | None => output
        end in
      let output := output ++ [(nl ++ Py.str_mul "-" 80 ++ nl)%string] in
      text_results (S i) rest output
  end.

(** [ResultFormatter.format_text] *)
Definition format_text (data : ResearchDocument) : string :=
  match data with
  | TopicDoc query results =>
      let output := [("Research: " ++ query ++ nl)%string] in
      let output :=
        output ++ [("Found " ++ Py.str_of_nat (length results)
                     ++ " results" ++ nl)%string] in
      let output := output ++ [(Py.str_mul "=" 80 ++ nl)%string] in
      Py.join nl (text_results 1 results output)
  | UrlDoc data =>
      let output := [(Extracted.title data ++ nl)%string] in
      let output := output ++ [("URL: " ++ Extracted.url data ++ nl)%string] in
      let output := output ++ [(Py.str_mul "=" 80 ++ nl)%string] in
      let output := output ++ [Extracted.text data] in
      Py.join nl output
  end.

End ResultFormatter.

(** ** A library and a network to run the program on

    [Urllib] follows [urllib.parse] on printable ASCII: the query of a URL
    is what stands between the first [?] and the first [#]; [parse_qs]
    splits at [&] and at the first [=], drops the fields without a value,
    turns [+] into a space and decodes the [%XX] escapes below [%80],
    leaving every other [%] as it is written. Escapes from [%80] up stand
    for UTF-8 sequences, which are beyond a one-[ascii] character: they are
    left as written here. *)

Module Urllib.
Local Open Scope nat_scope.

Definition hex_digit (n : nat) : ascii :=
  ascii_of_nat (if n <? 10 then 48 + n else 55 + n).

Definition hex_value (c : ascii) : option nat :=
  let n := nat_of_ascii c in
  if (48 <=? n) && (n <=? 57) then Some (n - 48)
  else if (65 <=? n) && (n <=? 70) then Some (n - 55)
  else if (97 <=? n) && (n <=? 102) then Some (n - 87)
  else None.

Definition percent (n : nat) : string :=
  String "%" (String (hex_digit (n / 16)) (String (hex_digit (n mod 16)) "")).

(** The characters [quote_plus] leaves alone: letters, digits, [_.-~]. *)
Definition unreserved (c : ascii) : bool :=
  let n := nat_of_ascii c in
  ((48 <=? n) && (n <=? 57)) || ((65 <=? n) && (n <=? 90))
  || ((97 <=? n) && (n <=? 122))
  || (n =? 95) || (n =? 46) || (n =? 45) || (n =? 126).

(** [quote_plus]: a space becomes [+], a character from 128 up its two
    UTF-8 bytes. *)
Fixpoint quote_plus (s : string) : string :=
  match s with
  | EmptyString => EmptyString
  | String c s' =>
      let n := nat_of_ascii c in
      ((if unreserved c then String c EmptyString
        else if (n =? 32)%nat then "+"
        else if (n <? 128)%nat then percent n
        else percent (192 + n / 64)%nat ++ percent (128 + n mod 64)%nat)
       ++ quote_plus s')%string
  end.

(** [s.partition(sep)] for a one-character [sep]: what stands before the
    first [sep], and what stands after it when there is one. *)
Fixpoint partition (sep : ascii) (s : string) : string * option string :=
  match s with
  | EmptyString => (EmptyString, None)
  | String c s' =>
      if Ascii.eqb c sep then (EmptyString, Some s')
      else let (a, b) := partition sep s' in (String c a, b)
  end.

(** [s.split(sep)] for a one-character [sep]. *)
Fixpoint split (sep : ascii) (s : string) : list string :=
  match s with
  | EmptyString => [EmptyString]
  | String c s' =>
      if Ascii.eqb c sep then EmptyString :: split sep s'
      else match split sep s' with
           | p :: ps => String c p :: ps
           | [] => [String c EmptyString]
           end
  end.

Definition urlparse (url : string) : outcome ParseResult :=
  let (before_fragment, _) := partition "#" url in
  match partition "?" before_fragment with
  | (_, Some q) => Returned {| query := q |}
  | (_, None) => Returned {| query := EmptyString |}
  end.

(** [unquote] after [+] has become a space. *)
Fixpoint unquote_plus (s : string) : string :=
  match s with
  | EmptyString => EmptyString
  | String c s' =>
      if Ascii.eqb c "+" then String " " (unquote_plus s')
      else if Ascii.eqb c "%" then
        match s' with
        | String h (String l s'') =>
            match hex_value h, hex_value l with
            | Some a, Some b =>
                if a <? 8
                then String (ascii_of_nat (16 * a + b)) (unquote_plus s'')
                else String c (unquote_plus s')
            | _, _ => String c (unquote_plus s')
            end
        | _ => String c (unquote_plus s')
        end
      else String c (unquote_plus s')
  end.

(** [parse_qsl]: the decoded pairs, fields without a value dropped. *)
Definition parse_qsl (qs : string) : list (string * string) :=
  flat_map (fun name_value =>
              match partition "=" name_value with
              | (name, Some value) =>
                  if Py.truthy value
                  then [(unquote_plus name, unquote_plus value)]
                  else []
              | (_, None) => []
              end)
           (split "&" qs).

(** One more value for [name] in the dict of [parse_qs]. *)
Fixpoint add_value (d : list (string * list string)) (name value : string)
  : list (string * list string) :=
  match d with
  | [] => [(name, [value])]
  | (k, vs) :: d' =>
      if String.eqb k name then (k, vs ++ [value]) :: d'
      else (k, vs) :: add_value d' name value
  end.

Definition parse_qs (qs : string) : outcome (list (string * list string)) :=
  Returned (fold_left (fun d nv => add_value d (fst nv) (snd nv))
                      (parse_qsl qs) []).

End Urllib.

(** The double quote. *)
Definition dquote : string := String (ascii_of_nat 34) EmptyString.

(** A plain rendering of a tree as markup, for [str(tag)] in the
    examples; a string of whatever class is rendered as its text. *)
Fixpoint markup (n : node) : string :=
  match n with
  | NavigableString s | OtherString s => s
  | Tag nm cl at_ cs =>
      ("<" ++ nm
       ++ match cl with
          | [] => ""
          | _ :: _ => " class=" ++ dquote ++ String.concat " " cl ++ dquote
          end
       ++ String.concat ""
            (map (fun kv => " " ++ fst kv ++ "=" ++ dquote ++ snd kv ++ dquote)
                 at_)
       ++ ">" ++ String.concat "" (map markup cs) ++ "</" ++ nm ++ ">")%string
  end.

(** The library used in the examples: [Urllib] above, and a markdown
    converter that hands the markup back. *)
Definition example_library : Library :=
  {| quote_plus := Urllib.quote_plus;
     urlparse := Urllib.urlparse;
     parse_qs := Urllib.parse_qs;
     tag_str := markup;
     html2text_handle := fun html => Returned html |}.

(** A network that answers every request from a fixed table [web]; the
    message of its exceptions is a fixed one. *)
Definition table_network (web : string -> flow Response) : Network :=
  {| World := unit;
     session_get := fun url _ w => (web url, w);
     str_exception := fun _ _ => "Connection refused" |}.

(** A network observed: its state paired with the list of the URLs that
    have been requested, in the order of the requests. *)
Definition logged (net : Network) : Network :=
  {| World := (@World net * list string)%type;
     session_get := fun url timeout w =>
       let (response, w') := @session_get net url timeout (fst w) in
       (response, (w', snd w ++ [url]));
     str_exception := fun url w => @str_exception net url (fst w) |}.

(** A console on which every print returns. *)
Definition plain_console : Console :=
  {| console_print := fun _ => Returned tt;
     print_markdown := fun _ => Returned tt |}.

(** A console that raises on the texts in which [closing] stands, and on
    no other. [closing] is meant to be a closing tag such as [[/b]], on
    which the console of [rich] raises in a text that opens no such
    style. *)
Definition strict_console (closing : string) : Console :=
  {| console_print := fun text =>
       match index 0 closing text with
       | Some _ => Raised
       | None => Returned tt
       end;
     print_markdown := fun _ => Returned tt |}.

(** An absolute URL (RFC 3986): it begins with a scheme, a letter followed
    by letters, digits, [+], [-] or [.], and a colon. *)
Module Url.
Local Open Scope nat_scope.

Definition is_alpha (c : ascii) : bool :=
  let n := nat_of_ascii c in
  ((65 <=? n) && (n <=? 90)) || ((97 <=? n) && (n <=? 122)).

Definition is_scheme_char (c : ascii) : bool :=
  let n := nat_of_ascii c in
  is_alpha c || ((48 <=? n) && (n <=? 57))
  || (n =? 43) || (n =? 45) || (n =? 46).

Fixpoint scheme_tail (s : string) : bool :=
  match s with
  | EmptyString => false
  | String c s' =>
      if Ascii.eqb c ":" then true
      else if is_scheme_char c then scheme_tail s' else false
  end.

Definition is_absolute (url : string) : bool :=
  match url with
  | EmptyString => false
  | String c s' => is_alpha c && scheme_tail s'
  end.

(** A link through the search engine's redirect endpoint. *)
Definition is_redirect (url : string) : bool :=
  Py.startswith url "//duckduckgo.com/l/?".

End Url.

(** ** Pages and tables for the examples *)

Module Sample.

Definition document (contents : list node) : node :=
  Tag "[document]" [] []
    [Tag "html" [] [] [Tag "body" [] [] contents]].

(** A result container with a title anchor and a snippet. *)
Definition hit (href title snippet : string) : node :=
  Tag "div" ["result"; "results_links"] []
    [Tag "h2" ["result__title"] []
       [Tag "a" ["result__a"] [("href", href)] [NavigableString title]];
     Tag "a" ["result__snippet"] [("href", href)] [NavigableString snippet]].

(** A result container without a title anchor. *)
Definition no_anchor : node :=
  Tag "div" ["result"; "result--no-result"] []
    [NavigableString "No results."].

(** A title anchor with neither [href] nor snippet beside it. *)
Definition bare_hit : node :=
  Tag "div" ["result"] []
    [Tag "a" ["result__a"] [] [NavigableString " Bare "]].

Definition two_hits : node :=
  document [hit "https://a.example/" "A" "first";
            hit "https://b.example/" "B" "second"].

Definition redirect_hit : node :=
  hit "//duckduckgo.com/l/?uddg=https%3A%2F%2Fc.example%2Fa%3Fb%3D1&rut=9"
      "C" "third".


(** A page whose body holds nothing. *)
Definition empty_body_page : node := document [].

(** A page whose only [main] stands inside a [nav]. *)
Definition main_in_nav_page : node :=
  document [Tag "nav" [] [] [Tag "main" [] [] [NavigableString "Menu"]];
            Tag "article" [] [] [NavigableString "Story"]].

Definition mixed_hits : node :=
  document [no_anchor; hit "https://a.example/" "A" "first"].

Definition ok (soup : node) : flow Response :=
  Normal {| status_code := 200; soup_of := soup |}.

Definition article_page (title body : string) : node :=
  Tag "[document]" [] []
    [Tag "html" [] []
       [Tag "head" [] [] [Tag "title" [] [] [NavigableString title]];
        Tag "body" [] [] [Tag "article" [] [] [NavigableString body]]]].

(** Three hits, the second of which cannot be fetched. *)
Definition web (url : string) : flow Response :=
  if String.eqb url "https://html.duckduckgo.com/html/?q=rust+ownership"
  then ok (document [hit "https://a.example/" "A" "first";
                     hit "https://b.example/" "B" "second";
                     hit "https://c.example/" "C" "third";
                     hit "https://d.example/" "D" "fourth";
                     hit "https://e.example/" "E" "fifth"])
  else if String.eqb url "https://a.example/" then ok (article_page "A" "aaa")
  else if String.eqb url "https://c.example/" then ok (article_page "C" "ccc")
  else Exception.

(** A result page whose links are a redirect without destination, a
    relative link and an anchor without [href]. *)
Definition loose_web (url : string) : flow Response :=
  if String.eqb url "https://html.duckduckgo.com/html/?q=x"
  then ok (document [hit "//duckduckgo.com/l/?rut=9" "D" "";
                     hit "/about" "About" "";
                     bare_hit])
  else Exception.

End Sample.

(** ** Trimmed text *)

Module Trim.

(** The first character of [s] is there and is not a space. *)
Definition first_nonspace (s : string) : bool :=
  match s with
  | String c _ => negb (Py.isspace c)
  | EmptyString => false
  end.

(** The last character of [s] is there and is not a space. *)
Fixpoint last_nonspace (s : string) : bool :=
  match s with
  | EmptyString => false
  | String c EmptyString => negb (Py.isspace c)
  | String _ s' => last_nonspace s'
  end.

(** Both ends of [s] are characters that are not spaces. *)
Definition solid (s : string) : Prop :=
  first_nonspace s = true /\ last_nonspace s = true.

End Trim.

(** [l1] is [l2] with some items left out, the others in their order. *)
Inductive Subsequence {A : Type} : list A -> list A -> Prop :=
| sub_nil : Subsequence [] []
| sub_skip (x : A) (l1 l2 : list A) :
    Subsequence l1 l2 -> Subsequence l1 (x :: l2)
| sub_keep (x : A) (l1 l2 : list A) :
    Subsequence l1 l2 -> Subsequence (x :: l1) (x :: l2).

(** ** The layout of the plain-text format *)

Module TextLayout.

(** What the loop of [format_text] appends for the one entry [result],
    numbered [i]. *)
Definition text_block (i : nat) (result : Enriched.t) : list string :=
  ResultFormatter.text_results i [result] [].

(** The three lines that open the text of a topic. *)
Definition text_header (query : string) (count : nat) : list string :=
  [("Research: " ++ query ++ nl)%string;
   ("Found " ++ Py.str_of_nat count ++ " results" ++ nl)%string;
   (Py.str_mul "=" 80 ++ nl)%string].

(** The marker appended to a truncated plain-text body. *)
Definition truncation_marker : string :=
  (nl ++ "[Content truncated...]")%string.

End TextLayout.

(** ** [main]

    What the command line does once [parser.parse_args()] has returned
    the arguments ([-h] and an argument the parser refuses end the
    program inside that call). An interrupt from the keyboard is one of
    a request, where the program waits. *)

Module Cli.

Inductive Format : Type := Markdown | Json | Text.

(** The namespace [parser.parse_args()] returns. *)
Record Args : Type :=
  { query : option string;
    url : option string;
    output : option string;
    format : Format;
    max_results : Z;
    verbose : bool }.

(** The truth value of an optional argument: given, and not empty. *)
Definition given (x : option string) : bool :=
  match x with
  | Some s => Py.truthy s
  | None => false
  end.

(** The string of an argument that is given. *)
Definition arg (x : option string) : string :=
  match x with
  | Some s => s
  | None => EmptyString
  end.

(** [open(path, 'w', encoding='utf-8')] and [f.write(output)]. *)
Class FileSystem : Type :=
  { write_text : string -> string -> outcome unit }.

(** How a run ends: the exit status; the text of the result that was
    handed to the console, when that print returned (the console renders
    it: as Markdown for the markdown format, as markup otherwise); and
    the file whose write returned, with what was written. *)
Record Run : Type :=
  { exit_code : Z;
    to_console : option string;
    saved : option (string * string) }.

Definition exit_with (code : Z) : Run :=
  {| exit_code := code; to_console := None; saved := None |}.

(** The text of line 397. *)
Definition saved_message (path : string) : string :=
  "[green]Results saved to " ++ path ++ "[/green]".

(** Lines 386-391: the formatter the [--format] option selects. *)
Definition render (f : Format) (result : ResearchDocument) : string :=
  match f with
  | Markdown => ResultFormatter.format_markdown result
  | Json => ResultFormatter.format_json result
  | Text => ResultFormatter.format_text result
  end.

Section Main.
Context {lib : Library} {net : Network} {con : Console} {fs : FileSystem}.

(** Lines 399-402: the result on the console. *)
Definition print_result (f : Format) (output : string) : outcome unit :=
  match f with
  | Markdown => print_markdown output
  | Json | Text => console_print output
  end.

(** Lines 385-402 under the handler of lines 407-412: format the result,
    then save it or print it. An exception of the write or of a print is
    caught by [except Exception], whose [sys.exit(1)] ends the run; the
    handler prints the message of the exception, and should that print
    raise in its turn the run ends with status 1 as well. *)
Definition deliver (args : Args) (result : ResearchDocument) : Run :=
  let out := render (format args) result in
  if given (output args) then
    match write_text (arg (output args)) out with
    | Returned _ =>
        match console_print (saved_message (arg (output args))) with
        | Returned _ =>
            {| exit_code := 0; to_console := None;
               saved := Some (arg (output args), out) |}
        | Raised =>
            {| exit_code := 1; to_console := None;
               saved := Some (arg (output args), out) |}
        end
    | Raised => exit_with 1
    end
  else
    match print_result (format args) out with
    | Returned _ => {| exit_code := 0; to_console := Some out; saved := None |}
    | Raised => exit_with 1
    end.

(** [main]: [parser.error] exits with status 2 before anything is
    requested; [sys.exit(1)] passes through [except Exception];
    [not result.get('results')] holds when the key is missing or the list
    is empty; an exception that leaves the research ends the run with
    status 1, an interrupt with status 130. *)
Definition main (args : Args) (w : World) : Run * World :=
  if negb (given (query args)) && negb (given (url args))
  then (exit_with 2, w)
  else if given (query args) && given (url args)
  then (exit_with 2, w)
  else if given (url args) then
    match ResearchAgent.research_url (verbose args) (arg (url args)) w with
    | (Normal (Some page), w') => (deliver args (UrlDoc page), w')
    | (Normal None, w') => (exit_with 1, w')
    | (Exception, w') => (exit_with 1, w')
    | (KeyboardInterrupt, w') => (exit_with 130, w')
    end
  else
    match ResearchAgent.research_topic (verbose args) (arg (query args))
            (max_results args) w with
    | (Normal (TopicDoc _ []), w') => (exit_with 1, w')
    | (Normal (UrlDoc _), w') => (exit_with 1, w')
    | (Normal (TopicDoc query results), w') =>
        (deliver args (TopicDoc query results), w')
    | (Exception, w') => (exit_with 1, w')
    | (KeyboardInterrupt, w') => (exit_with 130, w')
    end.

End Main.

(** A file system on which every write succeeds. *)
Definition writable : FileSystem :=
  {| write_text := fun _ _ => Returned tt |}.

(** [research-agent "rust ownership" --max-results 3 --format json] *)
Definition topic_args : Args :=
  {| query := Some "rust ownership"; url := None; output := None;
     format := Json; max_results := 3; verbose := false |}.

(** [research-agent --url https://a.example/ -o out.md] *)
Definition url_args : Args :=
  {| query := None; url := Some "https://a.example/";
     output := Some "out.md"; format := Markdown; max_results := 5;
     verbose := false |}.

(** [research-agent --url 'https://a.example/[/b]' -v] *)
Definition verbose_url_args : Args :=
  {| query := None; url := Some "https://a.example/[/b]";
     output := None; format := Markdown; max_results := 5;
     verbose := true |}.

(** [research-agent] with neither a query nor [--url]. *)
Definition no_args : Args :=
  {| query := None; url := None; output := None; format := Markdown;
     max_results := 5; verbose := false |}.

End Cli.

(** A library whose URL functions always raise. *)
Definition raising_library : Library :=
  {| quote_plus := Urllib.quote_plus;
     urlparse := fun _ => Raised;
     parse_qs := fun _ => Raised;
     tag_str := markup;
     html2text_handle := fun html => Returned html |}.

(** * [github_agent.py]: git and gh operations

    The operations run [git] and [gh] through [subprocess.run]; a
    process that cannot be started raises, and [run_git_command] and
    [run_gh_command] then call [sys.exit(1)]. An operation is a function
    of the state of the host that gives a value, the exit status, or an
    exception on its way to the caller, and the next state. Of the
    messages written to the console, those that name the branch are part
    of the model. *)

Module Agent.

(** [subprocess.CompletedProcess]: the return code and, when the output
    is captured, the standard output. *)
Record CompletedProcess : Type := { returncode : Z; stdout : string }.

Class Shell : Type :=
  { Host : Type;
    (** [subprocess.run(argv, capture_output=c, text=True, check=False)] *)
    subprocess_run :
      list string -> bool -> Host -> outcome CompletedProcess * Host }.

(** What a call gives: its value, the status [sys.exit] was given, or
    an exception that leaves it. *)
Inductive result (A : Type) : Type :=
| Done (a : A)
| Exit (code : Z)
| Raise.
Arguments Done {A} a.
Arguments Exit {A} code.
Arguments Raise {A}.

Section Operations.
Context {sh : Shell} {con : Console}.

Definition Cmd (A : Type) : Type := Host -> result A * Host.

Definition ret {A : Type} (a : A) : Cmd A := fun h => (Done a, h).

Definition bind {A B : Type} (c : Cmd A) (k : A -> Cmd B) : Cmd B :=
  fun h =>
    match c h with
    | (Done a, h') => k a h'
    | (Exit code, h') => (Exit code, h')
    | (Raise, h') => (Raise, h')
    end.

Definition exit {A : Type} (code : Z) : Cmd A := fun h => (Exit code, h).

Notation "x <- c ;; k" := (bind c (fun x => k))
  (at level 61, c at next level, right associativity).

(** [GitOperations.run_git_command] *)
Definition run_git_command (args : list string) (capture_output : bool)
  : Cmd CompletedProcess :=
  fun h =>
    match subprocess_run ("git" :: args) capture_output h with
    | (Returned r, h') => (Done r, h')
    | (Raised, h') => (Exit 1, h')
    end.

(** [GitOperations.is_git_repo] *)
Definition is_git_repo : Cmd bool :=
  r <- run_git_command ["rev-parse"; "--git-dir"] true ;;
  ret (returncode r =? 0)%Z.

(** [GitOperations.get_current_branch] *)
Definition get_current_branch : Cmd (option string) :=
  r <- run_git_command ["branch"; "--show-current"] true ;;
  ret (if (returncode r =? 0)%Z then Some (Py.strip (stdout r)) else None).

(** [GitOperations.has_uncommitted_changes] *)
Definition has_uncommitted_changes : Cmd bool :=
  r <- run_git_command ["status"; "--porcelain"] true ;;
  ret (Py.truthy (Py.strip (stdout r))).

(** [branch or GitOperations.get_current_branch()]: the current branch
    is asked for only when no branch is given. *)
Definition branch_or_current (branch : option string)
  : Cmd (option string) :=
  match branch with
  | Some b => if Py.truthy b then ret (Some b) else get_current_branch
  | None => get_current_branch
  end.

(** [run_git_command(args + [current_branch] + more)]: with
    [current_branch] being [None], [subprocess.run] raises a [TypeError]
    before it starts anything, and [run_git_command] exits with 1. *)
Definition run_git_on_branch (args : list string)
    (current_branch : option string) (more : list string)
    (capture_output : bool) : Cmd CompletedProcess :=
  match current_branch with
  | Some b => run_git_command (args ++ b :: more) capture_output
  | None => exit 1
  end.

(** The texts of lines 109 and 133. *)
Definition pulling (b : string) : string :=
  "[cyan]Pulling from origin/" ++ b ++ "...[/cyan]".

Definition pushing (b : string) : string :=
  "[cyan]Pushing to origin/" ++ b ++ "...[/cyan]".

(** [console.print] of a text that names [current_branch]: a
    [MarkupError] of the print leaves the operation. With
    [current_branch] being [None] the text is the fixed one that ends
    in [origin/None...]. *)
Definition print_branch (text : string -> string)
    (current_branch : option string) : Cmd unit :=
  fun h =>
    match current_branch with
    | Some b =>
        match console_print (text b) with
        | Returned _ => (Done tt, h)
        | Raised => (Raise, h)
        end
    | None => (Done tt, h)
    end.

(** [GitOperations.pull] *)
Definition pull (branch : option string) : Cmd bool :=
  repo <- is_git_repo ;;
  if negb repo then ret false
  else
    current_branch <- branch_or_current branch ;;
    _ <- print_branch pulling current_branch ;;
    r <- run_git_on_branch ["pull"; "origin"] current_branch [] false ;;
    ret (returncode r =? 0)%Z.

(** [GitOperations.push] *)
Definition push (branch : option string) (force : bool) : Cmd bool :=
  repo <- is_git_repo ;;
  if negb repo then ret false
  else
    current_branch <- branch_or_current branch ;;
    _ <- print_branch pushing current_branch ;;
    r <- run_git_on_branch ["push"; "origin"] current_branch
           (if force then ["--force"] else []) false ;;
    ret (returncode r =? 0)%Z.

(** [GitOperations.commit] *)
Definition commit (message : string) (add_all : bool) : Cmd bool :=
  repo <- is_git_repo ;;
  if negb repo then ret false
  else
    _ <- (if add_all
          then (r <- run_git_command ["add"; "."] true ;; ret tt)
          else ret tt) ;;
    changes <- has_uncommitted_changes ;;
    if negb changes then ret false
    else
      r <- run_git_command ["commit"; "-m"; message] false ;;
      ret (returncode r =? 0)%Z.

(** [GitHubOperations.run_gh_command]: both handlers exit with 1. *)
Definition run_gh_command (args : list string) (capture_output : bool)
  : Cmd CompletedProcess :=
  fun h =>
    match subprocess_run ("gh" :: args) capture_output h with
    | (Returned r, h') => (Done r, h')
    | (Raised, h') => (Exit 1, h')
    end.

(** [GitHubOperations.check_auth] *)
Definition check_auth : Cmd bool :=
  r <- run_gh_command ["auth"; "status"] true ;;
  ret (returncode r =? 0)%Z.

(** [GitHubOperations.get_auth_user] *)
Definition get_auth_user : Cmd (option string) :=
  r <- run_gh_command ["api"; "user"; "--jq"; ".login"] true ;;
  ret (if (returncode r =? 0)%Z then Some (Py.strip (stdout r)) else None).

(** The arguments [create_issue] builds; [labels] is [None] without
    [--labels]. *)
Definition create_issue_args (title body : string)
    (labels : option (list string)) : list string :=
  ["issue"; "create"; "--title"; title]
    ++ (if Py.truthy body then ["--body"; body] else [])
    ++ match labels with
       | Some (l :: ls) => ["--label"; Py.join "," (l :: ls)]
       | _ => []
       end.

(** [GitHubOperations.create_issue] *)
Definition create_issue (title body : string)
    (labels : option (list string)) : Cmd bool :=
  r <- run_gh_command (create_issue_args title body labels) false ;;
  ret (returncode r =? 0)%Z.

(** The arguments [create_pr] builds. *)
Definition create_pr_args (title body base : string) : list string :=
  ["pr"; "create"; "--title"; title; "--base"; base]
    ++ (if Py.truthy body then ["--body"; body] else []).

(** [GitHubOperations.create_pr] *)
Definition create_pr (title body base : string) : Cmd bool :=
  r <- run_gh_command (create_pr_args title body base) false ;;
  ret (returncode r =? 0)%Z.

End Operations.

(** The command lines the theorems name. *)
Definition rev_parse : list string := ["git"; "rev-parse"; "--git-dir"].
Definition show_current : list string := ["git"; "branch"; "--show-current"].
Definition add_all_files : list string := ["git"; "add"; "."].
Definition status_porcelain : list string := ["git"; "status"; "--porcelain"].

(** What a run of a process gives an operation. *)
Definition finished (o : outcome CompletedProcess) : result bool :=
  match o with
  | Returned r => Done (returncode r =? 0)%Z
  | Raised => Exit 1
  end.

(** A host observed: its state paired with the command lines that have
    been run, in order. *)
Definition logged_shell (sh : Shell) : Shell :=
  {| Host := (@Host sh * list (list string))%type;
     subprocess_run := fun argv capture h =>
       let (r, h') := @subprocess_run sh argv capture (fst h) in
       (r, (h', snd h ++ [argv])) |}.

(** A host that answers every command line from a fixed table. *)
Definition table_shell (table : list string -> outcome CompletedProcess)
  : Shell :=
  {| Host := unit; subprocess_run := fun argv _ h => (table argv, h) |}.

Definition completed (code : Z) (out : string) : outcome CompletedProcess :=
  Returned {| returncode := code; stdout := out |}.

(** Outside a repository: [git] returns 128. *)
Definition no_repo_shell : Shell := table_shell (fun _ => completed 128 "").

(** A clean repository: every command returns 0 and prints nothing. *)
Definition clean_repo_shell : Shell := table_shell (fun _ => completed 0 "").

(** A repository in which [git branch] fails. *)
Definition no_branch_shell : Shell :=
  table_shell (fun argv =>
                 match argv with
                 | _ :: "branch" :: _ => completed 1 ""
                 | _ => completed 0 ""
                 end).

(** A host on which no process can be started. *)
Definition broken_shell : Shell := table_shell (fun _ => Raised).

End Agent.
(** * Properties *)

(** ** The page tree *)

Section TreeFacts.

(** Induction on a tree, with the property known of every child. *)
Lemma node_forall_ind (P : node -> Prop) :
  (forall s, P (NavigableString s)) ->
  (forall nm cl at_ cs, Forall P cs -> P (Tag nm cl at_ cs)) ->
  (forall s, P (OtherString s)) ->
  forall n, P n.
Proof.
  intros Hs Ht Ho.
  fix IH 1. intros [s|nm cl at_ cs|s].
  - apply Hs.
  - apply Ht. induction cs as [|c cs IHcs]; constructor.
    + apply IH.
    + exact IHcs.
  - apply Ho.
Qed.







End TreeFacts.

(** [get_text] passes over a comment and over the text of a [template],
    which [.string] hands out. *)
Example get_text_skips_other_strings :
  Soup.get_text_strip ""
    (Tag "a" [] []
       [NavigableString " x "; OtherString "note";
        Tag "template" [] [] [OtherString "y"]]) = "x"
  /\ Soup.string_ (Tag "title" [] [] [OtherString "note"]) = Some "note".
Proof. split; reflexivity. Qed.

(** ** The result-list parser *)

Section ParserFacts.
Context {lib : Library}.

Lemma search_step_app (results : list Result.t) (result : node) :
  WebSearcher.search_step results result
  = results ++ WebSearcher.search_step [] result.
Proof.
  unfold WebSearcher.search_step.
  destruct (Soup.find_class "a" "result__a" result); simpl.
  - reflexivity.
  - now rewrite app_nil_r.
Qed.

Lemma fold_search_step (l : list node) (results : list Result.t) :
  fold_left WebSearcher.search_step l results
  = results ++ flat_map (WebSearcher.search_step []) l.
Proof.
  revert results; induction l as [|c l IH]; intros results; simpl.
  - now rewrite app_nil_r.
  - rewrite IH, (search_step_app results c), <- app_assoc. reflexivity.
Qed.

Lemma parse_results_flat_map (soup : node) (max_results : Z) :
  WebSearcher.parse_results soup max_results
  = flat_map (WebSearcher.search_step [])
      (Py.slice_to max_results (WebSearcher.containers soup)).
Proof. unfold WebSearcher.parse_results. now rewrite fold_search_step. Qed.

Lemma well_formed_stub (c : node) :
  WebSearcher.well_formed c = true ->
  exists stub, WebSearcher.search_step [] c = [stub].
Proof.
  unfold WebSearcher.well_formed, WebSearcher.search_step.
  destruct (Soup.find_class "a" "result__a" c); [intros _|discriminate].
  eexists; reflexivity.
Qed.

Lemma flat_map_singletons (l : list node) :
  forallb WebSearcher.well_formed l = true ->
  length (flat_map (WebSearcher.search_step []) l) = length l
  /\ forall i c, nth_error l i = Some c ->
       nth_error (flat_map (WebSearcher.search_step []) l) i
       = hd_error (WebSearcher.search_step [] c).
Proof.
  induction l as [|c l IH]; simpl; intros Hwf.
  - split; [reflexivity|]. intros [|i] c H; discriminate.
  - apply andb_true_iff in Hwf as [Hc Hl].
    destruct (well_formed_stub c Hc) as [stub Hs].
    destruct (IH Hl) as [IHlen IHnth].
    rewrite Hs; simpl. split; [now rewrite IHlen|].
    intros [|i] c' H; simpl in *.
    + injection H as <-. now rewrite Hs.
    + now apply IHnth.
Qed.


Lemma firstn_all_wf (n : nat) (l : list node) :
  forallb WebSearcher.well_formed l = true ->
  forallb WebSearcher.well_formed (firstn n l) = true.
Proof.
  rewrite !forallb_forall. intros H c Hc. apply H.
  rewrite <- (firstn_skipn n l). apply in_or_app; now left.
Qed.

(** C2 (amended). When every result container of the page has a title
    anchor and [max_results] is not negative, the parser returns exactly
    [min(K, max_results)] stubs, [K] being the number of containers, and
    the stub at position [i] is the one built from the container at
    position [i] of the document. *)
Theorem parse_results_min_count (soup : node) (max_results : Z) :
  (0 <= max_results)%Z ->
  forallb WebSearcher.well_formed (WebSearcher.containers soup) = true ->
  Z.of_nat (length (WebSearcher.parse_results soup max_results))
  = Z.min (Z.of_nat (length (WebSearcher.containers soup))) max_results
  /\ forall i stub,
      nth_error (WebSearcher.parse_results soup max_results) i = Some stub ->
      exists c,
        nth_error (WebSearcher.containers soup) i = Some c
        /\ WebSearcher.search_step [] c = [stub].
Proof.
  intros HM Hwf. rewrite parse_results_flat_map.
  unfold Py.slice_to. replace (0 <=? max_results)%Z with true
    by (symmetry; now apply Z.leb_le).
  set (cs := WebSearcher.containers soup) in *.
  destruct (flat_map_singletons (firstn (Z.to_nat max_results) cs)
              (firstn_all_wf _ _ Hwf)) as [Hlen Hnth].
  split.
  - rewrite Hlen, length_firstn. lia.
  - intros i stub Hi.
    assert (Hlt : i < length (firstn (Z.to_nat max_results) cs)).
    { rewrite <- Hlen. apply nth_error_Some. congruence. }
    destruct (nth_error (firstn (Z.to_nat max_results) cs) i) as [c|] eqn:Hc.
    2:{ apply nth_error_None in Hc. lia. }
    exists c. split.
    + rewrite nth_error_firstn in Hc.
      destruct (i <? Z.to_nat max_results)%nat; [exact Hc|discriminate].
    + rewrite (Hnth i c Hc) in Hi.
      assert (Hin : In c (firstn (Z.to_nat max_results) cs))
        by (eapply nth_error_In; eauto).
      pose proof (firstn_all_wf (Z.to_nat max_results) cs Hwf) as Hall.
      rewrite forallb_forall in Hall.
      destruct (well_formed_stub c (Hall c Hin)) as [s Hs].
      rewrite Hs in *. simpl in Hi. congruence.
Qed.

Lemma get_without_attr (n : node) (key default : string) :
  Soup.has_attr n key = false -> Soup.get n key default = default.
Proof.
  destruct n as [s|nm cl at_ cs|s]; simpl; [reflexivity| |reflexivity].
  induction at_ as [|[k v] at_ IH]; simpl; [reflexivity|].
  intros H. apply orb_false_iff in H as [Hk Hrest].
  rewrite Hk. now apply IH.
Qed.

Lemma dict_get_missing {V} (d : list (string * V)) (k : string) (default : V) :
  (forall v, ~ In (k, v) d) -> Py.dict_get d k default = default.
Proof.
  induction d as [|[k' v'] d IH]; simpl; intros H; [reflexivity|].
  destruct (String.eqb_spec k' k) as [->|Hne].
  - exfalso. apply (H v'). now left.
  - apply IH. intros v Hin. apply (H v). now right.
Qed.

(** C10. A container with a title anchor always yields a stub; without a
    snippet element the stub's snippet is the empty string, and when the
    title anchor has no [href] the stub's url is the empty string. *)
Theorem stub_defaults (results : list Result.t) (result title_tag : node) :
  Soup.find_class "a" "result__a" result = Some title_tag ->
  exists stub,
    WebSearcher.search_step results result = results ++ [stub]
    /\ (Soup.find_class "a" "result__snippet" result = None ->
        Result.snippet stub = "")
    /\ (Soup.has_attr title_tag "href" = false -> Result.url stub = "").
Proof.
  intros Ht. unfold WebSearcher.search_step. rewrite Ht.
  eexists. split; [reflexivity|]. simpl. split.
  - intros ->. reflexivity.
  - intros Hh. rewrite (get_without_attr _ _ _ Hh). reflexivity.
Qed.

(** C5 (amended). For a container whose title anchor carries a
    redirect-wrapper link [raw], a stub is always appended. Its url is
    the first value the library decodes for [uddg] whenever that value is
    not empty, whatever it holds: nothing checks that it is a
    destination. It is [raw] when the query has no [uddg], when [uddg]
    has no value or its first value is empty, and when [urlparse] or
    [parse_qs] raises. *)
Theorem redirect_resolution (results : list Result.t)
    (result title_tag : node) :
  Soup.find_class "a" "result__a" result = Some title_tag ->
  Py.startswith (Soup.get title_tag "href" "") "//duckduckgo.com/l/?" = true ->
  let raw := Soup.get title_tag "href" "" in
  exists stub,
    WebSearcher.search_step results result = results ++ [stub]
    /\ (forall parsed d dest others,
           urlparse raw = Returned parsed ->
           parse_qs (query parsed) = Returned d ->
           Py.dict_get d "uddg" [""] = dest :: others ->
           dest <> "" ->
           Result.url stub = dest)
    /\ (forall parsed d,
           urlparse raw = Returned parsed ->
           parse_qs (query parsed) = Returned d ->
           (forall values, ~ In ("uddg", values) d) ->
           Result.url stub = raw)
    /\ (forall parsed d,
           urlparse raw = Returned parsed ->
           parse_qs (query parsed) = Returned d ->
           (Py.dict_get d "uddg" [""] = []
            \/ exists others, Py.dict_get d "uddg" [""] = "" :: others) ->
           Result.url stub = raw)
    /\ (urlparse raw = Raised
        \/ (exists parsed, urlparse raw = Returned parsed
                           /\ parse_qs (query parsed) = Raised) ->
        Result.url stub = raw).
Proof.
  intros Ht Hpre raw. unfold WebSearcher.search_step. rewrite Ht.
  eexists. split; [reflexivity|]. simpl. fold raw.
  unfold WebSearcher.resolve_redirect. fold raw in Hpre. rewrite Hpre.
  unfold WebSearcher.actual_url. repeat split.
  - intros parsed d dest others Hu Hq Hg Hne. rewrite Hu, Hq, Hg.
    destruct dest; [congruence|reflexivity].
  - intros parsed d Hu Hq Hmiss. rewrite Hu, Hq.
    rewrite (dict_get_missing d "uddg" [""] Hmiss). reflexivity.
  - intros parsed d Hu Hq [Hg|[others Hg]]; rewrite Hu, Hq, Hg; reflexivity.
  - intros [Hu|[parsed [Hu Hq]]]; rewrite Hu; [reflexivity|].
    rewrite Hq. reflexivity.
Qed.

End ParserFacts.

Lemma stub_defaults_witness :
  exists stub,
    WebSearcher.search_step (lib := example_library) [] Sample.bare_hit
    = [] ++ [stub]
    /\ (Soup.find_class "a" "result__snippet" Sample.bare_hit = None ->
        Result.snippet stub = "")
    /\ (Soup.has_attr
          (Tag "a" ["result__a"] [] [NavigableString " Bare "]) "href" = false ->
        Result.url stub = "").
Proof.
  apply (stub_defaults (lib := example_library) [] Sample.bare_hit
           (Tag "a" ["result__a"] [] [NavigableString " Bare "])).
  reflexivity.
Defined.

Example bare_hit_stub :
  WebSearcher.search_step (lib := example_library) [] Sample.bare_hit
  = [Result.mk "Bare" "" ""].
Proof. reflexivity. Qed.

Lemma redirect_resolution_witness :
  let title_tag :=
    Tag "a" ["result__a"]
      [("href",
        "//duckduckgo.com/l/?uddg=https%3A%2F%2Fc.example%2Fa%3Fb%3D1&rut=9")]
      [NavigableString "C"] in
  let raw := Soup.get title_tag "href" "" in
  exists stub,
    WebSearcher.search_step (lib := example_library) [] Sample.redirect_hit
    = [] ++ [stub]
    /\ Result.url stub = "https://c.example/a?b=1".
Proof.
  intros title_tag raw.
  destruct (redirect_resolution (lib := example_library) []
              Sample.redirect_hit title_tag eq_refl eq_refl)
    as [stub [Hs [Hd _]]].
  exists stub. split; [exact Hs|].
  apply (Hd {| query := "uddg=https%3A%2F%2Fc.example%2Fa%3Fb%3D1&rut=9" |}
            [("uddg", ["https://c.example/a?b=1"]); ("rut", ["9"])]
            "https://c.example/a?b=1" []);
    [reflexivity|reflexivity|reflexivity|discriminate].
Defined.

(** C5 as stated fails: a destination that is no valid encoding of
    anything is substituted like any other value. In [uddg=%ZZ] the
    escape is not one, [parse_qs] leaves it as it is written, and the
    stub's url is [%ZZ], not the raw link. *)
Lemma malformed_destination_is_substituted :
  let raw := "//duckduckgo.com/l/?uddg=%ZZ&rut=9" in
  Url.is_redirect raw = true
  /\ parse_qs (Library := example_library) "uddg=%ZZ&rut=9"
     = Returned [("uddg", ["%ZZ"]); ("rut", ["9"])]
  /\ WebSearcher.search_step (lib := example_library) []
       (Sample.hit raw "D" "")
     = [Result.mk "D" "%ZZ" ""]
  /\ "%ZZ" <> raw.
Proof. cbv zeta. repeat split; try reflexivity. discriminate. Qed.

(** With a library whose [urlparse] raises, the bare [except] keeps the
    raw link. *)
Example redirect_kept_when_raising :
  WebSearcher.search_step (lib := raising_library) [] Sample.redirect_hit
  = [Result.mk "C"
       "//duckduckgo.com/l/?uddg=https%3A%2F%2Fc.example%2Fa%3Fb%3D1&rut=9"
       "third"].
Proof. reflexivity. Qed.

Example redirect_hit_stub :
  WebSearcher.search_step (lib := example_library) [] Sample.redirect_hit
  = [Result.mk "C" "https://c.example/a?b=1" "third"].
Proof. reflexivity. Qed.

Example redirect_without_destination :
  WebSearcher.search_step (lib := example_library) []
    (Sample.hit "//duckduckgo.com/l/?rut=9" "D" "")
  = [Result.mk "D" "//duckduckgo.com/l/?rut=9" ""].
Proof. reflexivity. Qed.

Lemma parse_results_min_count_witness :
  Z.of_nat (length (WebSearcher.parse_results (lib := example_library)
                      Sample.two_hits 1))
  = Z.min (Z.of_nat (length (WebSearcher.containers Sample.two_hits))) 1
  /\ forall i stub,
      nth_error (WebSearcher.parse_results (lib := example_library)
                   Sample.two_hits 1) i = Some stub ->
      exists c,
        nth_error (WebSearcher.containers Sample.two_hits) i = Some c
        /\ WebSearcher.search_step (lib := example_library) [] c = [stub].
Proof.
  apply (parse_results_min_count (lib := example_library) Sample.two_hits 1).
  - lia.
  - reflexivity.
Defined.

(** C2 as stated fails: the cap is applied to the containers before those
    without a title anchor are skipped, so a page with one well-formed
    container behind a malformed one gives no stub for [max_results = 1];
    and a negative [max_results] is a Python slice bound, so two
    well-formed containers and [max_results = -1] give one stub. *)
Lemma parse_results_cap_before_skip :
  Z.of_nat (length (WebSearcher.parse_results (lib := example_library)
                      Sample.mixed_hits 1))
  <> Z.min (Z.of_nat (length (filter WebSearcher.well_formed
                                (WebSearcher.containers Sample.mixed_hits))))
           1
  /\ Z.of_nat (length (WebSearcher.parse_results (lib := example_library)
                         Sample.two_hits (-1)))
     <> Z.min (Z.of_nat (length (filter WebSearcher.well_formed
                                   (WebSearcher.containers Sample.two_hits))))
              (-1).
Proof. split; vm_compute; discriminate. Qed.

(** ** The content extractor *)

Section ExtractorFacts.
Context {lib : Library}.


Lemma extract_some (url : string) (soup : node) (page : Extracted.t) :
  ContentExtractor.extract url soup = Some page ->
  exists region,
    ContentExtractor.main_content
      (Soup.decompose_all ContentExtractor.denylist soup) = Some region
    /\ html2text_handle (tag_str region) = Returned (Extracted.content page)
    /\ page = Extracted.mk (ContentExtractor.extract_title soup) url
                (Extracted.content page) (Soup.get_text_strip nl region).
Proof.
  unfold ContentExtractor.extract, ContentExtractor.parse_page.
  destruct (ContentExtractor.main_content _) as [region|]; [|discriminate].
  destruct (html2text_handle (tag_str region)) as [md|] eqn:Hmd;
    [|discriminate].
  intros [= <-]. exists region. simpl. auto.
Qed.


(** C8 (amended). On the tree left by the removal of the denylisted tags
    the region is the first [<main>], else the first [<article>], else
    the [<body>]; whenever there is a region and the markdown converter
    returns, extraction returns the dict built from that region, also
    when the region holds no text; without a region it returns [None]. *)
Theorem region_selection (url : string) (soup : node) :
  let pruned := Soup.decompose_all ContentExtractor.denylist soup in
  (forall m, Soup.find "main" pruned = Some m ->
             ContentExtractor.main_content pruned = Some m)
  /\ (forall a, Soup.find "main" pruned = None ->
                Soup.find "article" pruned = Some a ->
                ContentExtractor.main_content pruned = Some a)
  /\ (Soup.find "main" pruned = None ->
      Soup.find "article" pruned = None ->
      ContentExtractor.main_content pruned = Soup.find "body" pruned)
  /\ (forall region markdown,
         ContentExtractor.main_content pruned = Some region ->
         html2text_handle (tag_str region) = Returned markdown ->
         ContentExtractor.extract url soup
         = Some (Extracted.mk (ContentExtractor.extract_title soup) url
                   markdown (Soup.get_text_strip nl region)))
  /\ (ContentExtractor.main_content pruned = None ->
      ContentExtractor.extract url soup = None).
Proof.
  intros pruned.
  unfold ContentExtractor.extract, ContentExtractor.parse_page. fold pruned.
  unfold ContentExtractor.main_content, ContentExtractor.or_else.
  repeat split.
  - intros m ->. reflexivity.
  - intros a -> ->. reflexivity.
  - intros -> ->. reflexivity.
  - intros region markdown -> ->. reflexivity.
  - intros ->. reflexivity.
Qed.


End ExtractorFacts.



Lemma region_selection_witness :
  ContentExtractor.extract (lib := example_library) "u"
    Sample.main_in_nav_page
  = Some (Extracted.mk "" "u" "<article>Story</article>" "Story").
Proof.
  pose proof (region_selection (lib := example_library) "u"
                Sample.main_in_nav_page) as [_ [Ha [_ [He _]]]].
  apply (He (Tag "article" [] [] [NavigableString "Story"])
            "<article>Story</article>").
  - apply Ha; reflexivity.
  - reflexivity.
Defined.

(** C8 as stated fails: a page whose body holds no text is not reported
    absent; extraction returns a dict whose plain text is empty. And the
    region is looked for after the removal: a [<main>] inside a [<nav>] is
    not the region. *)
Lemma empty_body_is_extracted :
  let pruned :=
    Soup.decompose_all ContentExtractor.denylist Sample.empty_body_page in
  exists body page,
    ContentExtractor.main_content pruned = Some body
    /\ Soup.get_text_strip nl body = ""
    /\ ContentExtractor.extract (lib := example_library) "u"
         Sample.empty_body_page = Some page
    /\ Extracted.text page = "".
Proof. do 2 eexists. repeat split; reflexivity. Qed.


(** ** The orchestrator *)

Section AgentFacts.
Context {lib : Library} {net : Network} {con : Console}.

Lemma extract_loop_fetch_all (verbose : bool) (stubs : list Result.t)
    (extracted_content : list Enriched.t) (w : World) :
  ResearchAgent.extract_loop verbose stubs extracted_content w
  = (match fst (ResearchAgent.fetch_all verbose stubs w) with
     | Normal outcomes =>
         Normal (extracted_content ++ ResearchAgent.successes outcomes)
     | Exception => Exception
     | KeyboardInterrupt => KeyboardInterrupt
     end,
     snd (ResearchAgent.fetch_all verbose stubs w)).
Proof.
  revert extracted_content w.
  induction stubs as [|result rest IH]; intros acc w; simpl.
  - now rewrite app_nil_r.
  - destruct (ResearchAgent.verbose_print verbose
                (ResearchAgent.fetching (Result.url result)));
      [|reflexivity].
    destruct (ContentExtractor.fetch_content (Result.url result) w)
      as [[[content|]| |] w']; simpl; try reflexivity.
    + rewrite IH.
      destruct (ResearchAgent.fetch_all verbose rest w')
        as [[outcomes| |] w'']; simpl; try reflexivity.
      now rewrite <- app_assoc.
    + rewrite IH.
      destruct (ResearchAgent.fetch_all verbose rest w')
        as [[outcomes| |] w'']; reflexivity.
Qed.

Lemma fetch_all_stubs (verbose : bool) (stubs : list Result.t) (w w' : World)
    (outcomes : list (Result.t * option Extracted.t)) :
  ResearchAgent.fetch_all verbose stubs w = (Normal outcomes, w') ->
  map fst outcomes = stubs.
Proof.
  revert w outcomes.
  induction stubs as [|result rest IH]; intros w outcomes; simpl.
  - intros [= <- _]. reflexivity.
  - destruct (ResearchAgent.verbose_print verbose
                (ResearchAgent.fetching (Result.url result)));
      [|discriminate].
    destruct (ContentExtractor.fetch_content (Result.url result) w)
      as [[content| |] w1]; try discriminate.
    specialize (IH w1).
    destruct (ResearchAgent.fetch_all verbose rest w1)
      as [[outcomes'| |] w2]; try discriminate.
    intros [= <- <-]. simpl. f_equal. now apply IH.
Qed.

(** Every outcome is what [fetch_content] returned for the url of its
    stub, in some state of the world. *)
Lemma fetch_all_outcomes (verbose : bool) (stubs : list Result.t)
    (w w' : World) (outcomes : list (Result.t * option Extracted.t)) :
  ResearchAgent.fetch_all verbose stubs w = (Normal outcomes, w') ->
  Forall (fun rc => exists wi,
              fst (ContentExtractor.fetch_content (Result.url (fst rc)) wi)
              = Normal (snd rc))
         outcomes.
Proof.
  revert w outcomes.
  induction stubs as [|result rest IH]; intros w outcomes; simpl.
  - intros [= <- _]. constructor.
  - destruct (ResearchAgent.verbose_print verbose
                (ResearchAgent.fetching (Result.url result)));
      [|discriminate].
    destruct (ContentExtractor.fetch_content (Result.url result) w)
      as [[content| |] w1] eqn:Hf; try discriminate.
    specialize (IH w1).
    destruct (ResearchAgent.fetch_all verbose rest w1)
      as [[outcomes'| |] w2]; try discriminate.
    intros [= <- <-]. constructor.
    + exists w. simpl. now rewrite Hf.
    + now apply IH.
Qed.

Lemma successes_extracted (outcomes : list (Result.t * option Extracted.t)) :
  Forall (fun e => Enriched.extracted e <> None)
         (ResearchAgent.successes outcomes)
  /\ length (ResearchAgent.successes outcomes)
     = length (filter (fun rc => match snd rc with
                                 | Some _ => true
                                 | None => false
                                 end) outcomes).
Proof.
  induction outcomes as [|[r [c|]] outcomes [IHa IHl]]; simpl.
  - split; [constructor|reflexivity].
  - split; [constructor; [discriminate|exact IHa]|now rewrite IHl].
  - split; assumption.
Qed.

(** A document that [research_topic] returns is made of the successes of
    the turns of the loop over the stubs of the search. *)
Lemma research_topic_fetch_all (verbose : bool) (query : string)
    (max_results : Z) (w w' : World) (doc : ResearchDocument) :
  ResearchAgent.research_topic verbose query max_results w = (Normal doc, w') ->
  exists stubs w1 outcomes,
    WebSearcher.search query max_results w = (Normal stubs, w1)
    /\ ResearchAgent.fetch_all verbose stubs w1 = (Normal outcomes, w')
    /\ doc = TopicDoc query (ResearchAgent.successes outcomes).
Proof.
  unfold ResearchAgent.research_topic.
  destruct (ResearchAgent.verbose_print verbose
              (ResearchAgent.researching query)); [|discriminate].
  destruct (WebSearcher.search query max_results w) as [[stubs| |] w1];
    try discriminate.
  destruct stubs as [|s stubs].
  - intros [= <- <-]. exists [], w1, []. repeat split.
  - rewrite extract_loop_fetch_all.
    destruct (ResearchAgent.fetch_all verbose (s :: stubs) w1)
      as [[outcomes| |] w2] eqn:Hf; simpl; try discriminate.
    intros [= <- <-]. exists (s :: stubs), w1, outcomes. repeat split.
    exact Hf.
Qed.

(** C1 (amended). In topic mode the results of a document that
    [research_topic] returns are the stubs whose extraction succeeded, in
    rank order, each with its extracted content; a stub for which
    [fetch_content] returned [None], its fetch or its extraction having
    failed, is left out, so the number of results is the number of
    successes. *)
Theorem research_topic_results (verbose : bool) (query : string)
    (max_results : Z) (w w' : World) (doc : ResearchDocument) :
  ResearchAgent.research_topic verbose query max_results w = (Normal doc, w') ->
  exists stubs w1 outcomes,
    WebSearcher.search query max_results w = (Normal stubs, w1)
    /\ ResearchAgent.fetch_all verbose stubs w1 = (Normal outcomes, w')
    /\ map fst outcomes = stubs
    /\ Forall (fun rc => exists wi,
                  fst (ContentExtractor.fetch_content
                         (Result.url (fst rc)) wi)
                  = Normal (snd rc))
              outcomes
    /\ doc = TopicDoc query (ResearchAgent.successes outcomes)
    /\ Forall (fun e => Enriched.extracted e <> None)
              (ResearchAgent.successes outcomes)
    /\ length (ResearchAgent.successes outcomes)
       = length (filter (fun rc => match snd rc with
                                   | Some _ => true
                                   | None => false
                                   end) outcomes).
Proof.
  intros H.
  destruct (research_topic_fetch_all _ _ _ _ _ _ H)
    as [stubs [w1 [outcomes [Hs [Hf Hd]]]]].
  exists stubs, w1, outcomes. repeat split; try assumption.
  - eapply fetch_all_stubs; eauto.
  - eapply fetch_all_outcomes; eauto.
  - apply successes_extracted.
  - apply successes_extracted.
Qed.

End AgentFacts.

Lemma research_topic_results_witness :
  let net := table_network Sample.web in
  let a := Result.mk "A" "https://a.example/" "first" in
  let b := Result.mk "B" "https://b.example/" "second" in
  let c := Result.mk "C" "https://c.example/" "third" in
  let page_a :=
    Extracted.mk "A" "https://a.example/" "<article>aaa</article>" "aaa" in
  let page_c :=
    Extracted.mk "C" "https://c.example/" "<article>ccc</article>" "ccc" in
  exists stubs w1 outcomes,
    WebSearcher.search (lib := example_library) (net := net)
      "rust ownership" 3 tt = (Normal stubs, w1)
    /\ ResearchAgent.fetch_all (lib := example_library) (net := net)
         (con := plain_console) false stubs w1 = (Normal outcomes, tt)
    /\ map fst outcomes = stubs
    /\ Forall (fun rc => exists wi,
                  fst (ContentExtractor.fetch_content (lib := example_library)
                         (net := net) (con := plain_console)
                         (Result.url (fst rc)) wi)
                  = Normal (snd rc))
              outcomes
    /\ TopicDoc "rust ownership"
         [Enriched.mk a (Some page_a); Enriched.mk c (Some page_c)]
       = TopicDoc "rust ownership" (ResearchAgent.successes outcomes)
    /\ Forall (fun e => Enriched.extracted e <> None)
              (ResearchAgent.successes outcomes)
    /\ length (ResearchAgent.successes outcomes)
       = length (filter (fun rc => match snd rc with
                                   | Some _ => true
                                   | None => false
                                   end) outcomes).
Proof.
  intros net a b c page_a page_c.
  apply (research_topic_results (lib := example_library) (net := net)
           (con := plain_console) false "rust ownership" 3 tt tt).
  vm_compute. reflexivity.
Defined.

(** C1 as stated fails: of three stubs the second of which cannot be
    fetched, the document holds the first and the third only. *)
Lemma failed_stub_is_dropped :
  let net := logged (table_network Sample.web) in
  let w := (tt, []) in
  let stubs :=
    returned_items
      (fst (WebSearcher.search (lib := example_library) (net := net)
              "rust ownership" 3 w)) in
  let w1 :=
    snd (WebSearcher.search (lib := example_library) (net := net)
           "rust ownership" 3 w) in
  let outcomes :=
    returned_items
      (fst (ResearchAgent.fetch_all (lib := example_library) (net := net)
              (con := plain_console) false stubs w1)) in
  let stub2 := Result.mk "B" "https://b.example/" "second" in
  nth_error outcomes 1 = Some (stub2, None)
  /\ exists results,
      fst (ResearchAgent.research_topic (lib := example_library) (net := net)
             (con := plain_console) false "rust ownership" 3 w)
      = Normal (TopicDoc "rust ownership" results)
      /\ length results = 2%nat
      /\ ~ In stub2 (map Enriched.result results)
      /\ results <> ResearchAgent.keep_all outcomes.
Proof.
  cbv zeta. split; [reflexivity|].
  eexists. split; [vm_compute; reflexivity|].
  split; [reflexivity|]. split.
  - simpl. intros [H|[H|[]]]; discriminate.
  - vm_compute. discriminate.
Qed.

(** ** What the fetcher is asked for *)

Lemma firstn_min_length {A : Type} (n : nat) (l : list A) :
  firstn (Nat.min n (length l)) l = firstn n l.
Proof.
  revert n. induction l as [|a l IH]; intros [|n]; simpl; try reflexivity.
  f_equal. apply IH.
Qed.

Section FetcherFacts.
Context {lib : Library} {net : Network} {con : Console}.

(** On an observed network a fetch gives what it gives on the network
    itself, and adds its url to the requests. *)
Lemma logged_fetch_content (url : string) (w : @World net)
    (log : list string) :
  ContentExtractor.fetch_content (net := logged net) url (w, log)
  = (fst (ContentExtractor.fetch_content url w),
     (snd (ContentExtractor.fetch_content url w), log ++ [url])).
Proof.
  unfold ContentExtractor.fetch_content, ContentExtractor.handler. simpl.
  destruct (session_get url 15 w) as [[response| |] w']; simpl.
  - destruct (raise_for_status response);
      [destruct (ContentExtractor.parse_page url (soup_of response))|];
      try reflexivity;
      destruct (console_print _); reflexivity.
  - destruct (console_print _); reflexivity.
  - reflexivity.
Qed.

Lemma logged_search (query : string) (max_results : Z) (w : @World net)
    (log : list string) :
  WebSearcher.search (net := logged net) query max_results (w, log)
  = (fst (WebSearcher.search query max_results w),
     (snd (WebSearcher.search query max_results w),
      log ++ [WebSearcher.search_url query])).
Proof.
  unfold WebSearcher.search. simpl.
  destruct (session_get (WebSearcher.search_url query) 10 w)
    as [[response| |] w']; simpl; try reflexivity.
  destruct (raise_for_status response); reflexivity.
Qed.

(** The requests of the loop are the urls of the stubs it has come to,
    in rank order: of all the stubs when every turn returns. *)
Lemma logged_fetch_all (verbose : bool) (stubs : list Result.t)
    (w : @World net) (log : list string) :
  (exists n,
      snd (snd (ResearchAgent.fetch_all (net := logged net) verbose stubs
                  (w, log)))
      = log ++ map Result.url (firstn n stubs))
  /\ forall outcomes,
      fst (ResearchAgent.fetch_all (net := logged net) verbose stubs (w, log))
      = Normal outcomes ->
      snd (snd (ResearchAgent.fetch_all (net := logged net) verbose stubs
                  (w, log)))
      = log ++ map Result.url stubs.
Proof.
  revert w log. induction stubs as [|result rest IH]; intros w log; simpl.
  - split; [exists 0|intros _ _]; now rewrite app_nil_r.
  - destruct (ResearchAgent.verbose_print verbose
                (ResearchAgent.fetching (Result.url result))).
    2:{ split; [exists 0; simpl; now rewrite app_nil_r|discriminate]. }
    rewrite logged_fetch_content.
    destruct (ContentExtractor.fetch_content (Result.url result) w)
      as [[content| |] w']; cbn [fst snd].
    + destruct (IH w' (log ++ [Result.url result])) as [[n Hn] Hall].
      destruct (ResearchAgent.fetch_all (net := logged net) verbose rest
                  (w', log ++ [Result.url result]))
        as [[outcomes| |] [w2 log2]]; cbn [fst snd] in *.
      * split; [exists (S n)|intros o _; rewrite (Hall outcomes eq_refl)];
          simpl; rewrite ?Hn, <- app_assoc; reflexivity.
      * split; [exists (S n)|discriminate].
        simpl. rewrite Hn, <- app_assoc. reflexivity.
      * split; [exists (S n)|discriminate].
        simpl. rewrite Hn, <- app_assoc. reflexivity.
    + split; [exists 1|discriminate]. reflexivity.
    + split; [exists 1|discriminate]. reflexivity.
Qed.

Lemma parse_results_url (soup : node) (max_results : Z) (stub : Result.t) :
  In stub (WebSearcher.parse_results soup max_results) ->
  exists result title_tag,
    In result (WebSearcher.containers soup)
    /\ Soup.find_class "a" "result__a" result = Some title_tag
    /\ Result.url stub
       = WebSearcher.resolve_redirect (Soup.get title_tag "href" "").
Proof.
  rewrite parse_results_flat_map. intros H.
  apply in_flat_map in H as [result [Hin Hs]].
  exists result.
  unfold WebSearcher.search_step in Hs.
  destruct (Soup.find_class "a" "result__a" result) as [title_tag|];
    [|destruct Hs].
  exists title_tag. destruct Hs as [<-|[]]. simpl. repeat split.
  unfold Py.slice_to in Hin.
  destruct (0 <=? max_results)%Z;
    match type of Hin with In _ (firstn ?n ?l) =>
      rewrite <- (firstn_skipn n l); apply in_or_app; now left
    end.
Qed.

(** The requests of topic mode: the search URL, then the urls of the
    stubs the loop has come to. *)
Lemma logged_research_topic (verbose : bool) (query : string)
    (max_results : Z) (w : @World net) (log : list string) :
  let stubs := returned_items (fst (WebSearcher.search query max_results w)) in
  let run :=
    ResearchAgent.research_topic (net := logged net) verbose query
      max_results (w, log) in
  (exists n,
      n <= 1 + length stubs
      /\ snd (snd run)
         = log ++ firstn n (WebSearcher.search_url query
                              :: map Result.url stubs))
  /\ forall doc,
      fst run = Normal doc ->
      snd (snd run)
      = log ++ WebSearcher.search_url query :: map Result.url stubs.
Proof.
  cbv zeta. unfold ResearchAgent.research_topic.
  destruct (ResearchAgent.verbose_print verbose
              (ResearchAgent.researching query)).
  2:{ split; [exists 0; split; [lia|simpl; now rewrite app_nil_r]
             |discriminate]. }
  rewrite logged_search.
  destruct (WebSearcher.search query max_results w) as [[stubs| |] w1];
    cbn [fst snd returned_items].
  - destruct stubs as [|s stubs].
    + split; [exists 1; split; [simpl; lia|reflexivity]|reflexivity].
    + rewrite (extract_loop_fetch_all (net := logged net)).
      destruct (logged_fetch_all verbose (s :: stubs) w1
                  (log ++ [WebSearcher.search_url query])) as [[n Hn] Hall].
      assert (Hle : snd (snd (ResearchAgent.fetch_all (net := logged net)
                                verbose (s :: stubs)
                                (w1, log ++ [WebSearcher.search_url query])))
                    = log ++ firstn (S (Nat.min n (length (s :: stubs))))
                                (WebSearcher.search_url query
                                   :: map Result.url (s :: stubs))).
      { rewrite Hn, <- app_assoc. f_equal.
        change (firstn (S (Nat.min n (length (s :: stubs))))
                  (WebSearcher.search_url query
                     :: map Result.url (s :: stubs)))
          with (WebSearcher.search_url query
                  :: firstn (Nat.min n (length (s :: stubs)))
                       (map Result.url (s :: stubs))).
        simpl app. f_equal.
        rewrite firstn_map, firstn_min_length. reflexivity. }
      destruct (ResearchAgent.fetch_all (net := logged net) verbose
                  (s :: stubs) (w1, log ++ [WebSearcher.search_url query]))
        as [[outcomes| |] [w2 log2]]; cbn [fst snd] in *.
      * split.
        -- exists (S (Nat.min n (length (s :: stubs)))). split; [lia|exact Hle].
        -- intros doc _. rewrite (Hall outcomes eq_refl), <- app_assoc.
           reflexivity.
      * split; [|discriminate].
        exists (S (Nat.min n (length (s :: stubs)))). split; [lia|exact Hle].
      * split; [|discriminate].
        exists (S (Nat.min n (length (s :: stubs)))). split; [lia|exact Hle].
  - split; [exists 1; split; [simpl; lia|reflexivity]|discriminate].
  - split; [exists 1; split; [simpl; lia|reflexivity]|discriminate].
Qed.

(** C9 (amended). The URLs requested in topic mode are the search URL
    and then the url fields of the stubs, as parsed and in rank order: of
    every stub when a document is returned, of the stubs up to the one at
    which a print or a fetch raised or was interrupted otherwise. The url
    field of a stub is what redirect resolution leaves of the [href] of
    the title anchor of a result container of the result page (the empty
    string without an [href]). Nothing makes it absolute. *)
Theorem fetcher_receives_stub_urls (verbose : bool) (query : string)
    (max_results : Z) (w : @World net) (log : list string) :
  let stubs := returned_items (fst (WebSearcher.search query max_results w)) in
  let run :=
    ResearchAgent.research_topic (net := logged net) verbose query
      max_results (w, log) in
  (exists n,
      snd (snd run)
      = log ++ firstn n (WebSearcher.search_url query
                           :: map Result.url stubs))
  /\ (forall doc,
         fst run = Normal doc ->
         snd (snd run)
         = log ++ WebSearcher.search_url query :: map Result.url stubs)
  /\ forall stub, In stub stubs ->
       exists response result title_tag,
         fst (session_get (WebSearcher.search_url query) 10 w)
         = Normal response
         /\ In result (WebSearcher.containers (soup_of response))
         /\ Soup.find_class "a" "result__a" result = Some title_tag
         /\ Result.url stub
            = WebSearcher.resolve_redirect (Soup.get title_tag "href" "").
Proof.
  intros stubs run.
  destruct (logged_research_topic verbose query max_results w log)
    as [[n [_ Hn]] Hall].
  split; [exists n; exact Hn|]. split; [exact Hall|].
  intros stub Hin. subst stubs. unfold WebSearcher.search in Hin.
  destruct (session_get (WebSearcher.search_url query) 10 w)
    as [[response| |] w']; try destruct Hin.
  destruct (raise_for_status response); [|destruct Hin].
  simpl in Hin.
  destruct (parse_results_url _ _ _ Hin) as [r [t [Hr [Ht Hu]]]].
  exists response, r, t. auto.
Qed.

End FetcherFacts.

(** C9 as stated fails: a redirect link without destination, a relative
    link and the empty string of an anchor without [href] are all handed
    to the fetcher as they are. *)
Lemma fetcher_receives_relative_urls :
  let net := logged (table_network Sample.loose_web) in
  let log :=
    snd (snd (ResearchAgent.research_topic (lib := example_library)
                (net := net) (con := plain_console) false "x" 5 (tt, []))) in
  log = ["https://html.duckduckgo.com/html/?q=x";
         "//duckduckgo.com/l/?rut=9"; "/about"; ""]
  /\ map Result.url
       (returned_items
          (fst (WebSearcher.search (lib := example_library) (net := net)
                  "x" 5 (tt, []))))
     = ["//duckduckgo.com/l/?rut=9"; "/about"; ""]
  /\ Url.is_redirect "//duckduckgo.com/l/?rut=9" = true
  /\ Url.is_absolute "//duckduckgo.com/l/?rut=9" = false
  /\ Url.is_absolute "/about" = false
  /\ Url.is_absolute "" = false.
Proof. cbv zeta. repeat split; vm_compute; reflexivity. Qed.

(** ** The markdown formatter *)

Section MarkdownFacts.

Lemma length_substring_0 (n : nat) (s : string) :
  String.length (substring 0 n s) = Nat.min n (String.length s).
Proof.
  revert n. induction s as [|c s IH]; intros [|n]; simpl; try reflexivity.
  now rewrite IH.
Qed.

Lemma markdown_results_app (i : nat) (results : list Enriched.t)
    (output : list string) :
  ResultFormatter.markdown_results i results output
  = output ++ ResultFormatter.markdown_results i results [].
Proof.
  revert i output. induction results as [|r rest IH]; intros i output.
  - simpl. now rewrite app_nil_r.
  - cbn [ResultFormatter.markdown_results].
    rewrite IH. symmetry. rewrite IH. symmetry.
    destruct (Enriched.extracted r); cbn [app];
      rewrite <- ?app_assoc; reflexivity.
Qed.

Lemma markdown_results_blocks (i : nat) (results : list Enriched.t) :
  ResultFormatter.markdown_results i results []
  = flat_map (fun ir => ResultFormatter.markdown_block (fst ir) (snd ir))
      (combine (seq i (length results)) results).
Proof.
  revert i. induction results as [|r rest IH]; intros i; [reflexivity|].
  cbn [length seq combine flat_map fst snd].
  rewrite <- IH. unfold ResultFormatter.markdown_block.
  cbn [ResultFormatter.markdown_results].
  now rewrite markdown_results_app.
Qed.

(** C6. In markdown the block of a result that has extracted content
    ends with its body and the rule; the body is the first 5000
    characters of the markdown followed by the truncation marker when
    the markdown is longer than 5000 characters, and the markdown itself
    otherwise. The output of topic mode is the header and these blocks,
    in order, joined by newlines. The output of url mode ends with the
    whole markdown. *)
Theorem markdown_truncation :
  (forall i result extracted,
      Enriched.extracted result = Some extracted ->
      let content := Extracted.content extracted in
      exists heading emitted,
        ResultFormatter.markdown_block i result
        = heading ++ [emitted; (nl ++ "---" ++ nl)%string]
        /\ length heading = 4
        /\ (5000 < String.length content ->
            emitted
            = (substring 0 5000 content
                 ++ ResultFormatter.truncation_marker)%string
            /\ String.length (substring 0 5000 content) = 5000)
        /\ (String.length content <= 5000 -> emitted = content))
  /\ (forall query results,
         ResultFormatter.format_markdown (TopicDoc query results)
         = Py.join nl
             (ResultFormatter.markdown_header query (length results)
                ++ flat_map
                     (fun ir =>
                        ResultFormatter.markdown_block (fst ir) (snd ir))
                     (combine (seq 1 (length results)) results)))
  /\ (forall page,
         ResultFormatter.format_markdown (UrlDoc page)
         = (("# " ++ Extracted.title page ++ nl) ++ nl
              ++ ("**URL:** " ++ Extracted.url page ++ nl) ++ nl
              ++ (nl ++ "---" ++ nl) ++ nl
              ++ Extracted.content page)%string).
Proof.
  split; [|split].
  - intros i result extracted He content.
    unfold ResultFormatter.markdown_block.
    cbn [ResultFormatter.markdown_results]. rewrite He. cbn [app].
    fold content.
    eexists [_; _; _; _], _. split; [reflexivity|].
    split; [reflexivity|]. unfold Py.len, Py.str_slice_to. split.
    + intros Hlong.
      replace (Z.of_nat (String.length content) >? 5000)%Z with true
        by (symmetry; apply Z.gtb_lt; lia).
      split; [reflexivity|]. rewrite length_substring_0. lia.
    + intros Hshort.
      replace (Z.of_nat (String.length content) >? 5000)%Z with false
        by (symmetry; rewrite Z.gtb_ltb; apply Z.ltb_ge; lia).
      reflexivity.
  - intros query results. unfold ResultFormatter.format_markdown.
    rewrite markdown_results_app, markdown_results_blocks. reflexivity.
  - intros page. reflexivity.
Qed.

End MarkdownFacts.

Lemma markdown_truncation_witness :
  let long :=
    Enriched.mk (Result.mk "T" "u" "s")
      (Some (Extracted.mk "T" "u" (Py.str_mul "ab" 3000) "")) in
  exists heading emitted,
    ResultFormatter.markdown_block 1 long
    = heading ++ [emitted; (nl ++ "---" ++ nl)%string]
    /\ emitted = (Py.str_mul "ab" 2500 ++ ResultFormatter.truncation_marker)%string.
Proof.
  intros long.
  destruct (proj1 markdown_truncation 1 long
              (Extracted.mk "T" "u" (Py.str_mul "ab" 3000) "") eq_refl)
    as [heading [emitted [Hb [_ [Hlong _]]]]].
  exists heading, emitted. split; [exact Hb|].
  destruct Hlong as [-> _].
  - vm_compute. lia.
  - vm_compute. reflexivity.
Defined.

Example markdown_short_body :
  ResultFormatter.markdown_block 2
    (Enriched.mk (Result.mk "T" "u" "s")
       (Some (Extracted.mk "T" "u" "short body" "")))
  = [("## 2. T" ++ nl)%string; ("**URL:** u" ++ nl)%string;
     ("**Summary:** s" ++ nl)%string; (nl ++ "### Content" ++ nl)%string;
     "short body"; (nl ++ "---" ++ nl)%string].
Proof. reflexivity. Qed.

(** ** The JSON encoder and decoder *)

Section JsonFacts.
Local Open Scope string_scope.
Import Json.

Lemma append_assoc (a b c : string) : (a ++ b) ++ c = a ++ (b ++ c).
Proof. induction a as [|x a IH]; simpl; [reflexivity|now rewrite IH]. Qed.

Lemma append_nil_r (a : string) : a ++ "" = a.
Proof. induction a as [|x a IH]; simpl; [reflexivity|now rewrite IH]. Qed.

Lemma length_append (a b : string) :
  String.length (a ++ b) = (String.length a + String.length b)%nat.
Proof. induction a as [|x a IH]; simpl; [reflexivity|now rewrite IH]. Qed.

Lemma scanstring_escape_char (c : ascii) (rest : string) :
  scanstring (escape_char c ++ rest) = cons_char c (scanstring rest).
Proof.
  destruct c as [[] [] [] [] [] [] [] []]; reflexivity.
Qed.

Lemma scanstring_escape (s rest : string) :
  scanstring (escape s ++ String quote rest) = Some (s, rest).
Proof.
  induction s as [|c s IH].
  - reflexivity.
  - cbn [escape]. rewrite append_assoc, scanstring_escape_char, IH.
    reflexivity.
Qed.

(** Induction on a value, with the property known of every item. *)
Lemma value_forall_ind (P : value -> Prop) :
  (forall s, P (Str s)) ->
  (forall items, Forall P items -> P (Arr items)) ->
  (forall members, Forall (fun kv => P (snd kv)) members -> P (Obj members)) ->
  forall v, P v.
Proof.
  intros Hs Ha Ho. fix IH 1. intros [s|items|members].
  - apply Hs.
  - apply Ha. induction items as [|i items IHi]; constructor.
    + apply IH.
    + exact IHi.
  - apply Ho. induction members as [|[k v] members IHm]; constructor.
    + apply IH.
    + exact IHm.
Qed.

Lemma skip_ws_str_mul (n : nat) (rest : string) :
  skip_ws (Py.str_mul "  " n ++ rest) = skip_ws rest.
Proof. induction n as [|n IH]; simpl; [reflexivity|exact IH]. Qed.

Lemma skip_ws_newline_indent (level : nat) (rest : string) :
  skip_ws (newline_indent level ++ rest) = skip_ws rest.
Proof.
  unfold newline_indent. rewrite append_assoc. simpl.
  apply skip_ws_str_mul.
Qed.

Lemma skip_ws_starts_value (s : string) :
  starts_value s = true -> skip_ws s = s.
Proof.
  destruct s as [|c s]; [discriminate|].
  destruct c as [[] [] [] [] [] [] [] []]; try discriminate; reflexivity.
Qed.

Lemma encode_starts_value (level : nat) (v : value) (rest : string) :
  starts_value (encode level v ++ rest) = true.
Proof.
  destruct v as [s|[|i items]|[|m members]]; reflexivity.
Qed.

Lemma parse_value_array (fuel : nat) (s : string) :
  starts_value (skip_ws s) = true ->
  parse_value (S fuel) (String "[" s)
  = match parse_items fuel (skip_ws s) with
    | Some (items, rest) => Some (Arr items, rest)
    | None => None
    end.
Proof.
  intros H. cbn [parse_value]. simpl Ascii.eqb. cbv iota.
  destruct (skip_ws s) as [|c t]; [discriminate|].
  destruct c as [[] [] [] [] [] [] [] []]; try discriminate; reflexivity.
Qed.

Lemma parse_value_object (fuel : nat) (s : string) :
  starts_value (skip_ws s) = true ->
  parse_value (S fuel) (String "{" s)
  = match parse_members fuel (skip_ws s) with
    | Some (pairs, rest) => Some (Obj (dict_of_pairs pairs), rest)
    | None => None
    end.
Proof.
  intros H. cbn [parse_value]. simpl Ascii.eqb. cbv iota.
  destruct (skip_ws s) as [|c t]; [discriminate|].
  destruct c as [[] [] [] [] [] [] [] []]; try discriminate; reflexivity.
Qed.

Lemma parse_items_one fuel s v mid rest :
  parse_value fuel s = Some (v, mid) ->
  skip_ws mid = String "]" rest ->
  parse_items (S fuel) s = Some ([v], rest).
Proof. intros H1 H2. cbn [parse_items]. now rewrite H1, H2. Qed.

Lemma parse_items_more fuel s v mid next items rest :
  parse_value fuel s = Some (v, mid) ->
  skip_ws mid = String "," next ->
  parse_items fuel (skip_ws next) = Some (items, rest) ->
  parse_items (S fuel) s = Some (v :: items, rest).
Proof. intros H1 H2 H3. cbn [parse_items]. now rewrite H1, H2, H3. Qed.

Lemma parse_members_one fuel s key r1 r2 v r3 rest :
  scanstring s = Some (key, r1) ->
  skip_ws r1 = String ":" r2 ->
  parse_value fuel (skip_ws r2) = Some (v, r3) ->
  skip_ws r3 = String "}" rest ->
  parse_members (S fuel) (String quote s) = Some ([(key, v)], rest).
Proof.
  intros H1 H2 H3 H4. cbn [parse_members].
  change (Ascii.eqb quote quote) with true. cbv iota.
  now rewrite H1, H2, H3, H4.
Qed.

Lemma parse_members_more fuel s key r1 r2 v r3 next pairs rest :
  scanstring s = Some (key, r1) ->
  skip_ws r1 = String ":" r2 ->
  parse_value fuel (skip_ws r2) = Some (v, r3) ->
  skip_ws r3 = String "," next ->
  parse_members fuel (skip_ws next) = Some (pairs, rest) ->
  parse_members (S fuel) (String quote s) = Some ((key, v) :: pairs, rest).
Proof.
  intros H1 H2 H3 H4 H5. cbn [parse_members].
  change (Ascii.eqb quote quote) with true. cbv iota.
  now rewrite H1, H2, H3, H4, H5.
Qed.

Lemma join_one (sep a : string) : Py.join sep [a] = a.
Proof. reflexivity. Qed.

Lemma join_more (sep a b : string) (l : list string) :
  Py.join sep (a :: b :: l) = a ++ sep ++ Py.join sep (b :: l).
Proof. reflexivity. Qed.

Lemma join_starts_value (sep : string) (level : nat) (v : value)
    (items : list value) (rest : string) :
  starts_value
    (Py.join sep (map (encode level) (v :: items)) ++ rest) = true.
Proof.
  cbn [map]. destruct (map (encode level) items).
  - rewrite join_one. apply encode_starts_value.
  - rewrite join_more, append_assoc. apply encode_starts_value.
Qed.

Lemma parse_items_encode (level close : nat) (items : list value) :
  Forall decodes items ->
  forallb well_formed items = true ->
  items <> [] ->
  forall fuel rest,
    list_sum (map (fun i => S (size i)) items) <= fuel ->
    parse_items fuel
      (Py.join ("," ++ newline_indent level) (map (encode level) items)
         ++ newline_indent close ++ String "]" rest)
    = Some (items, rest).
Proof.
  induction items as [|v items IH]; [congruence|].
  intros HF Hwf _ fuel rest Hfuel.
  inversion HF as [|? ? Hv HF']; subst.
  cbn [forallb] in Hwf. apply andb_true_iff in Hwf as [Hwv Hwf].
  change (S (size v) + list_sum (map (fun i => S (size i)) items) <= fuel)%nat
    in Hfuel.
  destruct fuel as [|fuel]; [lia|].
  destruct items as [|v' items'].
  - cbn [map]. rewrite join_one.
    eapply parse_items_one.
    + apply (Hv Hwv). lia.
    + rewrite skip_ws_newline_indent. reflexivity.
  - cbn [map]. rewrite join_more.
    change (encode level v' :: map (encode level) items')
      with (map (encode level) (v' :: items')).
    rewrite !append_assoc.
    eapply parse_items_more.
    + apply (Hv Hwv). lia.
    + reflexivity.
    + rewrite skip_ws_newline_indent.
      rewrite skip_ws_starts_value
        by apply (join_starts_value _ level v' items').
      apply (IH HF' Hwf); [discriminate|]. lia.
Qed.

Lemma parse_members_encode (level close : nat)
    (members : list (string * value)) :
  Forall (fun kv => decodes (snd kv)) members ->
  forallb (fun kv => well_formed (snd kv)) members = true ->
  members <> [] ->
  forall fuel rest,
    list_sum (map (fun kv => S (size (snd kv))) members) <= fuel ->
    parse_members fuel
      (Py.join ("," ++ newline_indent level)
         (map (fun kv => match kv with
                         | (key, v') =>
                             encode_basestring key ++ ": " ++ encode level v'
                         end) members)
         ++ newline_indent close ++ String "}" rest)
    = Some (members, rest).
Proof.
  induction members as [|[key v] members IH]; [congruence|].
  intros HF Hwf _ fuel rest Hfuel.
  inversion HF as [|? ? Hv HF']; subst. cbn [snd] in Hv.
  cbn [forallb snd] in Hwf. apply andb_true_iff in Hwf as [Hwv Hwf].
  change (S (size v)
          + list_sum (map (fun kv => S (size (snd kv))) members) <= fuel)%nat
    in Hfuel.
  destruct fuel as [|fuel]; [lia|].
  destruct members as [|m' members'].
  - cbn [map]. rewrite join_one. unfold encode_basestring.
    cbn [append]. rewrite !append_assoc. cbn [append].
    eapply parse_members_one.
    + apply scanstring_escape.
    + reflexivity.
    + change (skip_ws (String " " ?x)) with (skip_ws x).
      rewrite skip_ws_starts_value by apply encode_starts_value.
      apply (Hv Hwv). lia.
    + rewrite skip_ws_newline_indent. reflexivity.
  - cbn [map]. rewrite join_more.
    unfold encode_basestring at 1.
    cbn [append]. rewrite !append_assoc. cbn [append].
    eapply parse_members_more.
    + apply scanstring_escape.
    + reflexivity.
    + change (skip_ws (String " " ?x)) with (skip_ws x).
      rewrite skip_ws_starts_value by apply encode_starts_value.
      apply (Hv Hwv). lia.
    + reflexivity.
    + rewrite ?append_assoc, skip_ws_newline_indent.
      rewrite skip_ws_starts_value.
      * apply (IH HF' Hwf); [discriminate|]. lia.
      * destruct m' as [key' v']. cbn [map].
        destruct (map _ members').
        -- rewrite join_one. reflexivity.
        -- rewrite join_more. reflexivity.
Qed.

Lemma distinct_NoDup (keys : list string) :
  distinct keys = true -> NoDup keys.
Proof.
  induction keys as [|k keys IH]; simpl; intros H; constructor.
  - apply andb_true_iff in H as [H _]. apply negb_true_iff in H.
    intros Hin. apply Bool.not_true_iff_false in H. apply H.
    apply existsb_exists. exists k. split; [exact Hin|apply String.eqb_refl].
  - apply andb_true_iff in H as [_ H]. now apply IH.
Qed.

Lemma dict_set_fresh (d : list (string * value)) (key : string) (v : value) :
  ~ In key (map fst d) -> dict_set d key v = (d ++ [(key, v)])%list.
Proof.
  induction d as [|[k v'] d IH]; simpl; intros H; [reflexivity|].
  destruct (String.eqb_spec k key) as [->|_].
  - exfalso. apply H. now left.
  - rewrite IH; [reflexivity|]. intros Hin. apply H. now right.
Qed.

Lemma fold_dict_set (pairs acc : list (string * value)) :
  NoDup (map fst (acc ++ pairs)%list) ->
  fold_left (fun d kv => dict_set d (fst kv) (snd kv)) pairs acc
  = (acc ++ pairs)%list.
Proof.
  revert acc. induction pairs as [|[k v] pairs IH]; intros acc H; simpl.
  - now rewrite app_nil_r.
  - rewrite dict_set_fresh.
    + rewrite IH; rewrite <- app_assoc; [reflexivity|exact H].
    + rewrite map_app in H. simpl in H.
      apply NoDup_remove_2 in H. intros Hin. apply H.
      apply in_or_app. now left.
Qed.

Lemma dict_of_pairs_distinct (pairs : list (string * value)) :
  distinct (map fst pairs) = true -> dict_of_pairs pairs = pairs.
Proof.
  intros H. unfold dict_of_pairs. rewrite fold_dict_set; [reflexivity|].
  now apply distinct_NoDup.
Qed.

(** The decoder reads back what the encoder wrote, at any indent level
    and before any text, when it is given fuel for the size of the
    value. *)
Lemma parse_encode (v : value) : decodes v.
Proof.
  induction v as [s|items IH|members IH] using value_forall_ind;
    intros Hwf level fuel rest Hfuel.
  - destruct fuel as [|fuel]; [simpl in Hfuel; lia|].
    cbn [encode]. unfold encode_basestring.
    cbn [append]. rewrite append_assoc. cbn [append].
    cbn [parse_value]. change (Ascii.eqb quote quote) with true. cbv iota.
    now rewrite scanstring_escape.
  - destruct fuel as [|fuel]; [simpl in Hfuel; lia|].
    destruct items as [|i items]; [reflexivity|].
    change (encode level (Arr (i :: items)))
      with ("[" ++ newline_indent (S level)
            ++ Py.join ("," ++ newline_indent (S level))
                 (map (encode (S level)) (i :: items))
            ++ newline_indent level ++ "]").
    cbn [append]. rewrite !append_assoc. cbn [append].
    rewrite parse_value_array; rewrite skip_ws_newline_indent;
      rewrite skip_ws_starts_value by apply join_starts_value;
      [|apply join_starts_value].
    cbn [well_formed] in Hwf.
    rewrite (parse_items_encode (S level) level (i :: items) IH Hwf);
      [reflexivity|discriminate|].
    cbn [size] in Hfuel. lia.
  - destruct fuel as [|fuel]; [simpl in Hfuel; lia|].
    destruct members as [|m members]; [reflexivity|].
    change (encode level (Obj (m :: members)))
      with ("{" ++ newline_indent (S level)
            ++ Py.join ("," ++ newline_indent (S level))
                 (map (fun kv => match kv with
                                 | (key, v') =>
                                     encode_basestring key ++ ": "
                                     ++ encode (S level) v'
                                 end) (m :: members))
            ++ newline_indent level ++ "}").
    cbn [append]. rewrite !append_assoc. cbn [append].
    cbn [well_formed] in Hwf. apply andb_true_iff in Hwf as [Hkeys Hwf].
    assert (Hstart :
      forall tail,
        starts_value
          (Py.join ("," ++ newline_indent (S level))
             (map (fun kv => match kv with
                             | (key, v') =>
                                 encode_basestring key ++ ": "
                                 ++ encode (S level) v'
                             end) (m :: members)) ++ tail) = true).
    { intros tail. destruct m as [key v]. cbn [map].
      destruct (map _ members).
      - rewrite join_one. reflexivity.
      - rewrite join_more. reflexivity. }
    rewrite parse_value_object; rewrite skip_ws_newline_indent;
      rewrite skip_ws_starts_value by apply Hstart; [|apply Hstart].
    rewrite (parse_members_encode (S level) level (m :: members) IH Hwf);
      [|discriminate|cbn [size] in Hfuel; lia].
    now rewrite dict_of_pairs_distinct.
Qed.

Lemma length_join_bound {A} (f : A -> string) (g : A -> nat)
    (sep : string) (l : list A) :
  1 <= String.length sep ->
  Forall (fun x => g x <= String.length (f x)) l ->
  list_sum (map (fun x => S (g x)) l)
  <= S (String.length (Py.join sep (map f l))).
Proof.
  intros Hsep HF. induction HF as [|x l Hx HF IH]; [simpl; lia|].
  destruct l as [|y l].
  - cbn [map]. rewrite join_one. simpl. lia.
  - cbn [map] in *. rewrite join_more, !length_append.
    change (list_sum (S (g x) :: S (g y) :: map (fun x => S (g x)) l))
      with (S (g x) + list_sum (S (g y) :: map (fun x => S (g x)) l))%nat.
    lia.
Qed.

Lemma size_le_length (v : value) (level : nat) :
  size v <= String.length (encode level v).
Proof.
  revert level.
  induction v as [s|items IH|members IH] using value_forall_ind;
    intros level.
  - simpl. lia.
  - destruct items as [|i items]; [simpl; lia|].
    change (encode level (Arr (i :: items)))
      with ("[" ++ newline_indent (S level)
            ++ Py.join ("," ++ newline_indent (S level))
                 (map (encode (S level)) (i :: items))
            ++ newline_indent level ++ "]").
    rewrite !length_append.
    change (size (Arr (i :: items)))
      with (S (list_sum (map (fun x => S (size x)) (i :: items)))).
    change (String.length "[") with 1%nat.
    change (String.length "]") with 1%nat.
    pose proof (length_join_bound (encode (S level)) size
                  ("," ++ newline_indent (S level)) (i :: items)) as Hb.
    assert (Hsep : 1 <= String.length ("," ++ newline_indent (S level)))
      by (simpl; lia).
    assert (HF : Forall (fun x => size x <= String.length (encode (S level) x))
                        (i :: items)).
    { eapply Forall_impl; [|exact IH]. intros x Hx. apply Hx. }
    specialize (Hb Hsep HF). lia.
  - destruct members as [|m members]; [simpl; lia|].
    change (encode level (Obj (m :: members)))
      with ("{" ++ newline_indent (S level)
            ++ Py.join ("," ++ newline_indent (S level))
                 (map (fun kv => match kv with
                                 | (key, v') =>
                                     encode_basestring key ++ ": "
                                     ++ encode (S level) v'
                                 end) (m :: members))
            ++ newline_indent level ++ "}").
    rewrite !length_append.
    change (size (Obj (m :: members)))
      with (S (list_sum (map (fun kv => S (size (snd kv))) (m :: members)))).
    change (String.length "{") with 1%nat.
    change (String.length "}") with 1%nat.
    pose proof (length_join_bound
                  (fun kv : string * value =>
                     match kv with
                     | (key, v') =>
                         encode_basestring key ++ ": " ++ encode (S level) v'
                     end)
                  (fun kv => size (snd kv))
                  ("," ++ newline_indent (S level)) (m :: members)) as Hb.
    assert (Hsep : 1 <= String.length ("," ++ newline_indent (S level)))
      by (simpl; lia).
    assert (HF : Forall
                   (fun kv : string * value =>
                      size (snd kv)
                      <= String.length
                           (match kv with
                            | (key, v') =>
                                encode_basestring key ++ ": "
                                ++ encode (S level) v'
                            end)) (m :: members)).
    { eapply Forall_impl; [|exact IH]. intros [key v'] Hx. cbn [snd] in *.
      rewrite !length_append. specialize (Hx (S level)). lia. }
    specialize (Hb Hsep HF). lia.
Qed.

Lemma encode_starts (level : nat) (v : value) :
  starts_value (encode level v) = true.
Proof. destruct v as [s|[|i items]|[|m members]]; reflexivity. Qed.

(** [loads] gives back the value [dumps] was given. *)
Lemma loads_dumps (v : value) :
  well_formed v = true -> loads (dumps v) = Some v.
Proof.
  intros Hwf. unfold loads, dumps.
  rewrite skip_ws_starts_value by apply encode_starts.
  pose proof (parse_encode v Hwf 0 (S (String.length (encode 0 v))) ""
                (Nat.le_trans _ _ _ (size_le_length v 0) (Nat.le_succ_diag_r _)))
    as H.
  rewrite append_nil_r in H. rewrite H. reflexivity.
Qed.

End JsonFacts.

Section JsonFormatFacts.

Lemma enriched_dict_well_formed (e : Enriched.t) :
  Json.well_formed (ResultFormatter.enriched_dict e) = true.
Proof. destruct e as [r [c|]]; reflexivity. Qed.

Lemma data_dict_well_formed (data : ResearchDocument) :
  Json.well_formed (ResultFormatter.data_dict data) = true.
Proof.
  destruct data as [query results|page]; [|reflexivity].
  cbn. rewrite andb_true_r.
  induction results as [|e results IH]; [reflexivity|].
  cbn [map forallb]. rewrite enriched_dict_well_formed. exact IH.
Qed.

Lemma extracted_of_dict (page : Extracted.t) :
  ResultFormatter.extracted_of (ResultFormatter.extracted_dict page)
  = Some page.
Proof. destruct page; reflexivity. Qed.

Lemma enriched_of_dict (e : Enriched.t) :
  ResultFormatter.enriched_of (ResultFormatter.enriched_dict e) = Some e.
Proof. destruct e as [[t u s] [[t' u' c x]|]]; reflexivity. Qed.

Lemma all_of_enriched (results : list Enriched.t) :
  ResultFormatter.all_of ResultFormatter.enriched_of
    (map ResultFormatter.enriched_dict results) = Some results.
Proof.
  induction results as [|e results IH]; [reflexivity|].
  cbn [map ResultFormatter.all_of]. now rewrite enriched_of_dict, IH.
Qed.

Lemma document_of_dict (data : ResearchDocument) :
  ResultFormatter.document_of (ResultFormatter.data_dict data) = Some data.
Proof.
  destruct data as [query results|[t u c x]]; [|reflexivity].
  cbn. now rewrite all_of_enriched.
Qed.

(** C7. Deserialising what the JSON formatter produces gives a value
    from which the whole document is read back: the query and, for
    every result, title, url, snippet and, when it has extracted
    content, title, url, markdown and plain text, all unchanged. *)
Theorem json_round_trip (data : ResearchDocument) :
  exists v,
    Json.loads (ResultFormatter.format_json data) = Some v
    /\ ResultFormatter.document_of v = Some data.
Proof.
  exists (ResultFormatter.data_dict data). split.
  - apply loads_dumps, data_dict_well_formed.
  - apply document_of_dict.
Qed.

End JsonFormatFacts.

Example json_of_a_result :
  Json.loads
    (ResultFormatter.format_json
       (TopicDoc "q"
          [Enriched.mk (Result.mk "T" "u" "s")
             (Some (Extracted.mk "T" "u" ("a" ++ nl ++ "b") "a b"))]))
  = Some (Json.Obj
            [("query", Json.Str "q");
             ("results",
              Json.Arr
                [Json.Obj
                   [("title", Json.Str "T"); ("url", Json.Str "u");
                    ("snippet", Json.Str "s");
                    ("extracted",
                     Json.Obj
                       [("title", Json.Str "T"); ("url", Json.Str "u");
                        ("content", Json.Str ("a" ++ nl ++ "b"));
                        ("text", Json.Str "a b")])]])]).
Proof. vm_compute. reflexivity. Qed.

(** ** Stripped text *)

Section TrimFacts.
Local Open Scope string_scope.

Lemma lstrip_first (s : string) :
  Trim.first_nonspace s = true -> Py.lstrip s = s.
Proof.
  destruct s as [|c s]; simpl; [discriminate|].
  destruct (Py.isspace c); [discriminate|reflexivity].
Qed.

Lemma rstrip_cons (c : ascii) (s : string) :
  Py.rstrip (String c s)
  = match Py.rstrip s with
    | EmptyString => if Py.isspace c then EmptyString else String c EmptyString
    | String c' r => String c (String c' r)
    end.
Proof. reflexivity. Qed.

Lemma rstrip_last (s : string) :
  Trim.last_nonspace s = true -> Py.rstrip s = s.
Proof.
  induction s as [|c s IH]; [discriminate|].
  destruct s as [|c' s'].
  - simpl. destruct (Py.isspace c); [discriminate|reflexivity].
  - intros H. change (Trim.last_nonspace (String c' s') = true) in H.
    rewrite rstrip_cons, (IH H). reflexivity.
Qed.

Lemma lstrip_empty_or_first (s : string) :
  Py.lstrip s = "" \/ Trim.first_nonspace (Py.lstrip s) = true.
Proof.
  induction s as [|c s IH]; [now left|].
  simpl. destruct (Py.isspace c) eqn:Hc; [exact IH|].
  right. simpl. now rewrite Hc.
Qed.

Lemma rstrip_empty_or_last (s : string) :
  Py.rstrip s = "" \/ Trim.last_nonspace (Py.rstrip s) = true.
Proof.
  induction s as [|c s IH]; [now left|].
  rewrite rstrip_cons. destruct (Py.rstrip s) as [|c' r] eqn:Hr.
  - destruct (Py.isspace c) eqn:Hc; [now left|].
    right. simpl. now rewrite Hc.
  - right. destruct IH as [IH|IH]; [discriminate|exact IH].
Qed.

Lemma rstrip_keeps_first (s : string) :
  Trim.first_nonspace s = true -> Trim.first_nonspace (Py.rstrip s) = true.
Proof.
  destruct s as [|c s]; [discriminate|].
  intros Hc. rewrite rstrip_cons. simpl in Hc.
  destruct (Py.rstrip s); [|simpl; exact Hc].
  destruct (Py.isspace c) eqn:Hs; [discriminate|].
  simpl. now rewrite Hs.
Qed.

Lemma strip_solid (s : string) :
  Py.truthy (Py.strip s) = true -> Trim.solid (Py.strip s).
Proof.
  unfold Py.strip. intros Ht.
  destruct (lstrip_empty_or_first s) as [He|Hf].
  - rewrite He in Ht. discriminate.
  - split; [now apply rstrip_keeps_first|].
    destruct (rstrip_empty_or_last (Py.lstrip s)) as [He|Hl]; [|exact Hl].
    rewrite He in Ht. discriminate.
Qed.

Lemma solid_strip (s : string) : Trim.solid s -> Py.strip s = s.
Proof.
  intros [Hf Hl]. unfold Py.strip. rewrite (lstrip_first s Hf).
  now apply rstrip_last.
Qed.

Lemma first_nonspace_app (a b : string) :
  Trim.first_nonspace a = true -> Trim.first_nonspace (a ++ b) = true.
Proof. destruct a; [discriminate|]. simpl. auto. Qed.

Lemma last_nonspace_app (a b : string) :
  Trim.last_nonspace b = true -> Trim.last_nonspace (a ++ b) = true.
Proof.
  intros Hb. induction a as [|c a IH]; [exact Hb|].
  simpl. destruct (a ++ b) eqn:Hab; [|exact IH].
  destruct a; simpl in Hab; [subst b|]; discriminate.
Qed.

Lemma join_solid (sep : string) (pieces : list string) :
  Forall Trim.solid pieces -> pieces <> [] ->
  Trim.solid (Py.join sep pieces).
Proof.
  induction pieces as [|p pieces IH]; [congruence|].
  intros HF _. inversion HF as [|? ? [Hf Hl] HF']; subst.
  destruct pieces as [|q pieces]; [split; assumption|].
  destruct (IH HF') as [_ Hl']; [discriminate|].
  change (Py.join sep (p :: q :: pieces))
    with (p ++ sep ++ Py.join sep (q :: pieces)).
  split.
  - now apply first_nonspace_app.
  - apply last_nonspace_app, last_nonspace_app, Hl'.
Qed.

Lemma stripped_pieces_solid (strings : list string) :
  Forall Trim.solid (filter Py.truthy (map Py.strip strings)).
Proof.
  apply Forall_forall. intros p Hp. apply filter_In in Hp as [Hin Ht].
  apply in_map_iff in Hin as [s [<- _]]. now apply strip_solid.
Qed.

Lemma get_text_strip_stripped (sep : string) (n : node) :
  Py.strip (Soup.get_text_strip sep n) = Soup.get_text_strip sep n.
Proof.
  unfold Soup.get_text_strip.
  destruct (filter Py.truthy (map Py.strip (Soup.all_strings n)))
    as [|p pieces] eqn:Hp; [reflexivity|].
  apply solid_strip, join_solid; [|discriminate].
  rewrite <- Hp. apply stripped_pieces_solid.
Qed.

Lemma strip_idempotent (s : string) : Py.strip (Py.strip s) = Py.strip s.
Proof.
  destruct (Py.strip s) as [|c r] eqn:Hs; [reflexivity|].
  rewrite <- Hs. apply solid_strip, strip_solid. now rewrite Hs.
Qed.

End TrimFacts.

(** ** More on the result-list parser *)

Section ParserBounds.
Context {lib : Library}.

Lemma search_step_at_most_one (result : node) :
  length (WebSearcher.search_step [] result) <= 1.
Proof.
  unfold WebSearcher.search_step.
  destruct (Soup.find_class "a" "result__a" result); simpl; lia.
Qed.

Lemma flat_map_steps_length (l : list node) :
  length (flat_map (WebSearcher.search_step []) l) <= length l.
Proof.
  induction l as [|c l IH]; simpl; [lia|].
  rewrite length_app. pose proof (search_step_at_most_one c). lia.
Qed.

Lemma slice_to_length {A} (m : Z) (l : list A) :
  length (Py.slice_to m l) <= length l
  /\ ((0 <= m)%Z -> Z.of_nat (length (Py.slice_to m l)) <= m)%Z.
Proof.
  unfold Py.slice_to. destruct (0 <=? m)%Z eqn:Hm.
  - rewrite length_firstn. split; [lia|]. intros _. lia.
  - rewrite length_firstn. split; [lia|]. intros H.
    apply Z.leb_gt in Hm. lia.
Qed.

Lemma parse_results_length (soup : node) (max_results : Z) :
  length (WebSearcher.parse_results soup max_results)
  <= length (WebSearcher.containers soup)
  /\ ((0 <= max_results)%Z ->
      (Z.of_nat (length (WebSearcher.parse_results soup max_results))
       <= max_results)%Z).
Proof.
  rewrite parse_results_flat_map.
  pose proof (flat_map_steps_length
                (Py.slice_to max_results (WebSearcher.containers soup))) as Hf.
  destruct (slice_to_length max_results (WebSearcher.containers soup))
    as [Hl Hm].
  split; [lia|]. intros HM. specialize (Hm HM). lia.
Qed.

(** X1. The parser never returns more stubs than the page has result
    containers, and for a [max_results] that is not negative never more
    than [max_results], whatever the page holds. *)
Theorem parse_results_bounded (soup : node) (max_results : Z) :
  length (WebSearcher.parse_results soup max_results)
  <= length (WebSearcher.containers soup)
  /\ ((0 <= max_results)%Z ->
      (Z.of_nat (length (WebSearcher.parse_results soup max_results))
       <= max_results)%Z).
Proof. apply parse_results_length. Qed.

(** X2. Raising [max_results] only appends stubs: for [0 <= m <= m'] the
    stubs returned for [m] are the first of those returned for [m'], in
    the same order. *)
Theorem parse_results_prefix (soup : node) (m m' : Z) :
  (0 <= m)%Z -> (m <= m')%Z ->
  exists more,
    WebSearcher.parse_results soup m'
    = WebSearcher.parse_results soup m ++ more.
Proof.
  intros H0 Hle. rewrite !parse_results_flat_map. unfold Py.slice_to.
  replace (0 <=? m)%Z with true by (symmetry; apply Z.leb_le; lia).
  replace (0 <=? m')%Z with true by (symmetry; apply Z.leb_le; lia).
  set (cs := WebSearcher.containers soup).
  exists (flat_map (WebSearcher.search_step [])
            (skipn (Z.to_nat m) (firstn (Z.to_nat m') cs))).
  rewrite <- flat_map_app. f_equal.
  rewrite <- (firstn_skipn (Z.to_nat m) (firstn (Z.to_nat m') cs)) at 1.
  f_equal. rewrite firstn_firstn. f_equal. lia.
Qed.

(** X3. The title and the snippet of every stub are stripped: neither
    begins nor ends with a white-space character. *)
Theorem stub_text_stripped (soup : node) (max_results : Z)
    (stub : Result.t) :
  In stub (WebSearcher.parse_results soup max_results) ->
  Py.strip (Result.title stub) = Result.title stub
  /\ Py.strip (Result.snippet stub) = Result.snippet stub.
Proof.
  rewrite parse_results_flat_map. intros H.
  apply in_flat_map in H as [result [_ Hs]].
  unfold WebSearcher.search_step in Hs.
  destruct (Soup.find_class "a" "result__a" result) as [title_tag|];
    [|destruct Hs].
  destruct Hs as [<-|[]]. simpl. split.
  - apply get_text_strip_stripped.
  - destruct (Soup.find_class "a" "result__snippet" result);
      [apply get_text_strip_stripped|reflexivity].
Qed.

End ParserBounds.

Lemma parse_results_bounded_witness :
  length (WebSearcher.parse_results (lib := example_library)
            Sample.mixed_hits 1)
  <= length (WebSearcher.containers Sample.mixed_hits)
  /\ (Z.of_nat (length (WebSearcher.parse_results (lib := example_library)
                          Sample.mixed_hits 1)) <= 1)%Z.
Proof.
  destruct (parse_results_bounded (lib := example_library)
              Sample.mixed_hits 1) as [Hl Hm].
  split; [exact Hl|apply Hm; lia].
Defined.

Lemma parse_results_prefix_witness :
  exists more,
    WebSearcher.parse_results (lib := example_library) Sample.two_hits 2
    = WebSearcher.parse_results (lib := example_library) Sample.two_hits 1
        ++ more.
Proof.
  apply (parse_results_prefix (lib := example_library) Sample.two_hits 1 2);
    lia.
Defined.

Lemma stub_text_stripped_witness :
  Py.strip "Bare" = "Bare" /\ Py.strip "" = "".
Proof.
  apply (stub_text_stripped (lib := example_library)
           (Sample.document [Sample.bare_hit]) 1 (Result.mk "Bare" "" "")).
  left. reflexivity.
Defined.

(** ** More on the removal of tags and on extraction *)

Section RemovalFacts.

Lemma has_name_decompose_all (names names' : list string) (n : node) :
  Soup.has_name names' (Soup.decompose_all names n) = Soup.has_name names' n.
Proof. destruct n; reflexivity. Qed.

(** X4. Removing the tags of a list of names a second time changes
    nothing: after the removal loop no tag with one of the names is left
    to remove. *)
Theorem decompose_all_idempotent (names : list string) (n : node) :
  Soup.decompose_all names (Soup.decompose_all names n)
  = Soup.decompose_all names n.
Proof.
  induction n as [s|nm cl at_ cs IH|s] using node_forall_ind;
    [reflexivity| |reflexivity].
  simpl. f_equal.
  induction cs as [|c cs IHcs]; [reflexivity|].
  inversion IH as [|? ? Hc Hcs]; subst.
  simpl. destruct (Soup.has_name names c) eqn:Hn.
  - simpl. now apply IHcs.
  - simpl. rewrite has_name_decompose_all, Hn, Hc. simpl.
    f_equal. now apply IHcs.
Qed.

(** X5. A tree in which no tag has one of the names is left as it is by
    the removal. *)
Theorem decompose_all_unchanged (names : list string) (n : node) :
  (forall d, In d (Soup.descendants n) -> Soup.has_name names d = false) ->
  Soup.decompose_all names n = n.
Proof.
  induction n as [s|nm cl at_ cs IH|s] using node_forall_ind;
    [reflexivity| |reflexivity].
  intros Hclean. simpl. f_equal.
  induction cs as [|c cs IHcs]; [reflexivity|].
  inversion IH as [|? ? Hc Hcs]; subst.
  simpl. rewrite (Hclean c) by (simpl; now left).
  simpl. f_equal.
  - apply Hc. intros d Hd. apply Hclean. simpl. right.
    apply in_or_app. now left.
  - apply IHcs; [exact Hcs|].
    intros d Hd. apply Hclean. simpl. right. apply in_or_app. now right.
Qed.

End RemovalFacts.

Lemma decompose_all_unchanged_witness :
  Soup.decompose_all ContentExtractor.denylist Sample.two_hits
  = Sample.two_hits.
Proof.
  apply decompose_all_unchanged.
  intros d Hd. vm_compute in Hd.
  repeat (destruct Hd as [<-|Hd]; [reflexivity|]). destruct Hd.
Defined.

Section ExtractedText.
Context {lib : Library}.

(** X6. The title and the plain text of every extracted page are
    stripped: neither begins nor ends with a white-space character. *)
Theorem extracted_text_stripped (url : string) (soup : node)
    (page : Extracted.t) :
  ContentExtractor.extract url soup = Some page ->
  Py.strip (Extracted.title page) = Extracted.title page
  /\ Py.strip (Extracted.text page) = Extracted.text page.
Proof.
  intros H. destruct (extract_some _ _ _ H) as [region [_ [_ ->]]].
  simpl. split; [|apply get_text_strip_stripped].
  unfold ContentExtractor.extract_title.
  destruct (Soup.find "title" soup) as [title_tag|].
  - destruct (Soup.string_ title_tag) as [s|]; [|reflexivity].
    destruct (Py.truthy s); [apply strip_idempotent|reflexivity].
  - destruct (Soup.find "h1" soup);
      [apply get_text_strip_stripped|reflexivity].
Qed.

End ExtractedText.

Lemma extracted_text_stripped_witness :
  Py.strip "C" = "C" /\ Py.strip "ccc" = "ccc".
Proof.
  apply (extracted_text_stripped (lib := example_library)
           "https://c.example/" (Sample.article_page "C" "ccc")
           (Extracted.mk "C" "https://c.example/"
              "<article>ccc</article>" "ccc")).
  reflexivity.
Defined.

(** ** More on the orchestrator *)

Section AgentInvariants.
Context {lib : Library} {net : Network} {con : Console}.

Lemma search_length (query : string) (max_results : Z) (w : World) :
  (0 <= max_results)%Z ->
  (Z.of_nat (length (returned_items
                       (fst (WebSearcher.search query max_results w))))
   <= max_results)%Z.
Proof.
  intros HM. unfold WebSearcher.search.
  destruct (session_get (WebSearcher.search_url query) 10 w)
    as [[response| |] w']; try (simpl; lia).
  destruct (raise_for_status response); [|simpl; lia].
  simpl. now apply parse_results_length.
Qed.

Lemma fetch_content_url (url : string) (w : World) (page : Extracted.t) :
  fst (ContentExtractor.fetch_content url w) = Normal (Some page) ->
  Extracted.url page = url.
Proof.
  unfold ContentExtractor.fetch_content, ContentExtractor.handler.
  destruct (session_get url 15 w) as [[response| |] w'].
  - destruct (raise_for_status response).
    + destruct (ContentExtractor.parse_page url (soup_of response))
        as [content|] eqn:Hp.
      * simpl. intros [= ->].
        assert (H : ContentExtractor.extract url (soup_of response)
                    = Some page)
          by (unfold ContentExtractor.extract; now rewrite Hp).
        destruct (extract_some _ _ _ H) as [region [_ [_ Hpage]]].
        rewrite Hpage. reflexivity.
      * destruct (console_print _); discriminate.
    + destruct (console_print _); discriminate.
  - destruct (console_print _); discriminate.
  - discriminate.
Qed.

Lemma successes_subsequence
    (outcomes : list (Result.t * option Extracted.t)) :
  Subsequence (map Enriched.result (ResearchAgent.successes outcomes))
              (map fst outcomes).
Proof.
  induction outcomes as [|[r [c|]] outcomes IH]; simpl.
  - constructor.
  - now apply sub_keep.
  - now apply sub_skip.
Qed.

Lemma successes_length (outcomes : list (Result.t * option Extracted.t)) :
  length (ResearchAgent.successes outcomes) <= length outcomes.
Proof.
  induction outcomes as [|[r [c|]] outcomes IH]; simpl; lia.
Qed.

Lemma fetch_all_urls (verbose : bool) (stubs : list Result.t) (w w' : World)
    (outcomes : list (Result.t * option Extracted.t)) :
  ResearchAgent.fetch_all verbose stubs w = (Normal outcomes, w') ->
  Forall (fun rc => forall c, snd rc = Some c ->
                              Extracted.url c = Result.url (fst rc))
         outcomes.
Proof.
  intros H. apply fetch_all_outcomes in H.
  eapply Forall_impl; [|exact H].
  intros [r content] [wi Hf] c Hc. simpl in *. subst content.
  now apply (fetch_content_url _ wi).
Qed.

Lemma successes_urls (outcomes : list (Result.t * option Extracted.t)) :
  Forall (fun rc => forall c, snd rc = Some c ->
                              Extracted.url c = Result.url (fst rc))
         outcomes ->
  Forall (fun e => exists c,
              Enriched.extracted e = Some c
              /\ Extracted.url c = Result.url (Enriched.result e))
         (ResearchAgent.successes outcomes).
Proof.
  induction 1 as [|[r [c|]] outcomes Hrc HF IH]; simpl.
  - constructor.
  - constructor; [|exact IH]. exists c. split; [reflexivity|].
    now apply Hrc.
  - exact IH.
Qed.

(** X7. The results of a topic document keep the rank order of the
    search: the stubs of the results are the stubs the search returned
    with some left out, the others in their order. *)
Theorem research_topic_rank_order (verbose : bool) (query : string)
    (max_results : Z) (w w' : World) (doc : ResearchDocument) :
  ResearchAgent.research_topic verbose query max_results w = (Normal doc, w') ->
  exists results stubs,
    doc = TopicDoc query results
    /\ fst (WebSearcher.search query max_results w) = Normal stubs
    /\ Subsequence (map Enriched.result results) stubs.
Proof.
  intros H.
  destruct (research_topic_fetch_all _ _ _ _ _ _ H)
    as [stubs [w1 [outcomes [Hs [Hf ->]]]]].
  exists (ResearchAgent.successes outcomes), stubs.
  split; [reflexivity|]. split; [now rewrite Hs|].
  rewrite <- (fetch_all_stubs _ _ _ _ _ Hf).
  apply successes_subsequence.
Qed.

(** X8. A topic document never holds more results than the search
    returned stubs, and for a [max_results] that is not negative never
    more than [max_results]. *)
Theorem research_topic_count_bounded (verbose : bool) (query : string)
    (max_results : Z) (w w' : World) (doc : ResearchDocument) :
  ResearchAgent.research_topic verbose query max_results w = (Normal doc, w') ->
  exists results stubs,
    doc = TopicDoc query results
    /\ fst (WebSearcher.search query max_results w) = Normal stubs
    /\ length results <= length stubs
    /\ ((0 <= max_results)%Z ->
        (Z.of_nat (length results) <= max_results)%Z).
Proof.
  intros H.
  destruct (research_topic_fetch_all _ _ _ _ _ _ H)
    as [stubs [w1 [outcomes [Hs [Hf ->]]]]].
  exists (ResearchAgent.successes outcomes), stubs.
  split; [reflexivity|]. split; [now rewrite Hs|].
  pose proof (successes_length outcomes) as Hl.
  pose proof (f_equal (@length _) (fetch_all_stubs _ _ _ _ _ Hf)) as Hm.
  rewrite length_map in Hm.
  split; [lia|]. intros HM.
  pose proof (search_length query max_results w HM) as Hb.
  rewrite Hs in Hb. simpl in Hb. lia.
Qed.

(** X9. Every result of a topic document carries extracted content, and
    the url of that content is the url of the result's stub: the address
    that was requested, not one the page declares. *)
Theorem research_topic_urls_agree (verbose : bool) (query : string)
    (max_results : Z) (w w' : World) (doc : ResearchDocument) :
  ResearchAgent.research_topic verbose query max_results w = (Normal doc, w') ->
  exists results,
    doc = TopicDoc query results
    /\ Forall (fun e => exists content,
                  Enriched.extracted e = Some content
                  /\ Extracted.url content = Result.url (Enriched.result e))
              results.
Proof.
  intros H.
  destruct (research_topic_fetch_all _ _ _ _ _ _ H)
    as [stubs [w1 [outcomes [Hs [Hf ->]]]]].
  eexists. split; [reflexivity|].
  eapply successes_urls, fetch_all_urls; eauto.
Qed.

(** X10. When the request for the result page raises or is answered with
    a 4xx or 5xx status, topic mode returns the document without results
    and has asked for nothing but the result page. (With [verbose] set,
    this is so when the print of the query returns.) *)
Theorem research_topic_search_failure (verbose : bool) (query : string)
    (max_results : Z) (w : @World net) (log : list string) :
  (verbose = true ->
   console_print (ResearchAgent.researching query) = Returned tt) ->
  (fst (session_get (WebSearcher.search_url query) 10 w) = Exception
   \/ exists response,
       fst (session_get (WebSearcher.search_url query) 10 w)
       = Normal response
       /\ (400 <= status_code response < 600)%Z) ->
  ResearchAgent.research_topic (net := logged net) verbose query max_results
    (w, log)
  = (Normal (TopicDoc query []),
     (snd (session_get (WebSearcher.search_url query) 10 w),
      log ++ [WebSearcher.search_url query])).
Proof.
  intros Hv H. unfold ResearchAgent.research_topic.
  assert (Hp : ResearchAgent.verbose_print verbose
                 (ResearchAgent.researching query) = Returned tt).
  { unfold ResearchAgent.verbose_print.
    destruct verbose; [now apply Hv|reflexivity]. }
  rewrite Hp. unfold WebSearcher.search. simpl.
  destruct (session_get (WebSearcher.search_url query) 10 w)
    as [[response| |] w'] eqn:Hget; simpl in *.
  - destruct H as [H|[r [[= <-] Hs]]]; [discriminate|].
    unfold raise_for_status.
    replace ((400 <=? status_code response)
             && (status_code response <? 600))%Z with true.
    + reflexivity.
    + symmetry. apply andb_true_iff. split;
        [apply Z.leb_le|apply Z.ltb_lt]; lia.
  - reflexivity.
  - destruct H as [H|[r [H _]]]; discriminate.
Qed.




End AgentInvariants.

Section AgentRequests.
Context {lib : Library} {net : Network} {con : Console}.

(** X11. Topic mode asks the network for at most [1 + max_results]
    pages: the result page and one page for each stub. *)
Theorem research_topic_requests_bounded (verbose : bool) (query : string)
    (max_results : Z) (w : @World net) (log : list string) :
  (0 <= max_results)%Z ->
  (Z.of_nat (length (snd (snd (ResearchAgent.research_topic
                                 (net := logged net) verbose
                                 query max_results (w, log)))))
   <= Z.of_nat (length log) + 1 + max_results)%Z.
Proof.
  intros HM.
  destruct (logged_research_topic verbose query max_results w log)
    as [[n [Hn ->]] _].
  pose proof (search_length query max_results w HM) as Hb.
  rewrite length_app.
  pose proof (firstn_le_length n
                (WebSearcher.search_url query
                   :: map Result.url
                        (returned_items
                           (fst (WebSearcher.search query max_results w)))))
    as Hl.
  lia.
Qed.

(** X12. Url mode asks for the given address, once, and for nothing
    else, and returns what [fetch_content] gives for it; with [verbose]
    set and a print of the address that raises, it asks for nothing and
    the exception leaves it. *)
Theorem research_url_single_request (verbose : bool) (url : string)
    (w : @World net) (log : list string) :
  let run :=
    ResearchAgent.research_url (net := logged net) verbose url (w, log) in
  (ResearchAgent.verbose_print verbose (ResearchAgent.fetching_url url)
   = Returned tt ->
   snd (snd run) = log ++ [url]
   /\ fst run = fst (ContentExtractor.fetch_content url w))
  /\ (ResearchAgent.verbose_print verbose (ResearchAgent.fetching_url url)
      = Raised ->
      run = (Exception, (w, log))).
Proof.
  cbv zeta. unfold ResearchAgent.research_url. split; intros ->.
  - rewrite logged_fetch_content.
    destruct (ContentExtractor.fetch_content url w) as [[[page|]| |] w'];
      simpl; auto.
  - reflexivity.
Qed.

End AgentRequests.

Lemma research_topic_rank_order_witness :
  let net := table_network Sample.web in
  let a := Result.mk "A" "https://a.example/" "first" in
  let b := Result.mk "B" "https://b.example/" "second" in
  let c := Result.mk "C" "https://c.example/" "third" in
  let page_a :=
    Extracted.mk "A" "https://a.example/" "<article>aaa</article>" "aaa" in
  let page_c :=
    Extracted.mk "C" "https://c.example/" "<article>ccc</article>" "ccc" in
  exists results stubs,
    TopicDoc "rust ownership"
      [Enriched.mk a (Some page_a); Enriched.mk c (Some page_c)]
    = TopicDoc "rust ownership" results
    /\ fst (WebSearcher.search (lib := example_library) (net := net)
              "rust ownership" 3 tt) = Normal stubs
    /\ Subsequence (map Enriched.result results) stubs.
Proof.
  intros net a b c page_a page_c.
  apply (research_topic_rank_order (lib := example_library) (net := net)
           (con := plain_console) false "rust ownership" 3 tt tt).
  vm_compute. reflexivity.
Defined.

Lemma research_topic_count_bounded_witness :
  let net := table_network Sample.web in
  let a := Result.mk "A" "https://a.example/" "first" in
  let c := Result.mk "C" "https://c.example/" "third" in
  let page_a :=
    Extracted.mk "A" "https://a.example/" "<article>aaa</article>" "aaa" in
  let page_c :=
    Extracted.mk "C" "https://c.example/" "<article>ccc</article>" "ccc" in
  exists results stubs,
    TopicDoc "rust ownership"
      [Enriched.mk a (Some page_a); Enriched.mk c (Some page_c)]
    = TopicDoc "rust ownership" results
    /\ fst (WebSearcher.search (lib := example_library) (net := net)
              "rust ownership" 3 tt) = Normal stubs
    /\ length results <= length stubs
    /\ (Z.of_nat (length results) <= 3)%Z.
Proof.
  intros net a c page_a page_c.
  destruct (research_topic_count_bounded (lib := example_library)
              (net := net) (con := plain_console) false "rust ownership" 3
              tt tt
              (TopicDoc "rust ownership"
                 [Enriched.mk a (Some page_a); Enriched.mk c (Some page_c)])
              eq_refl)
    as [results [stubs [Hd [Hs [Hl Hm]]]]].
  exists results, stubs. repeat split; try assumption.
  apply Hm. lia.
Defined.

Lemma research_topic_urls_agree_witness :
  let a := Result.mk "A" "https://a.example/" "first" in
  let c := Result.mk "C" "https://c.example/" "third" in
  let page_a :=
    Extracted.mk "A" "https://a.example/" "<article>aaa</article>" "aaa" in
  let page_c :=
    Extracted.mk "C" "https://c.example/" "<article>ccc</article>" "ccc" in
  exists results,
    TopicDoc "rust ownership"
      [Enriched.mk a (Some page_a); Enriched.mk c (Some page_c)]
    = TopicDoc "rust ownership" results
    /\ Forall (fun e => exists content,
                  Enriched.extracted e = Some content
                  /\ Extracted.url content = Result.url (Enriched.result e))
              results.
Proof.
  intros a c page_a page_c.
  apply (research_topic_urls_agree (lib := example_library)
           (net := table_network Sample.web) (con := plain_console)
           false "rust ownership" 3 tt tt).
  vm_compute. reflexivity.
Defined.


Lemma research_topic_search_failure_witness :
  ResearchAgent.research_topic (lib := example_library)
    (net := logged (table_network (fun _ => Exception)))
    (con := strict_console "[/b]") true "q" 5 (tt, [])
  = (Normal (TopicDoc "q" []),
     (tt, [] ++ ["https://html.duckduckgo.com/html/?q=q"])).
Proof.
  apply (research_topic_search_failure (lib := example_library)
           (net := table_network (fun _ => Exception))
           (con := strict_console "[/b]") true "q" 5 tt []).
  - reflexivity.
  - left. reflexivity.
Defined.

Lemma research_topic_requests_bounded_witness :
  (Z.of_nat (length (snd (snd (ResearchAgent.research_topic
                                 (lib := example_library)
                                 (net := logged (table_network Sample.web))
                                 (con := plain_console) false
                                 "rust ownership" 3 (tt, [])))))
   <= Z.of_nat (length (@nil string)) + 1 + 3)%Z.
Proof.
  apply (research_topic_requests_bounded (lib := example_library)
           (net := table_network Sample.web) (con := plain_console)
           false "rust ownership" 3 tt []).
  lia.
Defined.

(** With [--verbose] and an address that holds a closing tag, url mode
    raises before anything is requested. *)
Example research_url_verbose_markup :
  ResearchAgent.research_url (lib := example_library)
    (net := logged (table_network Sample.web))
    (con := strict_console "[/b]") true "https://a.example/[/b]" (tt, [])
  = (Exception, (tt, [])).
Proof. reflexivity. Qed.

(** ** More on the formatters *)

Section FormatFacts.
Local Open Scope string_scope.

Lemma text_results_app (i : nat) (results : list Enriched.t)
    (output : list string) :
  ResultFormatter.text_results i results output
  = (output ++ ResultFormatter.text_results i results [])%list.
Proof.
  revert i output. induction results as [|r rest IH]; intros i output.
  - simpl. now rewrite app_nil_r.
  - cbn [ResultFormatter.text_results].
    rewrite IH. symmetry. rewrite IH. symmetry.
    destruct (Enriched.extracted r); cbn [app];
      rewrite <- ?app_assoc; reflexivity.
Qed.

Lemma text_results_blocks (i : nat) (results : list Enriched.t) :
  ResultFormatter.text_results i results []
  = flat_map (fun ir => TextLayout.text_block (fst ir) (snd ir))
      (combine (seq i (length results)) results).
Proof.
  revert i. induction results as [|r rest IH]; intros i; [reflexivity|].
  cbn [length seq combine flat_map fst snd].
  rewrite <- IH. unfold TextLayout.text_block.
  cbn [ResultFormatter.text_results].
  now rewrite text_results_app.
Qed.

(** X13. In the text format the block of a result that has extracted
    content ends with its body and the rule; the body is the first 3000
    characters of the plain text followed by the truncation marker when
    the plain text is longer than 3000 characters, and the plain text
    itself otherwise. The output of topic mode is the header and these
    blocks, in order, joined by newlines; the output of url mode ends
    with the whole plain text. *)
Theorem text_truncation :
  (forall i result extracted,
      Enriched.extracted result = Some extracted ->
      let text := Extracted.text extracted in
      exists heading emitted,
        TextLayout.text_block i result
        = (heading ++ [emitted; (nl ++ Py.str_mul "-" 80 ++ nl)%string])%list
        /\ length heading = 4
        /\ (3000 < String.length text ->
            emitted = substring 0 3000 text ++ TextLayout.truncation_marker
            /\ String.length (substring 0 3000 text) = 3000)
        /\ (String.length text <= 3000 -> emitted = text))
  /\ (forall query results,
         ResultFormatter.format_text (TopicDoc query results)
         = Py.join nl
             (TextLayout.text_header query (length results)
                ++ flat_map
                     (fun ir => TextLayout.text_block (fst ir) (snd ir))
                     (combine (seq 1 (length results)) results))%list)
  /\ (forall page,
         ResultFormatter.format_text (UrlDoc page)
         = (Extracted.title page ++ nl) ++ nl
             ++ ("URL: " ++ Extracted.url page ++ nl) ++ nl
             ++ (Py.str_mul "=" 80 ++ nl) ++ nl
             ++ Extracted.text page).
Proof.
  split; [|split].
  - intros i result extracted He text.
    unfold TextLayout.text_block.
    cbn [ResultFormatter.text_results]. rewrite He. cbn [app].
    fold text.
    eexists [_; _; _; _], _. split; [reflexivity|].
    split; [reflexivity|]. unfold Py.len, Py.str_slice_to. split.
    + intros Hlong.
      replace (Z.of_nat (String.length text) >? 3000)%Z with true
        by (symmetry; apply Z.gtb_lt; lia).
      split; [reflexivity|]. rewrite length_substring_0. lia.
    + intros Hshort.
      replace (Z.of_nat (String.length text) >? 3000)%Z with false
        by (symmetry; rewrite Z.gtb_ltb; apply Z.ltb_ge; lia).
      reflexivity.
  - intros query results. unfold ResultFormatter.format_text.
    rewrite text_results_app, text_results_blocks. reflexivity.
  - intros page. reflexivity.
Qed.

(** X14. In topic mode an emitted body is never longer than 5026
    characters in markdown and 3023 characters in text, however long the
    extracted content is. *)
Theorem emitted_body_bounded (i : nat) (result : Enriched.t)
    (extracted : Extracted.t) :
  Enriched.extracted result = Some extracted ->
  (exists body,
      nth_error (ResultFormatter.markdown_block i result) 4 = Some body
      /\ String.length body <= 5000 + 26)
  /\ (exists body,
         nth_error (TextLayout.text_block i result) 4 = Some body
         /\ String.length body <= 3023).
Proof.
  intros He. split.
  - unfold ResultFormatter.markdown_block.
    cbn [ResultFormatter.markdown_results]. rewrite He. cbn [app nth_error].
    eexists. split; [reflexivity|].
    unfold Py.len, Py.str_slice_to.
    destruct (Z.of_nat (String.length (Extracted.content extracted))
              >? 5000)%Z eqn:Hc.
    + rewrite length_append, length_substring_0.
      change (String.length (nl ++ nl ++ "*[Content truncated...]*"))
        with 26. lia.
    + rewrite Z.gtb_ltb in Hc. apply Z.ltb_ge in Hc. lia.
  - unfold TextLayout.text_block.
    cbn [ResultFormatter.text_results]. rewrite He. cbn [app nth_error].
    eexists. split; [reflexivity|].
    unfold Py.len, Py.str_slice_to.
    destruct (Z.of_nat (String.length (Extracted.text extracted))
              >? 3000)%Z eqn:Hc.
    + rewrite length_append, length_substring_0.
      change (String.length (nl ++ "[Content truncated...]")) with 23. lia.
    + rewrite Z.gtb_ltb in Hc. apply Z.ltb_ge in Hc. lia.
Qed.

(** X15. The JSON formatter loses nothing: two documents with the same
    JSON output are the same document. *)
Theorem format_json_injective (data data' : ResearchDocument) :
  ResultFormatter.format_json data = ResultFormatter.format_json data' ->
  data = data'.
Proof.
  intros H.
  pose proof (loads_dumps _ (data_dict_well_formed data)) as H1.
  pose proof (loads_dumps _ (data_dict_well_formed data')) as H2.
  unfold ResultFormatter.format_json in H. rewrite H, H2 in H1.
  injection H1 as Hd.
  pose proof (document_of_dict data) as D1.
  pose proof (document_of_dict data') as D2.
  rewrite <- Hd, D2 in D1. now injection D1.
Qed.

End FormatFacts.

Lemma text_truncation_witness :
  let long :=
    Enriched.mk (Result.mk "T" "u" "s")
      (Some (Extracted.mk "T" "u" "" (Py.str_mul "ab" 2000))) in
  exists heading emitted,
    TextLayout.text_block 1 long
    = heading ++ [emitted; (nl ++ Py.str_mul "-" 80 ++ nl)%string]
    /\ emitted = (Py.str_mul "ab" 1500 ++ TextLayout.truncation_marker)%string.
Proof.
  intros long.
  destruct (proj1 text_truncation 1 long
              (Extracted.mk "T" "u" "" (Py.str_mul "ab" 2000)) eq_refl)
    as [heading [emitted [Hb [_ [Hlong _]]]]].
  exists heading, emitted. split; [exact Hb|].
  destruct Hlong as [-> _].
  - vm_compute. lia.
  - vm_compute. reflexivity.
Defined.

Lemma emitted_body_bounded_witness :
  let long :=
    Enriched.mk (Result.mk "T" "u" "s")
      (Some (Extracted.mk "T" "u" (Py.str_mul "ab" 3000)
               (Py.str_mul "ab" 2000))) in
  (exists body,
      nth_error (ResultFormatter.markdown_block 1 long) 4 = Some body
      /\ String.length body <= 5000 + 26)
  /\ (exists body,
         nth_error (TextLayout.text_block 1 long) 4 = Some body
         /\ String.length body <= 3023).
Proof.
  intros long.
  apply (emitted_body_bounded 1 long
           (Extracted.mk "T" "u" (Py.str_mul "ab" 3000)
              (Py.str_mul "ab" 2000))).
  reflexivity.
Defined.

Lemma format_json_injective_witness :
  TopicDoc "q" [Enriched.mk (Result.mk "T" "u" "s") None]
  = TopicDoc "q" [Enriched.mk (Result.mk "T" "u" "s") None].
Proof.
  apply format_json_injective. reflexivity.
Defined.

(** ** The command line *)

Section MainFacts.
Context {lib : Library} {net : Network} {con : Console}
        {fs : Cli.FileSystem}.

Lemma deliver_cases (args : Cli.Args) (result : ResearchDocument) :
  let out := Cli.render (Cli.format args) result in
  let path := Cli.arg (Cli.output args) in
  (Cli.given (Cli.output args) = false
   /\ Cli.print_result (Cli.format args) out = Returned tt
   /\ Cli.deliver args result
      = {| Cli.exit_code := 0; Cli.to_console := Some out;
           Cli.saved := None |})
  \/ (Cli.given (Cli.output args) = false
      /\ Cli.print_result (Cli.format args) out = Raised
      /\ Cli.deliver args result = Cli.exit_with 1)
  \/ (Cli.given (Cli.output args) = true
      /\ Cli.write_text path out = Returned tt
      /\ console_print (Cli.saved_message path) = Returned tt
      /\ Cli.deliver args result
         = {| Cli.exit_code := 0; Cli.to_console := None;
              Cli.saved := Some (path, out) |})
  \/ (Cli.given (Cli.output args) = true
      /\ Cli.write_text path out = Returned tt
      /\ console_print (Cli.saved_message path) = Raised
      /\ Cli.deliver args result
         = {| Cli.exit_code := 1; Cli.to_console := None;
              Cli.saved := Some (path, out) |})
  \/ (Cli.given (Cli.output args) = true
      /\ Cli.write_text path out = Raised
      /\ Cli.deliver args result = Cli.exit_with 1).
Proof.
  intros out path. unfold Cli.deliver. fold out. fold path.
  destruct (Cli.given (Cli.output args)).
  - destruct (Cli.write_text path out) as [[]|].
    + destruct (console_print (Cli.saved_message path)) as [[]|].
      * right. right. left. auto.
      * right. right. right. left. auto.
    + right. right. right. right. auto.
  - destruct (Cli.print_result (Cli.format args) out) as [[]|].
    + left. auto.
    + right. left. auto.
Qed.

(** X16. When neither a query nor [--url] is given, or both are, the
    command exits with status 2 before any request: nothing is printed,
    nothing is saved, and the network is left as it was. *)
Theorem main_usage_error (args : Cli.Args) (w : World) :
  Cli.given (Cli.query args) = Cli.given (Cli.url args) ->
  Cli.main args w = (Cli.exit_with 2, w).
Proof.
  intros H. unfold Cli.main. rewrite H.
  destruct (Cli.given (Cli.url args)); reflexivity.
Qed.

(** X17. A run to which [parse_args] has returned the arguments exits
    with status 0 only with a result in hand: in url mode the page that
    was extracted, in topic mode a document with at least one result;
    and then the output of the selected formatter on that result has
    been handed to the console by a print that returned ([Markdown] of
    it for the markdown format, the text read as markup otherwise), or
    it has been written to the file of [--output] and not printed. *)
Theorem main_exit_zero (args : Cli.Args) (w : World) :
  Cli.exit_code (fst (Cli.main args w)) = 0%Z ->
  exists result,
    ((Cli.given (Cli.url args) = true
      /\ exists page,
          fst (ResearchAgent.research_url (Cli.verbose args)
                 (Cli.arg (Cli.url args)) w)
          = Normal (Some page)
          /\ result = UrlDoc page)
     \/ (Cli.given (Cli.url args) = false
         /\ exists e results,
             fst (ResearchAgent.research_topic (Cli.verbose args)
                    (Cli.arg (Cli.query args)) (Cli.max_results args) w)
             = Normal (TopicDoc (Cli.arg (Cli.query args)) (e :: results))
             /\ result = TopicDoc (Cli.arg (Cli.query args)) (e :: results)))
    /\ let out := Cli.render (Cli.format args) result in
       (Cli.given (Cli.output args) = false
        /\ Cli.print_result (Cli.format args) out = Returned tt
        /\ Cli.to_console (fst (Cli.main args w)) = Some out
        /\ Cli.saved (fst (Cli.main args w)) = None)
       \/ (Cli.given (Cli.output args) = true
           /\ Cli.write_text (Cli.arg (Cli.output args)) out = Returned tt
           /\ Cli.to_console (fst (Cli.main args w)) = None
           /\ Cli.saved (fst (Cli.main args w))
              = Some (Cli.arg (Cli.output args), out)).
Proof.
  unfold Cli.main.
  destruct (Cli.given (Cli.query args)) eqn:Hq;
    destruct (Cli.given (Cli.url args)) eqn:Hu; simpl;
    try discriminate.
  - destruct (ResearchAgent.research_topic (Cli.verbose args)
                (Cli.arg (Cli.query args)) (Cli.max_results args) w)
      as [[doc| |] w'] eqn:Hr; try discriminate.
    destruct (research_topic_fetch_all _ _ _ _ _ _ Hr)
      as [stubs [w1 [outcomes [_ [_ ->]]]]].
    destruct (ResearchAgent.successes outcomes) as [|e results];
      [discriminate|].
    simpl. intros Hz.
    exists (TopicDoc (Cli.arg (Cli.query args)) (e :: results)).
    split; [right; split; [reflexivity|]; exists e, results; auto|].
    destruct (deliver_cases args
                (TopicDoc (Cli.arg (Cli.query args)) (e :: results)))
      as [[Ho [Hp Hd]]|[[_ [_ Hd]]|[[Ho [Hw [_ Hd]]]|[[_ [_ [_ Hd]]]
         |[_ [_ Hd]]]]]];
      rewrite Hd in *; simpl in *; try discriminate; auto.
  - destruct (ResearchAgent.research_url (Cli.verbose args)
                (Cli.arg (Cli.url args)) w)
      as [[[page|]| |] w']; try discriminate.
    simpl. intros Hz. exists (UrlDoc page).
    split; [left; split; [reflexivity|]; exists page; auto|].
    destruct (deliver_cases args (UrlDoc page))
      as [[Ho [Hp Hd]]|[[_ [_ Hd]]|[[Ho [Hw [_ Hd]]]|[[_ [_ [_ Hd]]]
         |[_ [_ Hd]]]]]];
      rewrite Hd in *; simpl in *; try discriminate; auto.
Qed.

(** X18. Whenever the command exits with a status other than 0, no print
    of the result has returned, and the status is 1, 2 or 130. *)
Theorem main_failure_is_silent (args : Cli.Args) (w : World) :
  Cli.exit_code (fst (Cli.main args w)) <> 0%Z ->
  Cli.to_console (fst (Cli.main args w)) = None
  /\ (Cli.exit_code (fst (Cli.main args w)) = 1%Z
      \/ Cli.exit_code (fst (Cli.main args w)) = 2%Z
      \/ Cli.exit_code (fst (Cli.main args w)) = 130%Z).
Proof.
  unfold Cli.main.
  destruct (Cli.given (Cli.query args)) eqn:Hq;
    destruct (Cli.given (Cli.url args)) eqn:Hu; simpl; auto.
  - destruct (ResearchAgent.research_topic (Cli.verbose args)
                (Cli.arg (Cli.query args)) (Cli.max_results args) w)
      as [[[q [|e results]|page]| |] w']; simpl; auto.
    destruct (deliver_cases args (TopicDoc q (e :: results)))
      as [[_ [_ Hd]]|[[_ [_ Hd]]|[[_ [_ [_ Hd]]]|[[_ [_ [_ Hd]]]
         |[_ [_ Hd]]]]]];
      rewrite Hd; simpl; auto; congruence.
  - destruct (ResearchAgent.research_url (Cli.verbose args)
                (Cli.arg (Cli.url args)) w)
      as [[[page|]| |] w']; simpl; auto.
    destruct (deliver_cases args (UrlDoc page))
      as [[_ [_ Hd]]|[[_ [_ Hd]]|[[_ [_ [_ Hd]]]|[[_ [_ [_ Hd]]]
         |[_ [_ Hd]]]]]];
      rewrite Hd; simpl; auto; congruence.
Qed.

(** X19. In topic mode the command exits with status 1 when the research
    gives no result: the search failed or found nothing, or no page
    could be extracted. *)
Theorem main_no_results (args : Cli.Args) (w : World) :
  Cli.given (Cli.query args) = true ->
  Cli.given (Cli.url args) = false ->
  fst (ResearchAgent.research_topic (Cli.verbose args)
         (Cli.arg (Cli.query args)) (Cli.max_results args) w)
  = Normal (TopicDoc (Cli.arg (Cli.query args)) []) ->
  fst (Cli.main args w) = Cli.exit_with 1.
Proof.
  intros Hq Hu Hr. unfold Cli.main. rewrite Hq, Hu. simpl.
  destruct (ResearchAgent.research_topic (Cli.verbose args)
              (Cli.arg (Cli.query args)) (Cli.max_results args) w)
    as [result w'].
  simpl in Hr. subst result. reflexivity.
Qed.

End MainFacts.

Section MainRequests.
Context {lib : Library} {net : Network} {con : Console}
        {fs : Cli.FileSystem}.

(** X20. With [--url] and no query the command asks the network for the
    given address, once, and for nothing else: the search engine is not
    contacted. With [--verbose] and an address whose print raises, it
    asks for nothing at all and exits with status 1. *)
Theorem main_url_mode_requests (args : Cli.Args) (w : @World net)
    (log : list string) :
  Cli.given (Cli.url args) = true ->
  Cli.given (Cli.query args) = false ->
  let run := Cli.main (net := logged net) args (w, log) in
  let announced :=
    ResearchAgent.verbose_print (Cli.verbose args)
      (ResearchAgent.fetching_url (Cli.arg (Cli.url args))) in
  (announced = Returned tt ->
   snd (snd run) = log ++ [Cli.arg (Cli.url args)])
  /\ (announced = Raised ->
      snd (snd run) = log /\ Cli.exit_code (fst run) = 1%Z).
Proof.
  intros Hu Hq. cbv zeta. unfold Cli.main. rewrite Hu, Hq. simpl.
  unfold ResearchAgent.research_url. split; intros ->.
  - rewrite logged_fetch_content.
    destruct (ContentExtractor.fetch_content (Cli.arg (Cli.url args)) w)
      as [[[page|]| |] w']; reflexivity.
  - split; reflexivity.
Qed.

End MainRequests.

Lemma main_usage_error_witness :
  Cli.main (lib := example_library) (net := table_network Sample.web)
    (con := plain_console) (fs := Cli.writable) Cli.no_args tt
  = (Cli.exit_with 2, tt).
Proof.
  apply (main_usage_error (lib := example_library)
           (net := table_network Sample.web) (con := plain_console)
           (fs := Cli.writable) Cli.no_args tt).
  reflexivity.
Defined.

Lemma main_exit_zero_witness :
  exists result,
    ((Cli.given (Cli.url Cli.url_args) = true
      /\ exists page,
          fst (ResearchAgent.research_url (lib := example_library)
                 (net := table_network Sample.web) (con := plain_console)
                 (Cli.verbose Cli.url_args)
                 (Cli.arg (Cli.url Cli.url_args)) tt) = Normal (Some page)
          /\ result = UrlDoc page)
     \/ (Cli.given (Cli.url Cli.url_args) = false
         /\ exists e results,
             fst (ResearchAgent.research_topic (lib := example_library)
                    (net := table_network Sample.web) (con := plain_console)
                    (Cli.verbose Cli.url_args)
                    (Cli.arg (Cli.query Cli.url_args))
                    (Cli.max_results Cli.url_args) tt)
             = Normal (TopicDoc (Cli.arg (Cli.query Cli.url_args))
                         (e :: results))
             /\ result
                = TopicDoc (Cli.arg (Cli.query Cli.url_args)) (e :: results)))
    /\ let out := Cli.render (Cli.format Cli.url_args) result in
       let run :=
         fst (Cli.main (lib := example_library)
                (net := table_network Sample.web) (con := plain_console)
                (fs := Cli.writable) Cli.url_args tt) in
       (Cli.given (Cli.output Cli.url_args) = false
        /\ Cli.print_result (con := plain_console)
             (Cli.format Cli.url_args) out = Returned tt
        /\ Cli.to_console run = Some out
        /\ Cli.saved run = None)
       \/ (Cli.given (Cli.output Cli.url_args) = true
           /\ Cli.write_text (FileSystem := Cli.writable)
                (Cli.arg (Cli.output Cli.url_args)) out = Returned tt
           /\ Cli.to_console run = None
           /\ Cli.saved run = Some (Cli.arg (Cli.output Cli.url_args), out)).
Proof.
  apply (main_exit_zero (lib := example_library)
           (net := table_network Sample.web) (con := plain_console)
           (fs := Cli.writable) Cli.url_args tt).
  reflexivity.
Defined.

Lemma main_failure_is_silent_witness :
  let run :=
    fst (Cli.main (lib := example_library)
           (net := table_network (fun _ => KeyboardInterrupt))
           (con := plain_console) (fs := Cli.writable)
           Cli.topic_args tt) in
  Cli.to_console run = None
  /\ (Cli.exit_code run = 1%Z \/ Cli.exit_code run = 2%Z
      \/ Cli.exit_code run = 130%Z).
Proof.
  apply (main_failure_is_silent (lib := example_library)
           (net := table_network (fun _ => KeyboardInterrupt))
           (con := plain_console) (fs := Cli.writable)
           Cli.topic_args tt).
  vm_compute. discriminate.
Defined.

Lemma main_no_results_witness :
  fst (Cli.main (lib := example_library)
         (net := table_network (fun _ => Exception))
         (con := plain_console) (fs := Cli.writable)
         Cli.topic_args tt)
  = Cli.exit_with 1.
Proof.
  apply (main_no_results (lib := example_library)
           (net := table_network (fun _ => Exception))
           (con := plain_console) (fs := Cli.writable)
           Cli.topic_args tt); reflexivity.
Defined.

Lemma main_url_mode_requests_witness :
  let run :=
    Cli.main (lib := example_library)
      (net := logged (table_network Sample.web))
      (con := strict_console "[/b]") (fs := Cli.writable)
      Cli.verbose_url_args (tt, []) in
  snd (snd run) = [] /\ Cli.exit_code (fst run) = 1%Z.
Proof.
  destruct (main_url_mode_requests (lib := example_library)
              (net := table_network Sample.web)
              (con := strict_console "[/b]") (fs := Cli.writable)
              Cli.verbose_url_args tt [] eq_refl eq_refl) as [_ Hraised].
  apply Hraised. reflexivity.
Defined.

(** Without [--verbose] the one request is made. *)
Example main_url_mode_one_request :
  snd (snd (Cli.main (lib := example_library)
              (net := logged (table_network Sample.web))
              (con := plain_console) (fs := Cli.writable)
              Cli.url_args (tt, [])))
  = ["https://a.example/"].
Proof. reflexivity. Qed.

Example main_topic_json :
  Cli.exit_code
    (fst (Cli.main (lib := example_library)
            (net := table_network Sample.web) (con := plain_console)
            (fs := Cli.writable) Cli.topic_args tt)) = 0%Z.
Proof. vm_compute. reflexivity. Qed.

(** An interrupted request ends the run with status 130. *)
Example main_interrupted :
  fst (Cli.main (lib := example_library)
         (net := table_network (fun _ => KeyboardInterrupt))
         (con := plain_console) (fs := Cli.writable) Cli.topic_args tt)
  = Cli.exit_with 130.
Proof. reflexivity. Qed.

(** A path that holds a closing tag: the file is written, the message
    that names it raises, and the status is 1. *)
Example main_saved_then_raised :
  let args :=
    {| Cli.query := None; Cli.url := Some "https://a.example/";
       Cli.output := Some "out[/b].md"; Cli.format := Cli.Text;
       Cli.max_results := 5; Cli.verbose := false |} in
  let run :=
    fst (Cli.main (lib := example_library)
           (net := table_network Sample.web) (con := strict_console "[/b]")
           (fs := Cli.writable) args tt) in
  Cli.exit_code run = 1%Z
  /\ exists text, Cli.saved run = Some ("out[/b].md", text).
Proof. cbv zeta. split; [reflexivity|]. eexists. reflexivity. Qed.

(** ** Failed requests and plain links *)

Section FailureFacts.
Context {lib : Library} {net : Network} {con : Console}.

(** X21. A page whose request raises, or is answered with a 4xx or 5xx
    status, is never extracted, whatever the body of the response holds:
    [fetch_content] returns [None] when the print of the warning
    returns, and the [MarkupError] of that print leaves it when the
    print raises. *)
Theorem fetch_content_failure (url : string) (w : World) :
  (fst (session_get url 15 w) = Exception
   \/ exists response,
       fst (session_get url 15 w) = Normal response
       /\ (400 <= status_code response < 600)%Z) ->
  let printed :=
    console_print (ContentExtractor.warning url (str_exception url w)) in
  (printed = Returned tt ->
   fst (ContentExtractor.fetch_content url w) = Normal None)
  /\ (printed = Raised ->
      fst (ContentExtractor.fetch_content url w) = Exception)
  /\ forall page,
      fst (ContentExtractor.fetch_content url w) <> Normal (Some page).
Proof.
  intros H printed.
  assert (Hf : ContentExtractor.fetch_content url w
               = ContentExtractor.handler url w
                   (snd (session_get url 15 w))).
  { unfold ContentExtractor.fetch_content.
    destruct (session_get url 15 w) as [[response| |] w']; simpl in *.
    - destruct H as [H|[r [[= <-] Hs]]]; [discriminate|].
      unfold raise_for_status.
      replace ((400 <=? status_code response)
               && (status_code response <? 600))%Z with true;
        [reflexivity|].
      symmetry. apply andb_true_iff.
      split; [apply Z.leb_le|apply Z.ltb_lt]; lia.
    - reflexivity.
    - destruct H as [H|[r [H _]]]; discriminate. }
  rewrite Hf. unfold ContentExtractor.handler. fold printed.
  destruct printed as [[]|]; simpl; repeat split;
    intros; try discriminate; reflexivity.
Qed.

End FailureFacts.

Lemma fetch_content_failure_witness :
  let net :=
    table_network
      (fun _ => Normal {| status_code := 404;
                          soup_of := Sample.article_page "A" "a" |}) in
  fst (ContentExtractor.fetch_content (lib := example_library) (net := net)
         (con := strict_console "[/b]") "https://a.example/" tt)
  = Normal None
  /\ forall page,
      fst (ContentExtractor.fetch_content (lib := example_library)
             (net := net) (con := strict_console "[/b]")
             "https://a.example/" tt)
      <> Normal (Some page).
Proof.
  intros net.
  destruct (fetch_content_failure (lib := example_library) (net := net)
              (con := strict_console "[/b]") "https://a.example/" tt)
    as [Hreturned [_ Hnever]].
  - right. eexists. split; [reflexivity|]. simpl. lia.
  - split; [apply Hreturned; reflexivity|exact Hnever].
Defined.

(** A 404 for an address that holds a closing tag: the warning raises
    and [fetch_content] does not return. *)
Example fetch_content_markup_error :
  fst (ContentExtractor.fetch_content (lib := example_library)
         (net := table_network
                   (fun _ => Normal {| status_code := 404;
                                       soup_of := Sample.empty_body_page |}))
         (con := strict_console "[/b]") "https://a.example/[/b]" tt)
  = Exception.
Proof. reflexivity. Qed.

Section PlainLinks.

Lemma search_step_plain (lib lib' : Library) (result : node) :
  (forall title_tag,
      Soup.find_class "a" "result__a" result = Some title_tag ->
      Url.is_redirect (Soup.get title_tag "href" "") = false) ->
  WebSearcher.search_step (lib := lib) [] result
  = WebSearcher.search_step (lib := lib') [] result.
Proof.
  intros H. unfold WebSearcher.search_step.
  destruct (Soup.find_class "a" "result__a" result) as [title_tag|];
    [|reflexivity].
  specialize (H title_tag eq_refl). unfold Url.is_redirect in H.
  unfold WebSearcher.resolve_redirect. rewrite H. reflexivity.
Qed.

(** X22. The library that decodes redirect links is consulted for those
    links only: on a page none of whose title anchors carries a redirect
    link, the stubs are the same whatever [urlparse] and [parse_qs] do,
    and each url is the [href] as written. *)
Theorem parse_results_plain_links (lib lib' : Library) (soup : node)
    (max_results : Z) :
  (forall result title_tag,
      In result (WebSearcher.containers soup) ->
      Soup.find_class "a" "result__a" result = Some title_tag ->
      Url.is_redirect (Soup.get title_tag "href" "") = false) ->
  WebSearcher.parse_results (lib := lib) soup max_results
  = WebSearcher.parse_results (lib := lib') soup max_results
  /\ forall stub,
      In stub (WebSearcher.parse_results (lib := lib) soup max_results) ->
      exists result title_tag,
        In result (WebSearcher.containers soup)
        /\ Soup.find_class "a" "result__a" result = Some title_tag
        /\ Result.url stub = Soup.get title_tag "href" "".
Proof.
  intros H. split.
  - rewrite !parse_results_flat_map.
    assert (Hin : forall c,
               In c (Py.slice_to max_results (WebSearcher.containers soup)) ->
               In c (WebSearcher.containers soup)).
    { intros c. unfold Py.slice_to.
      destruct (0 <=? max_results)%Z; intros Hc;
        match type of Hc with In _ (firstn ?n ?l) =>
          rewrite <- (firstn_skipn n l); apply in_or_app; now left
        end. }
    induction (Py.slice_to max_results (WebSearcher.containers soup))
      as [|c l IH]; [reflexivity|].
    simpl. rewrite IH by (intros c' Hc'; apply Hin; now right).
    f_equal. apply search_step_plain.
    intros t Ht. apply (H c t); [apply Hin; now left|exact Ht].
  - intros stub Hs.
    destruct (parse_results_url _ _ _ Hs) as [r [t [Hr [Ht Hu]]]].
    exists r, t. repeat split; try assumption.
    rewrite Hu. unfold WebSearcher.resolve_redirect.
    specialize (H r t Hr Ht). unfold Url.is_redirect in H.
    now rewrite H.
Qed.

End PlainLinks.

Lemma parse_results_plain_links_witness :
  WebSearcher.parse_results (lib := example_library) Sample.two_hits 5
  = WebSearcher.parse_results (lib := raising_library) Sample.two_hits 5.
Proof.
  apply (parse_results_plain_links example_library raising_library
           Sample.two_hits 5).
  intros result title_tag Hin Ht. vm_compute in Hin.
  destruct Hin as [<-|[<-|[]]]; vm_compute in Ht;
    injection Ht as <-; reflexivity.
Defined.

(** ** Git and gh operations *)

Section BindFacts.
Context {sh : Agent.Shell}.

Lemma bind_done {A B : Type} (c : Agent.Cmd A) (k : A -> Agent.Cmd B)
    (h h' : Agent.Host) (a : A) :
  c h = (Agent.Done a, h') -> Agent.bind c k h = k a h'.
Proof. intros H. unfold Agent.bind. now rewrite H. Qed.

Lemma bind_exit {A B : Type} (c : Agent.Cmd A) (k : A -> Agent.Cmd B)
    (h h' : Agent.Host) (code : Z) :
  c h = (Agent.Exit code, h') -> Agent.bind c k h = (Agent.Exit code, h').
Proof. intros H. unfold Agent.bind. now rewrite H. Qed.

Lemma bind_raise {A B : Type} (c : Agent.Cmd A) (k : A -> Agent.Cmd B)
    (h h' : Agent.Host) :
  c h = (Agent.Raise, h') -> Agent.bind c k h = (Agent.Raise, h').
Proof. intros H. unfold Agent.bind. now rewrite H. Qed.

End BindFacts.

Section AgentFacts2.
Context {sh : Agent.Shell} {con : Console}.

Lemma logged_run_git (args : list string) (capture : bool)
    (h : @Agent.Host sh) (log : list (list string)) :
  Agent.run_git_command (sh := Agent.logged_shell sh) args capture (h, log)
  = (match fst (Agent.subprocess_run ("git" :: args) capture h) with
     | Returned r => Agent.Done r
     | Raised => Agent.Exit 1
     end,
     (snd (Agent.subprocess_run ("git" :: args) capture h),
      log ++ [("git" :: args)%list])).
Proof.
  unfold Agent.run_git_command. simpl.
  destruct (Agent.subprocess_run ("git" :: args) capture h) as [[r|] h'];
    reflexivity.
Qed.

Lemma logged_is_git_repo (h h' : @Agent.Host sh) (log : list (list string))
    (r : Agent.CompletedProcess) :
  Agent.subprocess_run Agent.rev_parse true h = (Returned r, h') ->
  Agent.is_git_repo (sh := Agent.logged_shell sh) (h, log)
  = (Agent.Done (Agent.returncode r =? 0)%Z, (h', log ++ [Agent.rev_parse])).
Proof.
  intros H. unfold Agent.is_git_repo.
  erewrite (bind_done (sh := Agent.logged_shell sh)); [reflexivity|].
  rewrite logged_run_git.
  change ("git" :: ["rev-parse"; "--git-dir"])%list with Agent.rev_parse.
  rewrite H. reflexivity.
Qed.

Lemma logged_has_changes (h h' : @Agent.Host sh) (log : list (list string))
    (r : Agent.CompletedProcess) :
  Agent.subprocess_run Agent.status_porcelain true h = (Returned r, h') ->
  Agent.has_uncommitted_changes (sh := Agent.logged_shell sh) (h, log)
  = (Agent.Done (Py.truthy (Py.strip (Agent.stdout r))),
     (h', log ++ [Agent.status_porcelain])).
Proof.
  intros H. unfold Agent.has_uncommitted_changes.
  erewrite (bind_done (sh := Agent.logged_shell sh)); [reflexivity|].
  rewrite logged_run_git.
  change ("git" :: ["status"; "--porcelain"])%list
    with Agent.status_porcelain.
  rewrite H. reflexivity.
Qed.

Lemma logged_current_branch (h h' : @Agent.Host sh)
    (log : list (list string)) (r : Agent.CompletedProcess) :
  Agent.subprocess_run Agent.show_current true h = (Returned r, h') ->
  Agent.get_current_branch (sh := Agent.logged_shell sh) (h, log)
  = (Agent.Done (if (Agent.returncode r =? 0)%Z
                 then Some (Py.strip (Agent.stdout r)) else None),
     (h', log ++ [Agent.show_current])).
Proof.
  intros H. unfold Agent.get_current_branch.
  erewrite (bind_done (sh := Agent.logged_shell sh)); [reflexivity|].
  rewrite logged_run_git.
  change ("git" :: ["branch"; "--show-current"])%list
    with Agent.show_current.
  rewrite H. reflexivity.
Qed.

(** X23. Outside a git repository ([git rev-parse --git-dir] returns a
    code other than 0), [pull], [push] and [commit] return [False] and
    run no other command: nothing is pulled, pushed, staged or
    committed. *)
Theorem outside_repository (h h' : @Agent.Host sh)
    (log : list (list string)) (r : Agent.CompletedProcess) :
  Agent.subprocess_run Agent.rev_parse true h = (Returned r, h') ->
  Agent.returncode r <> 0%Z ->
  forall branch force message add_all,
    Agent.pull (sh := Agent.logged_shell sh) branch (h, log)
    = (Agent.Done false, (h', log ++ [Agent.rev_parse]))
    /\ Agent.push (sh := Agent.logged_shell sh) branch force (h, log)
       = (Agent.Done false, (h', log ++ [Agent.rev_parse]))
    /\ Agent.commit (sh := Agent.logged_shell sh) message add_all (h, log)
       = (Agent.Done false, (h', log ++ [Agent.rev_parse])).
Proof.
  intros Hr Hcode branch force message add_all.
  pose proof (logged_is_git_repo h h' log r Hr) as Hrepo.
  apply Z.eqb_neq in Hcode. rewrite Hcode in Hrepo.
  unfold Agent.pull, Agent.push, Agent.commit.
  rewrite !(bind_done (sh := Agent.logged_shell sh) _ _ _ _ _ Hrepo). simpl. auto.
Qed.

(** X24. In a repository, [push] with a branch given first prints the
    message that names the branch. When that print returns it runs
    exactly [git push origin <branch>], with [--force] appended when and
    only when force is asked for, and returns whether that command
    returned 0; when the command cannot be started it exits with 1.
    When the print raises, the exception leaves [push] and [git push] is
    not run. *)
Theorem push_command (h h1 : @Agent.Host sh) (log : list (list string))
    (r : Agent.CompletedProcess) (b : string) (force : bool) :
  Agent.subprocess_run Agent.rev_parse true h = (Returned r, h1) ->
  Agent.returncode r = 0%Z ->
  Py.truthy b = true ->
  let argv :=
    ["git"; "push"; "origin"; b] ++ (if force then ["--force"] else []) in
  (console_print (Agent.pushing b) = Returned tt ->
   Agent.push (sh := Agent.logged_shell sh) (Some b) force (h, log)
   = (Agent.finished (fst (Agent.subprocess_run argv false h1)),
      (snd (Agent.subprocess_run argv false h1),
       log ++ [Agent.rev_parse; argv])))
  /\ (console_print (Agent.pushing b) = Raised ->
      Agent.push (sh := Agent.logged_shell sh) (Some b) force (h, log)
      = (Agent.Raise, (h1, log ++ [Agent.rev_parse]))).
Proof.
  intros Hr Hcode Hb argv.
  pose proof (logged_is_git_repo h h1 log r Hr) as Hrepo.
  rewrite Hcode in Hrepo. simpl in Hrepo.
  unfold Agent.push.
  rewrite (bind_done (sh := Agent.logged_shell sh) _ _ _ _ _ Hrepo).
  change (negb true) with false. cbv iota.
  unfold Agent.branch_or_current. rewrite Hb.
  erewrite (bind_done (sh := Agent.logged_shell sh)) by reflexivity.
  split; intros Hprint.
  - erewrite (bind_done (sh := Agent.logged_shell sh))
      by (unfold Agent.print_branch; rewrite Hprint; reflexivity).
    unfold Agent.run_git_on_branch.
    pose proof (logged_run_git
                  (["push"; "origin"]
                     ++ b :: (if force then ["--force"] else []))
                  false h1 (log ++ [Agent.rev_parse])) as Hrun.
    change ("git" :: ["push"; "origin"]
              ++ b :: (if force then ["--force"] else []))%list
      with argv in Hrun.
    rewrite <- app_assoc in Hrun. simpl app in Hrun.
    destruct (Agent.subprocess_run argv false h1) as [[r2|] h2];
      simpl in Hrun.
    + rewrite (bind_done (sh := Agent.logged_shell sh) _ _ _ _ _ Hrun).
      reflexivity.
    + rewrite (bind_exit (sh := Agent.logged_shell sh) _ _ _ _ _ Hrun).
      reflexivity.
  - erewrite (bind_raise (sh := Agent.logged_shell sh))
      by (unfold Agent.print_branch; rewrite Hprint; reflexivity).
    reflexivity.
Qed.

(** X25. In a repository with nothing to commit ([git status
    --porcelain] prints nothing but white space), [commit] returns
    [False] and [git commit] is never run: the commands are the
    repository check, [git add .] when all changes are to be staged, and
    the status. *)
Theorem commit_without_changes (h h1 h2 h3 : @Agent.Host sh)
    (log : list (list string)) (r rs : Agent.CompletedProcess)
    (message : string) (add_all : bool) :
  Agent.subprocess_run Agent.rev_parse true h = (Returned r, h1) ->
  Agent.returncode r = 0%Z ->
  (if add_all
   then exists ra,
       Agent.subprocess_run Agent.add_all_files true h1 = (Returned ra, h2)
   else h2 = h1) ->
  Agent.subprocess_run Agent.status_porcelain true h2 = (Returned rs, h3) ->
  Py.strip (Agent.stdout rs) = "" ->
  Agent.commit (sh := Agent.logged_shell sh) message add_all (h, log)
  = (Agent.Done false,
     (h3, log ++ [Agent.rev_parse]
            ++ (if add_all then [Agent.add_all_files] else [])
            ++ [Agent.status_porcelain])).
Proof.
  intros Hr Hcode Hadd Hs Hblank.
  pose proof (logged_is_git_repo h h1 log r Hr) as Hrepo.
  rewrite Hcode in Hrepo. simpl in Hrepo.
  unfold Agent.commit. rewrite (bind_done (sh := Agent.logged_shell sh) _ _ _ _ _ Hrepo). change (negb true) with false. cbv iota.
  destruct add_all.
  - destruct Hadd as [ra Ha].
    pose proof (logged_run_git ["add"; "."] true h1
                  (log ++ [Agent.rev_parse])) as Hrun.
    change ("git" :: ["add"; "."])%list with Agent.add_all_files in Hrun.
    rewrite Ha in Hrun. simpl in Hrun.
    erewrite (bind_done (sh := Agent.logged_shell sh));
      [|erewrite (bind_done (sh := Agent.logged_shell sh)); [reflexivity|exact Hrun]].
    pose proof (logged_has_changes h2 h3
                  ((log ++ [Agent.rev_parse]) ++ [Agent.add_all_files])
                  rs Hs) as Hc.
    rewrite Hblank in Hc. simpl in Hc.
    rewrite (bind_done (sh := Agent.logged_shell sh) _ _ _ _ _ Hc). simpl.
    unfold Agent.ret. now rewrite <- !app_assoc.
  - subst h2. erewrite (bind_done (sh := Agent.logged_shell sh)) by reflexivity.
    pose proof (logged_has_changes h1 h3 (log ++ [Agent.rev_parse]) rs Hs)
      as Hc.
    rewrite Hblank in Hc. simpl in Hc.
    rewrite (bind_done (sh := Agent.logged_shell sh) _ _ _ _ _ Hc). simpl.
    unfold Agent.ret. now rewrite <- !app_assoc.
Qed.

(** X26. In a repository, when no branch is given and the current
    branch cannot be told ([git branch --show-current] returns a code
    other than 0), [pull] and [push] exit with status 1 and neither
    [git pull] nor [git push] is run. *)
Theorem no_branch_exits (h h1 h2 : @Agent.Host sh)
    (log : list (list string)) (r rb : Agent.CompletedProcess)
    (force : bool) :
  Agent.subprocess_run Agent.rev_parse true h = (Returned r, h1) ->
  Agent.returncode r = 0%Z ->
  Agent.subprocess_run Agent.show_current true h1 = (Returned rb, h2) ->
  Agent.returncode rb <> 0%Z ->
  Agent.pull (sh := Agent.logged_shell sh) None (h, log)
  = (Agent.Exit 1, (h2, log ++ [Agent.rev_parse; Agent.show_current]))
  /\ Agent.push (sh := Agent.logged_shell sh) None force (h, log)
     = (Agent.Exit 1, (h2, log ++ [Agent.rev_parse; Agent.show_current])).
Proof.
  intros Hr Hcode Hb Hbcode.
  pose proof (logged_is_git_repo h h1 log r Hr) as Hrepo.
  rewrite Hcode in Hrepo. simpl in Hrepo.
  apply Z.eqb_neq in Hbcode.
  pose proof (logged_current_branch h1 h2 (log ++ [Agent.rev_parse]) rb Hb)
    as Hbranch.
  rewrite Hbcode, <- app_assoc in Hbranch. simpl app in Hbranch.
  unfold Agent.pull, Agent.push.
  rewrite !(bind_done (sh := Agent.logged_shell sh) _ _ _ _ _ Hrepo). change (negb true) with false. cbv iota.
  unfold Agent.branch_or_current.
  rewrite !(bind_done (sh := Agent.logged_shell sh) _ _ _ _ _ Hbranch).
  split; (erewrite (bind_done (sh := Agent.logged_shell sh))
            by reflexivity); reflexivity.
Qed.

(** X27. When [gh] cannot be started (it is not installed, or
    [subprocess.run] raises otherwise), [check_auth], [get_auth_user],
    [create_issue] and [create_pr] exit with status 1. *)
Theorem gh_missing (h : Agent.Host) :
  (forall args capture h0,
      fst (Agent.subprocess_run ("gh" :: args) capture h0) = Raised) ->
  fst (Agent.check_auth h) = Agent.Exit 1
  /\ fst (Agent.get_auth_user h) = Agent.Exit 1
  /\ (forall title body labels,
         fst (Agent.create_issue title body labels h) = Agent.Exit 1)
  /\ (forall title body base,
         fst (Agent.create_pr title body base h) = Agent.Exit 1).
Proof.
  intros Hgh.
  assert (Hrun : forall args capture,
             exists h',
               Agent.run_gh_command args capture h = (Agent.Exit 1, h')).
  { intros args capture. unfold Agent.run_gh_command.
    specialize (Hgh args capture h).
    destruct (Agent.subprocess_run ("gh" :: args) capture h) as [[r|] h'];
      [discriminate|]. now exists h'. }
  unfold Agent.check_auth, Agent.get_auth_user, Agent.create_issue,
    Agent.create_pr.
  repeat split; intros;
    match goal with
    | |- context [Agent.run_gh_command ?a ?c] =>
        destruct (Hrun a c) as [h' Hx];
        rewrite (bind_exit _ _ _ _ _ Hx); reflexivity
    end.
Qed.

End AgentFacts2.

Lemma outside_repository_witness :
  Agent.pull (sh := Agent.logged_shell Agent.no_repo_shell)
    (con := plain_console) None (tt, [])
  = (Agent.Done false, (tt, [] ++ [Agent.rev_parse]))
  /\ Agent.push (sh := Agent.logged_shell Agent.no_repo_shell)
       (con := plain_console) None true (tt, [])
     = (Agent.Done false, (tt, [] ++ [Agent.rev_parse]))
  /\ Agent.commit (sh := Agent.logged_shell Agent.no_repo_shell) "m" true
       (tt, [])
     = (Agent.Done false, (tt, [] ++ [Agent.rev_parse])).
Proof.
  apply (outside_repository (sh := Agent.no_repo_shell)
           (con := plain_console) tt tt []
           {| Agent.returncode := 128; Agent.stdout := "" |}).
  - reflexivity.
  - simpl. lia.
Defined.

Lemma push_command_witness :
  Agent.push (sh := Agent.logged_shell Agent.clean_repo_shell)
    (con := strict_console "[/b]") (Some "main") true (tt, [])
  = (Agent.Done true,
     (tt, [] ++ [Agent.rev_parse;
                 ["git"; "push"; "origin"; "main"] ++ ["--force"]])).
Proof.
  destruct (push_command (sh := Agent.clean_repo_shell)
              (con := strict_console "[/b]") tt tt []
              {| Agent.returncode := 0; Agent.stdout := "" |} "main" true
              eq_refl eq_refl eq_refl) as [Hreturned _].
  apply Hreturned. reflexivity.
Defined.

(** A branch that holds a closing tag: the message raises and nothing is
    pushed. *)
Example push_markup_error :
  Agent.push (sh := Agent.logged_shell Agent.clean_repo_shell)
    (con := strict_console "[/y]") (Some "x[/y]") false (tt, [])
  = (Agent.Raise, (tt, [Agent.rev_parse])).
Proof. reflexivity. Qed.

Example push_forced :
  Agent.push (sh := Agent.logged_shell Agent.clean_repo_shell)
    (con := plain_console) (Some "main") true (tt, [])
  = (Agent.Done true,
     (tt, [Agent.rev_parse; ["git"; "push"; "origin"; "main"; "--force"]])).
Proof. reflexivity. Qed.

Lemma commit_without_changes_witness :
  Agent.commit (sh := Agent.logged_shell Agent.clean_repo_shell) "m" true
    (tt, [])
  = (Agent.Done false,
     (tt, [Agent.rev_parse; Agent.add_all_files; Agent.status_porcelain])).
Proof.
  apply (commit_without_changes (sh := Agent.clean_repo_shell) tt tt tt tt []
           {| Agent.returncode := 0; Agent.stdout := "" |}
           {| Agent.returncode := 0; Agent.stdout := "" |} "m" true).
  - reflexivity.
  - reflexivity.
  - eexists. reflexivity.
  - reflexivity.
  - reflexivity.
Defined.

Lemma no_branch_exits_witness :
  Agent.pull (sh := Agent.logged_shell Agent.no_branch_shell)
    (con := plain_console) None (tt, [])
  = (Agent.Exit 1, (tt, [Agent.rev_parse; Agent.show_current]))
  /\ Agent.push (sh := Agent.logged_shell Agent.no_branch_shell)
       (con := plain_console) None false (tt, [])
     = (Agent.Exit 1, (tt, [Agent.rev_parse; Agent.show_current])).
Proof.
  apply (no_branch_exits (sh := Agent.no_branch_shell)
           (con := plain_console) tt tt tt []
           {| Agent.returncode := 0; Agent.stdout := "" |}
           {| Agent.returncode := 1; Agent.stdout := "" |} false).
  - reflexivity.
  - reflexivity.
  - reflexivity.
  - simpl. lia.
Defined.

Lemma gh_missing_witness :
  fst (Agent.check_auth (sh := Agent.broken_shell) tt) = Agent.Exit 1
  /\ fst (Agent.get_auth_user (sh := Agent.broken_shell) tt) = Agent.Exit 1
  /\ (forall title body labels,
         fst (Agent.create_issue (sh := Agent.broken_shell)
                title body labels tt) = Agent.Exit 1)
  /\ (forall title body base,
         fst (Agent.create_pr (sh := Agent.broken_shell)
                title body base tt) = Agent.Exit 1).
Proof.
  apply (gh_missing (sh := Agent.broken_shell) tt).
  reflexivity.
Defined.
